(** * Unitree Go2 LiDAR diagnostics: a shallow embedding of the Hesai scripts

    The development embeds, function by function, the parts of
    - [projects/lidar_testing/hesai_xt16_activation.py]
    - [go2_slam_bridge/enhanced_lidar_network_sniffer.py]
    - [projects/lidar_testing/hesai_network_config.py]
    - [projects/lidar_testing/quick_hesai_check.py]
    - [projects/lidar_testing/go2w_lidar_access.py] (its classifier)
    that the packet classifier, the capture ladder, the command channel and
    the network scanner consist of, and proves their properties.

    Sockets, subprocesses and the network are the environment: every call
    into them takes its outcome from an explicit world description, so each
    Python function becomes a total Rocq function of the world. *)

From Stdlib Require Import List Bool Arith ZArith Lia.
From Stdlib Require Import Strings.String Strings.Ascii Strings.Byte.
Import ListNotations.

Set Implicit Arguments.

(** ** Python values, exceptions and control flow *)

Module Py.

Definition bytes := list byte.

(** The errors of the socket and process layer, all of them [OSError]:
    [socket.timeout], [PermissionError], [FileNotFoundError] and the rest
    by errno. *)
Inductive oserror : Type :=
| ETIMEDOUT                          (* socket.timeout *)
| EPERM                              (* PermissionError *)
| ENOENT                             (* FileNotFoundError *)
| EADDRINUSE
| Errno (code : nat).

(** The exception classes the scripts can meet.  [KeyboardInterrupt] is
    the one class here that does not derive from [Exception]. *)
Inductive exn : Type :=
| KeyboardInterrupt
| OSError (err : oserror)
| TimeoutExpired                     (* subprocess.TimeoutExpired *)
| StructError                        (* struct.error *)
| TypeError
| ValueError
| UnboundLocalError (name : string).

Definition is_Exception (e : exn) : bool :=
  match e with
  | KeyboardInterrupt => false
  | _ => true
  end.

Definition is_KeyboardInterrupt (e : exn) : bool :=
  match e with
  | KeyboardInterrupt => true
  | _ => false
  end.

(** [except socket.timeout]. *)
Definition is_socket_timeout (e : exn) : bool :=
  match e with
  | OSError ETIMEDOUT => true
  | _ => false
  end.

(** A bare [except:] catches every exception. *)
Definition any_exn (_ : exn) : bool := true.

(** What evaluating a call gives: a value, or a raised exception. *)
Inductive result (A : Type) : Type :=
| Return (a : A)
| Raise (e : exn).
Arguments Raise {A} e.

(** [len(data)], [data[:n]] and [data[i:j]] on bytes. *)
Definition len (data : bytes) : nat := List.length data.
Definition slice_to (n : nat) (data : bytes) : bytes := firstn n data.
Definition slice (i j : nat) (data : bytes) : bytes :=
  firstn (j - i) (skipn i data).

(** [pattern in data] on bytes: [pattern] occurs as a contiguous run. *)
Fixpoint starts_with (pattern data : bytes) : bool :=
  match pattern, data with
  | [], _ => true
  | _ :: _, [] => false
  | p :: pattern', d :: data' => Byte.eqb p d && starts_with pattern' data'
  end.

Fixpoint bytes_in (pattern data : bytes) : bool :=
  starts_with pattern data
  || match data with
     | [] => false
     | _ :: data' => bytes_in pattern data'
     end.

(** [needle in text] on [str]. *)
Fixpoint str_starts_with (needle text : string) : bool :=
  match needle, text with
  | EmptyString, _ => true
  | String _ _, EmptyString => false
  | String a needle', String b text' =>
      Ascii.eqb a b && str_starts_with needle' text'
  end.

Fixpoint str_in (needle text : string) : bool :=
  str_starts_with needle text
  || match text with
     | EmptyString => false
     | String _ text' => str_in needle text'
     end.

(** ** Statements with effects

    A block of statements over a state [St] (the object's fields and the
    frame's local variables) that emits observable events [Ev] (the lines it
    prints, the calls it makes on the network).  The state reached and the
    events emitted before an exception is raised are kept, as Python keeps
    them. *)
Section Blocks.
Context {St Ev : Type}.

Definition M (A : Type) : Type := St -> result A * St * list Ev.

Definition ret {A} (a : A) : M A := fun s => (Return a, s, []).
Definition raise {A} (e : exn) : M A := fun s => (Raise e, s, []).
Definition emit (ev : Ev) : M unit := fun s => (Return tt, s, [ev]).
Definition get : M St := fun s => (Return s, s, []).
Definition modify (f : St -> St) : M unit := fun s => (Return tt, f s, []).

Definition bind {A B} (m : M A) (k : A -> M B) : M B :=
  fun s =>
    match m s with
    | (Return a, s', out) =>
        let '(r, s'', out') := k a s' in (r, s'', out ++ out')
    | (Raise e, s', out) => (Raise e, s', out)
    end.

(** [try: body except ...: ...], the [except] clauses as one function
    that gives the handler of the first clause matching the exception, if
    one does. *)
Definition try_except_clauses {A} (body : M A)
           (clauses : exn -> option (M A)) : M A :=
  fun s =>
    match body s with
    | (Return a, s', out) => (Return a, s', out)
    | (Raise e, s', out) =>
        match clauses e with
        | Some handler =>
            let '(r, s'', out') := handler s' in (r, s'', out ++ out')
        | None => (Raise e, s', out)
        end
    end.

(** [try: body except <class> as e: handler], the class given by
    [catches]. *)
Definition try_except {A} (body : M A) (catches : exn -> bool)
           (handler : exn -> M A) : M A :=
  try_except_clauses body
    (fun e => if catches e then Some (handler e) else None).

(** [try: body finally: cleanup].  The cleanup runs on every exit of the
    body; an exception of the cleanup replaces what was pending. *)
Definition try_finally {A} (body : M A) (cleanup : M unit) : M A :=
  fun s =>
    let '(r, s', out) := body s in
    match cleanup s' with
    | (Return _, s'', out') => (r, s'', out ++ out')
    | (Raise e, s'', out') => (Raise e, s'', out ++ out')
    end.

(** [for x in xs: body] and [for i, x in enumerate(xs, start): body], for
    a body without [break]. *)
Fixpoint for_each {A} (body : A -> M unit) (xs : list A) : M unit :=
  match xs with
  | [] => ret tt
  | x :: xs' => bind (body x) (fun _ => for_each body xs')
  end.

Fixpoint for_enumerate {A} (body : nat -> A -> M unit) (start : nat)
         (xs : list A) : M unit :=
  match xs with
  | [] => ret tt
  | x :: xs' => bind (body start x) (fun _ => for_enumerate body (S start) xs')
  end.

End Blocks.

(** A call of a function whose frame holds the locals [locals]: the
    caller's state is untouched. *)
Definition call_with {St St' Ev A} (locals : St') (f : M (St:=St') (Ev:=Ev) A)
  : M (St:=St) (Ev:=Ev) A :=
  fun s => let '(r, _, out) := f locals in (r, s, out).

(** [text[:-1]] on [str]. *)
Fixpoint drop_last (text : string) : string :=
  match text with
  | EmptyString => EmptyString
  | String c EmptyString => EmptyString
  | String c text' => String c (drop_last text')
  end.

End Py.

Import Py.

Declare Scope py_scope.
Delimit Scope py_scope with py.
Notation "x <- m ;; k" := (Py.bind m (fun x => k))
  (at level 61, m at next level, right associativity) : py_scope.
Notation "m ;; k" := (Py.bind m (fun _ => k))
  (at level 61, right associativity) : py_scope.

(** A datagram's peer, [(host, port)]. *)
Definition address : Type := (string * Z)%type.

(** What one [recvfrom] gives: a datagram and its source, or an error of
    class [Err]. *)
Inductive recv_event (Err : Type) : Type :=
| RecvData (data : bytes) (addr : address)
| RecvRaise (e : Err).
Arguments RecvData {Err} data addr.
Arguments RecvRaise {Err} e.

(** ** hesai_xt16_activation.py: the packet classifier *)

Module Activation.

(** [hesai_patterns] of [analyze_hesai_packet]. *)
Definition hesai_patterns : list bytes :=
  [ [xee; xff; x55; xaa];
    [xff; xee; xaa; x55];
    [x55; xaa; xff; xee] ].

(** The [for pattern in hesai_patterns] loop of lines 153-155: whether
    some pattern is [in data[:20]]. *)
Definition header_has_pattern (data : bytes) : bool :=
  existsb (fun pattern => bytes_in pattern (slice_to 20 data)) hesai_patterns.

(** [HesaiXT16Controller.analyze_hesai_packet]. *)
Definition analyze_hesai_packet (data : bytes) : bool :=
  if len data <? 512 then false
  else if header_has_pattern data then true
  else if (1000 <? len data) && (len data <? 2000) then true
  else false.

(** The same control flow, each [return] tagged with the rule that fired:
    lines 140 and 161 give [NoMatch], line 155 [SignatureMatch], line 159
    [SizeHeuristic]. *)
Inductive Reason : Type := SignatureMatch | SizeHeuristic | NoMatch.

Record Classification : Type :=
  { matched : bool; reason : Reason }.

Definition classify (data : bytes) : Classification :=
  if len data <? 512 then {| matched := false; reason := NoMatch |}
  else if header_has_pattern data
       then {| matched := true; reason := SignatureMatch |}
  else if (1000 <? len data) && (len data <? 2000)
       then {| matched := true; reason := SizeHeuristic |}
  else {| matched := false; reason := NoMatch |}.

(** *** The scanner and the command channel

    The fields of [HesaiXT16Controller.__init__] that the two functions
    read, and the [commands] of [send_activation_commands]. *)
Definition device_port : Z := 9347.

Definition possible_ips : list string :=
  [ "192.168.1.201"; "192.168.123.201"; "192.168.0.201"; "10.5.5.200" ]%string.

Definition commands : list bytes :=
  [ [x47; x74; x00; x01; x00; x00; x00; x00];
    [x47; x74; x00; x02; x39; x00; x00; x00];
    [x47; x74; x00; x03; x00; x00; x00; x00] ].

(** What [subprocess.run(['ping', ...], capture_output=True, timeout=5)]
    gives: a completed process with its return code, or an exception. *)
Inductive ping_outcome : Type :=
| PingExit (returncode : Z)
| PingRaise (e : exn).

(** The environment of one run.  The calls on the control socket are
    numbered by the command they serve, from 0. *)
Record world : Type :=
  { ping : string -> ping_outcome;
    ctl_socket : option oserror;             (* socket.socket(...) fails *)
    ctl_sendto : nat -> option oserror;      (* sock.sendto(...) fails *)
    ctl_recvfrom : nat -> recv_event oserror (* sock.recvfrom(1024) *) }.

(** The lines printed and the calls made, in order. *)
Inductive event : Type :=
| ScanBanner
| Testing (ip : string)
| RunPing (ip : string)                      (* the ping subprocess *)
| PingResponds (ip : string)
| PingNoResponse (ip : string)
| PingFailed (ip : string)
| FoundDevices (ips : list string)
| NoDevicesFound
| SendBanner (ip : string)
| SocketCreate                               (* socket.socket(...) *)
| SendingCommand (i n : nat)
| Sendto (cmd : bytes) (dest : address)      (* sock.sendto(cmd, dest) *)
| Recvfrom                                   (* sock.recvfrom(1024) *)
| Response (nbytes : nat)
| NoResponse
| CommandFailed (i : nat) (e : exn)
| Sleep                                      (* time.sleep(0.5) *)
| SocketClose
| CommandsSent
| ActivationFailed (e : exn).

Definition run_ping (w : world) (ip : string) : M (St:=list string) Z :=
  fun s => (match ping w ip with
            | PingExit rc => Return rc
            | PingRaise e => Raise e
            end, s, [RunPing ip]).

(** The body of the [for ip in self.possible_ips] loop; the state is the
    local [found_devices]. *)
Definition scan_probe (w : world) (ip : string) : M (St:=list string) unit :=
  (emit (Testing ip) ;;
   try_except
     (returncode <- run_ping w ip ;;
      if (returncode =? 0)%Z
      then emit (PingResponds ip) ;;
           modify (fun found_devices => found_devices ++ [ip])
      else emit (PingNoResponse ip))
     any_exn
     (fun _ => emit (PingFailed ip)))%py.

(** [HesaiXT16Controller.scan_for_lidar]. *)
Definition scan_for_lidar (w : world) : M (St:=list string) (list string) :=
  (emit ScanBanner ;;
   modify (fun _ => []) ;;
   for_each (scan_probe w) possible_ips ;;
   found_devices <- get ;;
   match found_devices with
   | _ :: _ => emit (FoundDevices found_devices) ;; ret found_devices
   | [] => emit NoDevicesFound ;; ret []
   end)%py.

Definition socket_create (w : world) : M (St:=unit) unit :=
  fun s => (match ctl_socket w with
            | None => Return tt
            | Some err => Raise (OSError err)
            end, s, [SocketCreate]).

Definition sendto (w : world) (i : nat) (cmd : bytes) (dest : address)
  : M (St:=unit) unit :=
  fun s => (match ctl_sendto w i with
            | None => Return tt
            | Some err => Raise (OSError err)
            end, s, [Sendto cmd dest]).

Definition recvfrom (w : world) (i : nat) : M (St:=unit) (bytes * address) :=
  fun s => (match ctl_recvfrom w i with
            | RecvData data addr => Return (data, addr)
            | RecvRaise err => Raise (OSError err)
            end, s, [Recvfrom]).

(** The body of [for i, cmd in enumerate(commands)], [n] being
    [len(commands)]. *)
Definition send_command (w : world) (ip : string) (n i : nat) (cmd : bytes)
  : M (St:=unit) unit :=
  (emit (SendingCommand (i + 1) n) ;;
   try_except
     (sendto w i cmd (ip, device_port) ;;
      try_except
        (response <- recvfrom w i ;;
         emit (Response (len (fst response))))
        is_socket_timeout
        (fun _ => emit NoResponse))
     is_Exception
     (fun e => emit (CommandFailed (i + 1) e)) ;;
   emit Sleep)%py.

(** [send_activation_commands] with the command list as a parameter. *)
Definition send_commands_to (w : world) (ip : string) (cmds : list bytes)
  : M (St:=unit) bool :=
  (emit (SendBanner ip) ;;
   try_except
     (socket_create w ;;
      for_enumerate (send_command w ip (List.length cmds)) 0 cmds ;;
      emit SocketClose ;;
      emit CommandsSent ;;
      ret true)
     is_Exception
     (fun e => emit (ActivationFailed e) ;; ret false))%py.

(** [HesaiXT16Controller.send_activation_commands]. *)
Definition send_activation_commands (w : world) (ip : string)
  : M (St:=unit) bool :=
  send_commands_to w ip commands.

(** The per-command outcomes a run printed: one of "Response", "No
    response" and "Command i failed" per entry; and the datagrams it
    handed to [sendto]. *)
Definition is_command_result (ev : event) : bool :=
  match ev with
  | Response _ | NoResponse | CommandFailed _ _ => true
  | _ => false
  end.

Definition command_results (out : list event) : list event :=
  filter is_command_result out.

Definition is_sendto (ev : event) : bool :=
  match ev with
  | Sendto _ _ => true
  | _ => false
  end.

Definition sendto_calls (out : list event) : list event :=
  filter is_sendto out.

(** Whether [ip] answers the probe of [scan_for_lidar]: the ping process
    ends with return code 0. *)
Definition responds (w : world) (ip : string) : bool :=
  match ping w ip with
  | PingExit returncode => (returncode =? 0)%Z
  | PingRaise _ => false
  end.

(** What the world makes of the [i]-th command: the line that the
    iteration serving it prints. *)
Definition command_outcome (w : world) (i : nat) : event :=
  match ctl_sendto w i with
  | Some err => CommandFailed (i + 1) (OSError err)
  | None =>
      match ctl_recvfrom w i with
      | RecvData data _ => Response (len data)
      | RecvRaise ETIMEDOUT => NoResponse
      | RecvRaise err => CommandFailed (i + 1) (OSError err)
      end
  end.

(** The result and the events of a run from a fresh frame. *)
Definition run {St A} (m : M (St:=St) (Ev:=event) A) (s : St)
  : result A * list event :=
  let '(r, _, out) := m s in (r, out).

End Activation.

(** ** go2w_lidar_access.py: the classifier of the Go2-W script

    The sibling of [analyze_hesai_packet], with 2-byte headers, an 8-byte
    window, a 16-byte minimum and a lower bound only on the size. *)

Module Go2wAccess.

Definition hesai_headers : list bytes :=
  [ [xee; xff]; [xff; xee]; [xaa; x55] ].

Definition header_has_pattern (data : bytes) : bool :=
  existsb (fun pattern => bytes_in pattern (slice_to 8 data)) hesai_headers.

(** [Go2WLidarAccess.analyze_lidar_packet]; nothing in the body of its
    [try] raises. *)
Definition analyze_lidar_packet (data : bytes) : bool :=
  if len data <? 16 then false
  else if header_has_pattern data then true
  else if 1200 <=? len data then true
  else false.

End Go2wAccess.

(** ** enhanced_lidar_network_sniffer.py: the capture ladder *)

Module Sniffer.

(** The fields of [EnhancedLidarSniffer]. *)
Record EnhancedLidarSniffer : Type :=
  { packet_count : nat; running : bool }.

(** [EnhancedLidarSniffer.__init__]. *)
Definition init : EnhancedLidarSniffer :=
  {| packet_count := 0; running := true |}.

(** The frame of a method call: [self] and the local variable [sock],
    unbound until [socket.socket] has returned. *)
Record frame : Type :=
  { self : EnhancedLidarSniffer; sock_bound : bool }.

Definition bind_sock (fr : frame) : frame :=
  {| self := self fr; sock_bound := true |}.

(** [self.packet_count += 1] and [self.running = False]. *)
Definition incr_packet_count (fr : frame) : frame :=
  {| self := {| packet_count := packet_count (self fr) + 1;
                running := running (self fr) |};
     sock_bound := sock_bound fr |}.

Definition stop_running (fr : frame) : frame :=
  {| self := {| packet_count := packet_count (self fr); running := false |};
     sock_bound := sock_bound fr |}.

(** A packet as scapy hands it to the [prn] callback: whether it has a UDP
    layer, that layer's [dport], its length, [src] and [dst]. *)
Record scapy_packet : Type :=
  { has_UDP : bool; dport : Z; plen : nat; psrc : string; pdst : string }.

(** The environment of one run of the ladder. *)
Record world : Type :=
  { udp_socket : option exn;            (* method 1: socket.socket fails *)
    udp_bind : option exn;              (* method 1: sock.bind fails *)
    udp_recvfrom : recv_event exn;      (* method 1: sock.recvfrom(4096) *)
    tcpdump : result string;            (* method 4: the stdout of the run *)
    raw_socket : option exn;            (* method 3: socket.socket fails *)
    raw_recvfrom : list (recv_event exn);
                                        (* method 3: the successive
                                           recvfrom(65535); after them the
                                           10 s timeout *)
    sniffed : list scapy_packet;        (* method 2: packets given to prn *)
    sniff_raise : option exn            (* method 2: sniff then raises *) }.

(** The lines the methods print and the calls they make. *)
Inductive event : Type :=
| MethodBanner (m : nat)
| SocketCreate (m : nat)
| Bind (port : Z)
| Recvfrom (m : nat)
| SocketClose (m : nat)
| Packet (m count nbytes : nat)
| MethodFailed (m : nat) (e : exn)
| RunTcpdump
| Found (n : nat)
| FoundLine (i : nat) (line : string)
| NoPacketsFound
| NoOutput
| RunSniff
| SourceDestination (src dst : string).

Definition method : Type := M (St:=frame) (Ev:=event) bool.

(** [sock = socket.socket(...)]: the local is bound only if the call
    returns. *)
Definition socket_create (m : nat) (fails : option exn)
  : M (St:=frame) (Ev:=event) unit :=
  fun fr => match fails with
            | None => (Return tt, bind_sock fr, [SocketCreate m])
            | Some e => (Raise e, fr, [SocketCreate m])
            end.

(** [sock.close()] in the [finally] clause: reading an unbound local
    raises [UnboundLocalError]. *)
Definition sock_close (m : nat) : M (St:=frame) (Ev:=event) unit :=
  fun fr => if sock_bound fr
            then (Return tt, fr, [SocketClose m])
            else (Raise (UnboundLocalError "sock"), fr, []).

Definition call_or_raise (ev : event) (fails : option exn)
  : M (St:=frame) (Ev:=event) unit :=
  fun fr => match fails with
            | None => (Return tt, fr, [ev])
            | Some e => (Raise e, fr, [ev])
            end.

Definition recvfrom (m : nat) (r : recv_event exn)
  : M (St:=frame) (Ev:=event) (bytes * address) :=
  fun fr => match r with
            | RecvData data addr => (Return (data, addr), fr, [Recvfrom m])
            | RecvRaise e => (Raise e, fr, [Recvfrom m])
            end.

(** How an iteration of a [while] body ends. *)
Inductive flow : Type :=
| Continue
| Break
| ReturnValue (b : bool).

(** The statements after a [try] in which a [return] may have run:
    [Some b] when [return b] ran, [None] when control fell through. *)
Definition or_return_False (r : option bool) : M (St:=frame) (Ev:=event) bool :=
  match r with
  | Some b => ret b
  | None => ret false
  end.

(** [method1_direct_udp].  Every path through the body of
    [while self.running] leaves the loop ([return], [break] or an
    exception), so the loop is its first iteration. *)
Definition method1_direct_udp (w : world) : method :=
  (emit (MethodBanner 1) ;;
   r <- try_finally
          (try_except
             (socket_create 1 (udp_socket w) ;;
              call_or_raise (Bind 2368) (udp_bind w) ;;
              fr <- get ;;
              if running (self fr)
              then try_except
                     (received <- recvfrom 1 (udp_recvfrom w) ;;
                      modify incr_packet_count ;;
                      fr' <- get ;;
                      emit (Packet 1 (packet_count (self fr'))
                                   (len (fst received))) ;;
                      ret (Some true))
                     is_socket_timeout
                     (fun _ => ret None)
              else ret None)
             is_Exception
             (fun e => emit (MethodFailed 1 e) ;; ret None))
          (sock_close 1) ;;
   or_return_False r)%py.

(** [struct.unpack] of the two formats the raw capture reads: it raises
    [struct.error] unless the buffer has exactly the size of the format. *)
Definition byte_to_Z (b : byte) : Z := Z.of_N (Byte.to_N b).

Definition be16 (hi lo : byte) : Z := (byte_to_Z hi * 256 + byte_to_Z lo)%Z.

(** ['!BBHHHBBH4s4s'], an IPv4 header without options. *)
Record ip_header_fields : Type :=
  { ip_version_ihl : Z; ip_tos : Z; ip_total_length : Z; ip_id : Z;
    ip_flags_fragment : Z; ip_ttl : Z; ip_protocol : Z; ip_checksum : Z;
    ip_source : bytes; ip_destination : bytes }.

Definition unpack_ip_header (buffer : bytes) : result ip_header_fields :=
  match buffer with
  | [vi; tos; tl1; tl0; id1; id0; ff1; ff0; ttl; proto; ck1; ck0;
     s0; s1; s2; s3; d0; d1; d2; d3] =>
      Return {| ip_version_ihl := byte_to_Z vi; ip_tos := byte_to_Z tos;
                ip_total_length := be16 tl1 tl0; ip_id := be16 id1 id0;
                ip_flags_fragment := be16 ff1 ff0; ip_ttl := byte_to_Z ttl;
                ip_protocol := byte_to_Z proto; ip_checksum := be16 ck1 ck0;
                ip_source := [s0; s1; s2; s3];
                ip_destination := [d0; d1; d2; d3] |}
  | _ => Raise StructError
  end.

(** ['!HHHH'], a UDP header: source port, destination port, length,
    checksum. *)
Definition unpack_udp_header (buffer : bytes) : result (Z * Z * Z * Z) :=
  match buffer with
  | [sp1; sp0; dp1; dp0; ln1; ln0; ck1; ck0] =>
      Return (be16 sp1 sp0, be16 dp1 dp0, be16 ln1 ln0, be16 ck1 ck0)
  | _ => Raise StructError
  end.

Definition udp_dest_port (h : Z * Z * Z * Z) : Z :=
  let '(_, dest_port, _, _) := h in dest_port.

Definition lift {A} (r : result A) : M (St:=frame) (Ev:=event) A :=
  fun fr => (r, fr, []).

(** One pass through the body of [while self.running] of
    [method3_raw_socket]. *)
Definition raw_iteration (r : recv_event exn) : M (St:=frame) (Ev:=event) flow :=
  (try_except
     (received <- recvfrom 3 r ;;
      ip_header <- lift (unpack_ip_header (slice_to 20 (fst received))) ;;
      if (ip_protocol ip_header =? 17)%Z
      then udp_header <- lift (unpack_udp_header (slice 20 28 (fst received))) ;;
           if (udp_dest_port udp_header =? 2368)%Z
           then modify incr_packet_count ;;
                fr <- get ;;
                emit (Packet 3 (packet_count (self fr)) (len (fst received))) ;;
                ret (ReturnValue true)
           else ret Continue
      else ret Continue)
     is_socket_timeout
     (fun _ => ret Break))%py.

Definition after_iteration (f : flow) (again : M (St:=frame) (Ev:=event) (option bool))
  : M (St:=frame) (Ev:=event) (option bool) :=
  match f with
  | Continue => again
  | Break => ret None
  | ReturnValue b => ret (Some b)
  end.

(** The loop [while self.running] of [method3_raw_socket], over what the
    successive [recvfrom] calls give; when they are used up the socket's
    timeout expires. *)
Fixpoint raw_loop (recvs : list (recv_event exn))
  : M (St:=frame) (Ev:=event) (option bool) :=
  (fr <- get ;;
   if running (self fr)
   then match recvs with
        | [] =>
            f <- raw_iteration (RecvRaise (OSError ETIMEDOUT)) ;;
            after_iteration f (ret None)
        | r :: recvs' =>
            f <- raw_iteration r ;;
            after_iteration f (raw_loop recvs')
        end
   else ret None)%py.

(** [method3_raw_socket]. *)
Definition method3_raw_socket (w : world) : method :=
  (emit (MethodBanner 3) ;;
   r <- try_finally
          (try_except
             (socket_create 3 (raw_socket w) ;;
              raw_loop (raw_recvfrom w))
             is_Exception
             (fun e => emit (MethodFailed 3 e) ;; ret None))
          (sock_close 3) ;;
   or_return_False r)%py.

(** [str.strip()] and [str.split('\n')]. *)
Definition is_space (c : ascii) : bool :=
  let n := nat_of_ascii c in
  ((9 <=? n) && (n <=? 13)) || ((28 <=? n) && (n <=? 32)).

Fixpoint lstrip (s : string) : string :=
  match s with
  | EmptyString => EmptyString
  | String c s' => if is_space c then lstrip s' else s
  end.

Fixpoint rstrip (s : string) : string :=
  match s with
  | EmptyString => EmptyString
  | String c s' =>
      match rstrip s' with
      | EmptyString => if is_space c then EmptyString else String c EmptyString
      | rest => String c rest
      end
  end.

Definition strip (s : string) : string := rstrip (lstrip s).

Fixpoint split_newline (s : string) : list string :=
  match s with
  | EmptyString => [EmptyString]
  | String c s' =>
      if Ascii.eqb c "010"%char
      then EmptyString :: split_newline s'
      else match split_newline s' with
           | line :: lines => String c line :: lines
           | [] => [String c EmptyString]
           end
  end.

Definition run_tcpdump (w : world) : M (St:=frame) (Ev:=event) string :=
  fun fr => (tcpdump w, fr, [RunTcpdump]).

(** [method4_tcpdump_analysis]. *)
Definition method4_tcpdump_analysis (w : world) : method :=
  (emit (MethodBanner 4) ;;
   r <- try_except
          (stdout <- run_tcpdump w ;;
           match stdout with
           | String _ _ =>
               let lines := split_newline (strip stdout) in
               let packets_found := filter (str_in "2368") lines in
               match packets_found with
               | _ :: _ =>
                   emit (Found (List.length packets_found)) ;;
                   for_enumerate (fun i packet => emit (FoundLine (i + 1) packet))
                                 0 (firstn 3 packets_found) ;;
                   ret (Some true)
               | [] => emit NoPacketsFound ;; ret None
               end
           | EmptyString => emit NoOutput ;; ret None
           end)
          is_Exception
          (fun e => emit (MethodFailed 4 e) ;; ret None) ;;
   or_return_False r)%py.

(** The callback [packet_handler] of [method2_promiscuous_sniff]. *)
Definition packet_handler (packet : scapy_packet) : M (St:=frame) (Ev:=event) unit :=
  (if has_UDP packet && (dport packet =? 2368)%Z
   then modify incr_packet_count ;;
        fr <- get ;;
        emit (Packet 2 (packet_count (self fr)) (plen packet)) ;;
        emit (SourceDestination (psrc packet) (pdst packet)) ;;
        modify stop_running
   else ret tt)%py.

(** [sniff(filter=..., prn=packet_handler, timeout=10)]. *)
Definition sniff (w : world) : M (St:=frame) (Ev:=event) unit :=
  (emit RunSniff ;;
   for_each packet_handler (sniffed w) ;;
   match sniff_raise w with
   | None => ret tt
   | Some e => raise e
   end)%py.

(** [method2_promiscuous_sniff]. *)
Definition method2_promiscuous_sniff (w : world) : method :=
  (emit (MethodBanner 2) ;;
   r <- try_except
          (sniff w ;;
           fr <- get ;;
           ret (Some (0 <? packet_count (self fr))))
          is_Exception
          (fun e => emit (MethodFailed 2 e) ;; ret None) ;;
   or_return_False r)%py.

(** *** [main]: the ladder over the methods *)

Inductive main_event : Type :=
| FromMethod (ev : event)
| MainBanner
| Trying (method_name : string)
| Success (method_name : string)
| TotalPackets (n : nat)
| NoDataDetected (method_name : string)
| StoppedByUser (method_name : string)
| MethodError (method_name : string) (e : exn)
| AllMethodsFailed
| FinalPacketCount (n : nat).

(** [method_func()]: the bound method runs in a frame of its own on the
    shared [sniffer]. *)
Definition call (method_func : method)
  : M (St:=EnhancedLidarSniffer) (Ev:=main_event) bool :=
  fun sniffer =>
    let '(r, fr, out) := method_func {| self := sniffer; sock_bound := false |} in
    (r, self fr, map FromMethod out).

(** The body of [for method_name, method_func in methods]. *)
Definition try_method (method_name : string) (method_func : method)
  : M (St:=EnhancedLidarSniffer) (Ev:=main_event) flow :=
  (emit (Trying method_name) ;;
   try_except_clauses
     (success <- call method_func ;;
      if success : bool
      then emit (Success method_name) ;;
           sniffer <- get ;;
           emit (TotalPackets (packet_count sniffer)) ;;
           ret Break
      else emit (NoDataDetected method_name) ;;
           ret Continue)
     (fun e =>
        if is_KeyboardInterrupt e
        then Some (emit (StoppedByUser method_name) ;; ret Break)
        else if is_Exception e
        then Some (emit (MethodError method_name e) ;; ret Continue)
        else None))%py.

(** The [for] loop; [true] when it ran to its end without [break], which
    is when the [else] clause of the loop runs. *)
Fixpoint try_methods (methods : list (string * method))
  : M (St:=EnhancedLidarSniffer) (Ev:=main_event) bool :=
  match methods with
  | [] => ret true
  | (method_name, method_func) :: methods' =>
      (f <- try_method method_name method_func ;;
       match f with
       | Continue => try_methods methods'
       | _ => ret false
       end)%py
  end.

Definition ladder (methods : list (string * method))
  : M (St:=EnhancedLidarSniffer) (Ev:=main_event) unit :=
  (exhausted <- try_methods methods ;;
   (if exhausted : bool then emit AllMethodsFailed else ret tt) ;;
   sniffer <- get ;;
   emit (FinalPacketCount (packet_count sniffer)))%py.

(** The [methods] list of [main], in its order. *)
Definition methods (w : world) : list (string * method) :=
  [ ("Direct UDP Listener"%string, method1_direct_udp w);
    ("tcpdump Analysis"%string, method4_tcpdump_analysis w);
    ("Raw Socket Capture"%string, method3_raw_socket w);
    ("Promiscuous Sniffing"%string, method2_promiscuous_sniff w) ].

(** [main]. *)
Definition main (w : world)
  : M (St:=EnhancedLidarSniffer) (Ev:=main_event) unit :=
  (emit MainBanner ;; ladder (methods w))%py.

(** The events of a run of the ladder on a fresh sniffer. *)
Definition ladder_events (ms : list (string * method)) (sniffer : EnhancedLidarSniffer)
  : list main_event :=
  snd (ladder ms sniffer).

Definition main_events (w : world) : list main_event := snd (main w init).

(** What the loop reports of each method it called: the methods it tried,
    and for each the branch of the loop body that was taken. *)
Inductive outcome : Type :=
| Succeeded
| NoData
| Interrupted
| Errored (e : exn).

Definition attempt_of (ev : main_event) : list (string * outcome) :=
  match ev with
  | Success name => [(name, Succeeded)]
  | NoDataDetected name => [(name, NoData)]
  | StoppedByUser name => [(name, Interrupted)]
  | MethodError name e => [(name, Errored e)]
  | _ => []
  end.

Definition attempts (out : list main_event) : list (string * outcome) :=
  flat_map attempt_of out.

Definition tried_of (ev : main_event) : list string :=
  match ev with
  | Trying name => [name]
  | _ => []
  end.

Definition tried (out : list main_event) : list string :=
  flat_map tried_of out.

(** How the loop goes on after an attempt. *)
Definition flow_after (o : outcome) : flow :=
  match o with
  | Succeeded | Interrupted => Break
  | NoData | Errored _ => Continue
  end.

(** The outcome recorded for the method called [name], if it was tried. *)
Fixpoint recorded (name : string) (l : list (string * outcome)) : option outcome :=
  match l with
  | [] => None
  | (n, o) :: l' => if String.eqb n name then Some o else recorded name l'
  end.

End Sniffer.

(** ** hesai_network_config.py: local scan, then broadcast discovery *)

Module NetConfig.

(** [subprocess.run(['ping', ...], capture_output=True, timeout=3)]: a
    completed process, whose [stdout] is a [bytes] object since the call
    does not ask for text, or an exception. *)
Inductive ping_outcome : Type :=
| PingDone (stdout : bytes)
| PingRaise (e : exn).

(** [subprocess.run(['ipconfig'], capture_output=True, text=True)]: a
    completed process with its [stdout], or the error of starting it. *)
Inductive ipconfig_outcome : Type :=
| IpconfigDone (stdout : string)
| IpconfigFails (err : oserror).

(** The environment of one run.  The calls on the broadcast socket are
    numbered by the broadcast address they serve, from 0. *)
Record world : Type :=
  { ipconfig : ipconfig_outcome;
    ping : string -> ping_outcome;
    bc_socket : option oserror;              (* socket.socket(...) fails *)
    bc_sendto : nat -> option oserror;       (* sock.sendto(...) fails *)
    bc_recvfrom : nat -> recv_event oserror  (* sock.recvfrom(1024) *) }.

Inductive event : Type :=
| ScanBanner
| RunIpconfig
| InterfaceFound (ip : string)
| NetworkOf (network : string)
| RunPing (ip : string)
| FoundDevice (test_ip : string)
| NetworkScanFailed (e : exn)
| BroadcastBanner
| SocketCreate
| Broadcasting (addr : string)
| Sendto (packet : bytes) (dest : address)
| Recvfrom
| ResponseFrom (host : string) (nbytes : nat)
| SocketClose
| NoResponseFrom (addr : string)
| BroadcastFailed (addr : string) (e : exn)
| DiscoveryFailed (e : exn)
| FoundPotentialDevice (found_ip : string)
| NoDevicesOnLocalNetworks
| FoundViaBroadcast (found_ip : string)
| NoDevicesViaBroadcast.

Definition block : Type -> Type := M (St:=unit) (Ev:=event).

Definition lift {A} (r : result A) : block A := fun s => (r, s, []).

(** ["TTL=" in result.stdout] with a [str] on the left and [bytes] on the
    right: the operands do not agree and Python raises [TypeError]. *)
Definition str_in_bytes (needle : string) (stdout : bytes) : result bool :=
  Raise TypeError.

Definition run_ping (w : world) (ip : string) : block bytes :=
  fun s => (match ping w ip with
            | PingDone stdout => Return stdout
            | PingRaise e => Raise e
            end, s, [RunPing ip]).

(** [ping_ip]. *)
Definition ping_ip (w : world) (ip : string) : block bool :=
  (try_except
     (stdout <- run_ping w ip ;;
      lift (str_in_bytes "TTL=" stdout))
     any_exn
     (fun _ => ret false))%py.

Section Scan.

(** The two library calls of [scan_local_networks]:
    [re.findall(ip_pattern, text)], and
    [str(ipaddress.IPv4Network(f"{ip}/24", strict=False))] together with
    [str(network.network_address)], which raise [ValueError] on text that
    is no IPv4 address. *)
Variable re_findall_ipv4 : string -> list string.
Variable IPv4Network_24 : string -> result (string * string).

(** [for test_ip in test_ips: if ping_ip(test_ip): ... return test_ip]. *)
Fixpoint first_responding (w : world) (test_ips : list string)
  : block (option string) :=
  match test_ips with
  | [] => ret None
  | test_ip :: test_ips' =>
      (alive <- ping_ip w test_ip ;;
       if alive : bool
       then emit (FoundDevice test_ip) ;; ret (Some test_ip)
       else first_responding w test_ips')%py
  end.

(** [for ip in found_ips], giving [Some test_ip] when the body returned. *)
Fixpoint scan_interfaces (w : world) (found_ips : list string)
  : block (option string) :=
  match found_ips with
  | [] => ret None
  | ip :: found_ips' =>
      if negb (str_starts_with "127." ip)
      then (emit (InterfaceFound ip) ;;
            returned <- try_except
                          (network <- lift (IPv4Network_24 ip) ;;
                           emit (NetworkOf (fst network)) ;;
                           let base_ip := drop_last (snd network) in
                           first_responding w
                             [ (base_ip ++ "201")%string;
                               (base_ip ++ "200")%string;
                               (base_ip ++ "199")%string;
                               (base_ip ++ "100")%string ])
                          any_exn
                          (fun _ => ret None) ;;
            match returned with
            | Some test_ip => ret (Some test_ip)
            | None => scan_interfaces w found_ips'
            end)%py
      else scan_interfaces w found_ips'
  end.

Definition run_ipconfig (w : world) : block string :=
  fun s => (match ipconfig w with
            | IpconfigDone stdout => Return stdout
            | IpconfigFails err => Raise (OSError err)
            end, s, [RunIpconfig]).

(** [scan_local_networks]. *)
Definition scan_local_networks (w : world) : block (option string) :=
  (emit ScanBanner ;;
   try_except
     (interfaces <- run_ipconfig w ;;
      scan_interfaces w (re_findall_ipv4 interfaces))
     is_Exception
     (fun e => emit (NetworkScanFailed e) ;; ret None))%py.

(** The constants of [try_hesai_broadcast_discovery]. *)
Definition discovery_packet : bytes :=
  [x47; x74; x00; xff; x00; x00; x00; x00].

Definition broadcast_addresses : list string :=
  [ "255.255.255.255"; "192.168.1.255"; "192.168.123.255"; "192.168.0.255" ]%string.

Definition socket_create (w : world) : block unit :=
  fun s => (match bc_socket w with
            | None => Return tt
            | Some err => Raise (OSError err)
            end, s, [SocketCreate]).

Definition sendto (w : world) (i : nat) (packet : bytes) (dest : address)
  : block unit :=
  fun s => (match bc_sendto w i with
            | None => Return tt
            | Some err => Raise (OSError err)
            end, s, [Sendto packet dest]).

Definition recvfrom (w : world) (i : nat) : block (bytes * address) :=
  fun s => (match bc_recvfrom w i with
            | RecvData data server => Return (data, server)
            | RecvRaise err => Raise (OSError err)
            end, s, [Recvfrom]).

(** The body of [for addr in broadcast_addresses], for the [i]-th address:
    [Some host] when it returned [server[0]]. *)
Definition broadcast_to (w : world) (i : nat) (addr : string)
  : block (option string) :=
  (emit (Broadcasting addr) ;;
   try_except
     (sendto w i discovery_packet (addr, 9347%Z) ;;
      try_except
        (reply <- recvfrom w i ;;
         emit (ResponseFrom (fst (snd reply)) (len (fst reply))) ;;
         emit SocketClose ;;
         ret (Some (fst (snd reply))))
        is_socket_timeout
        (fun _ => emit (NoResponseFrom addr) ;; ret None))
     is_Exception
     (fun e => emit (BroadcastFailed addr e) ;; ret None))%py.

Fixpoint broadcast_loop (w : world) (i : nat) (addrs : list string)
  : block (option string) :=
  match addrs with
  | [] => ret None
  | addr :: addrs' =>
      (returned <- broadcast_to w i addr ;;
       match returned with
       | Some host => ret (Some host)
       | None => broadcast_loop w (S i) addrs'
       end)%py
  end.

(** [try_hesai_broadcast_discovery]. *)
Definition try_hesai_broadcast_discovery (w : world) : block (option string) :=
  (emit BroadcastBanner ;;
   try_except
     (socket_create w ;;
      returned <- broadcast_loop w 0 broadcast_addresses ;;
      match returned with
      | Some host => ret (Some host)
      | None => emit SocketClose ;; ret None
      end)
     is_Exception
     (fun e => emit (DiscoveryFailed e) ;; ret None))%py.

(** [if found_ip:] on a value that is [None] or a [str]. *)
Definition truthy (found_ip : option string) : bool :=
  match found_ip with
  | Some (String _ _) => true
  | _ => false
  end.

(** [main], steps 1 and 2: the value of [found_ip] when step 3 begins. *)
Definition main_discovery (w : world) : block (option string) :=
  (found_ip <- scan_local_networks w ;;
   if truthy found_ip
   then match found_ip with
        | Some ip => emit (FoundPotentialDevice ip) ;; ret found_ip
        | None => ret found_ip
        end
   else emit NoDevicesOnLocalNetworks ;;
        found_ip <- try_hesai_broadcast_discovery w ;;
        match found_ip with
        | Some (String _ _ as ip) => emit (FoundViaBroadcast ip) ;; ret found_ip
        | _ => emit NoDevicesViaBroadcast ;; ret found_ip
        end)%py.

End Scan.

(** The reply, if any, that the broadcast to the [i]-th address gets: the
    datagram left and one came back before the timeout. *)
Definition reply (w : world) (i : nat) : option (bytes * address) :=
  match bc_sendto w i with
  | Some _ => None
  | None =>
      match bc_recvfrom w i with
      | RecvData data server => Some (data, server)
      | RecvRaise _ => None
      end
  end.

(** The host whose reply ends the broadcast loop begun at the [i]-th
    address, with [n] addresses to go. *)
Fixpoint first_reply (w : world) (i n : nat) : option string :=
  match n with
  | 0 => None
  | S n' =>
      match reply w i with
      | Some (_, server) => Some (fst server)
      | None => first_reply w (S i) n'
      end
  end.

End NetConfig.

(** ** quick_hesai_check.py: the non-interactive check *)

Module QuickCheck.

(** The candidate addresses and the timeouts are literals of the script:
    [test_ips] of [ping_hesai_addresses], and the [timeout=] and
    [settimeout] arguments, in seconds. *)
Definition test_ips : list string :=
  [ "192.168.1.201"; "192.168.123.201"; "192.168.0.201"; "10.5.5.200" ]%string.

Definition ping_timeout : Z := 5.
Definition udp_timeout : Z := 3.
Definition activation_timeout : Z := 2.

(** [subprocess.run(['ping', ...], capture_output=True, text=True,
    timeout=5)]: a completed process with its [stdout], or an
    exception. *)
Inductive ping_outcome : Type :=
| PingDone (stdout : string)
| PingRaise (e : exn).

(** What a listening socket of [test_udp_data] meets, and what the control
    socket of [send_activation_command] meets. *)
Record listen_world : Type :=
  { l_socket : option oserror;
    l_bind : option oserror;
    l_recvfrom : recv_event oserror }.

Record control_world : Type :=
  { c_socket : option oserror;
    c_sendto : option oserror;
    c_recvfrom : recv_event oserror }.

(** The environment of one run: [test_udp_data ip] is called once before
    the activation ([false]) and once after it ([true]). *)
Record world : Type :=
  { ping : string -> ping_outcome;
    udp : string -> bool -> listen_world;
    control : string -> control_world }.

Inductive event : Type :=
| MainBanner
| PowerCheckText
| ScanBanner
| Testing (ip : string)
| RunPing (ip : string) (timeout : Z)
| Responds (ip : string)
| NoResponse (ip : string)
| PingFailed (ip : string)
| TestingUdp (ip : string) (port : Z)
| SocketCreate (timeout : Z)
| Bind (port : Z)
| Recvfrom
| Received (nbytes : nat) (host : string)
| FirstBytes (header : bytes)
| SocketClose
| NoDataReceived
| UdpError (e : exn)
| SendingActivation (ip : string)
| Sendto (cmd : bytes) (dest : address)
| StartCommandSent
| ResponseReceived (nbytes : nat)
| NoResponseNormal
| ActivationFailed (e : exn)
| NoHesaiFound
| TestingDevice (ip : string)
| AlreadyActive (ip : string)
| Sleep
| Activated (ip : string)
| ActivatedNoData
| SummaryWorking
| SummaryNotFound.

(** The events that are operations on the network. *)
Definition is_network_operation (ev : event) : bool :=
  match ev with
  | RunPing _ _ | SocketCreate _ | Bind _ | Recvfrom | Sendto _ _ => true
  | _ => false
  end.

Definition network_operations (out : list event) : list event :=
  filter is_network_operation out.

Definition block (St : Type) : Type -> Type := M (St:=St) (Ev:=event).

Definition call_or_raise {St} (ev : event) (fails : option oserror)
  : block St unit :=
  fun s => (match fails with
            | None => Return tt
            | Some err => Raise (OSError err)
            end, s, [ev]).

Definition recvfrom {St} (r : recv_event oserror) : block St (bytes * address) :=
  fun s => (match r with
            | RecvData data addr => Return (data, addr)
            | RecvRaise err => Raise (OSError err)
            end, s, [Recvfrom]).

Definition run_ping (w : world) (ip : string) : block (list string) string :=
  fun s => (match ping w ip with
            | PingDone stdout => Return stdout
            | PingRaise e => Raise e
            end, s, [RunPing ip ping_timeout]).

(** The body of [for ip in test_ips]; the state is the local [found]. *)
Definition ping_probe (w : world) (ip : string) : block (list string) unit :=
  (emit (Testing ip) ;;
   try_except
     (stdout <- run_ping w ip ;;
      if str_in "TTL=" stdout
      then emit (Responds ip) ;;
           modify (fun found => found ++ [ip])
      else emit (NoResponse ip))
     any_exn
     (fun _ => emit (PingFailed ip)))%py.

(** [ping_hesai_addresses], its candidate list as a parameter, and with
    the list of the script. *)
Definition ping_addresses (w : world) (ips : list string)
  : block (list string) (list string) :=
  (emit ScanBanner ;;
   modify (fun _ => []) ;;
   for_each (ping_probe w) ips ;;
   get)%py.

Definition ping_hesai_addresses (w : world) : block (list string) (list string) :=
  ping_addresses w test_ips.

(** [test_udp_data(ip, port)], against the listening socket [lw]. *)
Definition test_udp_data (lw : listen_world) (ip : string) (port : Z)
  : block unit bool :=
  (emit (TestingUdp ip port) ;;
   try_except_clauses
     (call_or_raise (SocketCreate udp_timeout) (l_socket lw) ;;
      call_or_raise (Bind port) (l_bind lw) ;;
      received <- recvfrom (l_recvfrom lw) ;;
      emit (Received (len (fst received)) (fst (snd received))) ;;
      emit (FirstBytes (slice_to 20 (fst received))) ;;
      emit SocketClose ;;
      ret true)
     (fun e =>
        if is_socket_timeout e
        then Some (emit NoDataReceived ;; ret false)
        else if is_Exception e
        then Some (emit (UdpError e) ;; ret false)
        else None))%py.

Definition start_cmd : bytes := [x47; x74; x00; x01; x00; x00; x00; x00].

(** [send_activation_command(ip)], against the control socket [cw]. *)
Definition send_activation_command (cw : control_world) (ip : string)
  : block unit bool :=
  (emit (SendingActivation ip) ;;
   try_except
     (call_or_raise (SocketCreate activation_timeout) (c_socket cw) ;;
      call_or_raise (Sendto start_cmd (ip, 9347%Z)) (c_sendto cw) ;;
      emit StartCommandSent ;;
      try_except
        (response <- recvfrom (c_recvfrom cw) ;;
         emit (ResponseReceived (len (fst response))))
        is_socket_timeout
        (fun _ => emit NoResponseNormal) ;;
      emit SocketClose ;;
      ret true)
     is_Exception
     (fun e => emit (ActivationFailed e) ;; ret false))%py.

(** The body of [for ip in found_ips] of [main]; the state is the local
    [success]. *)
Definition test_device (w : world) (ip : string) : block bool unit :=
  (emit (TestingDevice ip) ;;
   active <- call_with tt (test_udp_data (udp w ip false) ip 2368%Z) ;;
   if active : bool
   then emit (AlreadyActive ip) ;;
        modify (fun _ => true)
   else sent <- call_with tt (send_activation_command (control w ip) ip) ;;
        if sent : bool
        then emit Sleep ;;
             active' <- call_with tt (test_udp_data (udp w ip true) ip 2368%Z) ;;
             if active' : bool
             then emit (Activated ip) ;;
                  modify (fun _ => true)
             else emit ActivatedNoData
        else ret tt)%py.

(** How [main] ends: by the [return] of line 125 before any device is
    tested, or at its last line with one of the two summaries. *)
Inductive ending : Type :=
| ReturnedNoDevices
| FinishedWorking
| FinishedNotFound.

(** [main], over the candidate list [ips]; and [main] itself. *)
Definition main_over (w : world) (ips : list string) : block bool ending :=
  (emit MainBanner ;;
   emit PowerCheckText ;;
   found_ips <- call_with [] (ping_addresses w ips) ;;
   match found_ips with
   | [] => emit NoHesaiFound ;; ret ReturnedNoDevices
   | _ :: _ =>
       modify (fun _ => false) ;;
       for_each (test_device w) found_ips ;;
       success <- get ;;
       if success : bool
       then emit SummaryWorking ;; ret FinishedWorking
       else emit SummaryNotFound ;; ret FinishedNotFound
   end)%py.

Definition main (w : world) : block bool ending := main_over w test_ips.

(** The result and the events of a run. *)
Definition run {St A} (m : block St A) (s : St) : result A * list event :=
  let '(r, _, out) := m s in (r, out).

(** Whether [ip] answers the probe of [ping_hesai_addresses]: the output
    of ping has a "TTL=" in it. *)
Definition responds (w : world) (ip : string) : bool :=
  match ping w ip with
  | PingDone stdout => str_in "TTL=" stdout
  | PingRaise _ => false
  end.

End QuickCheck.

(** ** Worlds for the scenarios *)

Module Scenario.

(** A control endpoint that never answers: every datagram leaves, every
    wait for a response times out. *)
Definition silent_endpoint : Activation.world :=
  {| Activation.ping := fun _ => Activation.PingExit 1;
     Activation.ctl_socket := None;
     Activation.ctl_sendto := fun _ => None;
     Activation.ctl_recvfrom := fun _ => RecvRaise ETIMEDOUT |}.

(** A network on which every [sendto] fails (errno 101, network
    unreachable). *)
Definition unreachable_network : Activation.world :=
  {| Activation.ping := fun _ => Activation.PingRaise TimeoutExpired;
     Activation.ctl_socket := None;
     Activation.ctl_sendto := fun _ => Some (Errno 101);
     Activation.ctl_recvfrom := fun _ => RecvRaise ETIMEDOUT |}.

(** A process that cannot open a socket (errno 24, too many open
    files). *)
Definition no_socket : Activation.world :=
  {| Activation.ping := fun _ => Activation.PingExit 1;
     Activation.ctl_socket := Some (Errno 24);
     Activation.ctl_sendto := fun _ => None;
     Activation.ctl_recvfrom := fun _ => RecvRaise ETIMEDOUT |}.



(** The UDP listener times out, and tcpdump, second in the list, prints
    one line for a packet to port 2368. *)
Definition tcpdump_sees_packet : Sniffer.world :=
  {| Sniffer.udp_socket := None;
     Sniffer.udp_bind := None;
     Sniffer.udp_recvfrom := RecvRaise (OSError ETIMEDOUT);
     Sniffer.tcpdump :=
       Return "IP 192.168.123.20.2368 > 192.168.123.222.2368: UDP, length 1206"%string;
     Sniffer.raw_socket := None;
     Sniffer.raw_recvfrom := [];
     Sniffer.sniffed := [];
     Sniffer.sniff_raise := None |}.

(** A Linux host ([ipconfig] is not found) on the robot's network, where
    the sensor answers the third broadcast, the one to
    192.168.123.255. *)
Definition sensor_answers_broadcast : NetConfig.world :=
  {| NetConfig.ipconfig := NetConfig.IpconfigFails ENOENT;
     NetConfig.ping := fun _ => NetConfig.PingRaise (OSError ENOENT);
     NetConfig.bc_socket := None;
     NetConfig.bc_sendto := fun _ => None;
     NetConfig.bc_recvfrom :=
       fun i => match i with
                | 2 => RecvData [x47; x74; x00; xff] ("192.168.123.201"%string, 9347%Z)
                | _ => RecvRaise ETIMEDOUT
                end |}.

(** Library calls for the same host: no address matched, none parsed. *)
Definition no_match (text : string) : list string := [].
Definition no_network (ip : string) : result (string * string) := Raise ValueError.


End Scenario.

(** ** hesai_xt16_activation.py: the rest of the controller and [main] *)

(** The events of a callee, seen among those of its caller. *)
Definition map_events {St Ev Ev' A} (f : Ev -> Ev') (m : M (St:=St) (Ev:=Ev) A)
  : M (St:=St) (Ev:=Ev') A :=
  fun s => let '(r, s', out) := m s in (r, s', map f out).

(** [str.lower()] on ASCII text. *)
Definition lower_char (c : ascii) : ascii :=
  let n := nat_of_ascii c in
  if (65 <=? n) && (n <=? 90) then ascii_of_nat (n + 32) else c.

Fixpoint lower (text : string) : string :=
  match text with
  | EmptyString => EmptyString
  | String c text' => String (lower_char c) (lower text')
  end.

Module ActivationMain.

Definition data_port : Z := 2368.

(** What one [input(...)] gives: the line typed, or an exception
    ([KeyboardInterrupt] on Ctrl-C; any other one, as of a closed standard
    input, is not caught by [check_power_status]). *)
Inductive input_outcome : Type :=
| InputLine (text : string)
| InputRaise (e : exn).

(** What the listening socket of [test_udp_data_port] meets. *)
Record listen_world : Type :=
  { l_socket : option oserror;
    l_bind : option oserror;
    l_recvfrom : recv_event oserror }.

(** The environment of one run of [main]: the three answers, the pings of
    the scan, and for each address the control socket and the listening
    socket that serve it. *)
Record world : Type :=
  { power_led_answer : input_outcome;
    rotating_answer : input_outcome;
    cables_answer : input_outcome;
    network : Activation.world;
    control : string -> Activation.world;
    data : string -> listen_world }.

Inductive event : Type :=
| Controller (ev : Activation.event)
| MainBanner
| PowerCheckText
| Input (prompt : nat)
| PowerStatus (power_led rotating cables_ok : bool)
| PoweredAndActive
| NeedsAttention
| PowerCheckSkipped
| ResolvePowerIssues
| NoLidarOnNetwork
| NetworkConfigurationText
| TryManualConfiguration
| TestingDevice (ip : string)
| WaitingForActivation
| Sleep5
| TestingUdp (ip : string) (port : Z)
| SocketCreate
| Bind (port : Z)
| Listening
| Recvfrom
| Received (nbytes : nat) (addr : address)
| ConfirmedFormat
| FormatMismatch
| SocketClose
| NoDataTimeout
| UdpError (e : exn)
| DeviceSuccess (ip : string)
| CommandsSentNoData
| SummaryActivated
| SummaryFailed.

Definition block : Type -> Type := M (St:=unit) (Ev:=event).

Definition input (prompt : nat) (answer : input_outcome) : block string :=
  fun s => (match answer with
            | InputLine text => Return text
            | InputRaise e => Raise e
            end, s, [Input prompt]).

(** [answer == 'y']. *)
Definition is_y (answer : string) : bool := String.eqb answer "y".

(** [HesaiXT16Controller.check_power_status]. *)
Definition check_power_status (w : world) : block bool :=
  (emit PowerCheckText ;;
   try_except
     (typed1 <- input 1 (power_led_answer w) ;;
      let power_led := Sniffer.strip (lower typed1) in
      typed2 <- input 2 (rotating_answer w) ;;
      let rotating := Sniffer.strip (lower typed2) in
      typed3 <- input 3 (cables_answer w) ;;
      let cables_ok := Sniffer.strip (lower typed3) in
      emit (PowerStatus (is_y power_led) (is_y rotating) (is_y cables_ok)) ;;
      if is_y power_led && is_y rotating
      then emit PoweredAndActive ;; ret true
      else emit NeedsAttention ;; ret false)
     is_KeyboardInterrupt
     (fun _ => emit PowerCheckSkipped ;; ret false))%py.

Definition call_or_raise (ev : event) (fails : option oserror) : block unit :=
  fun s => (match fails with
            | None => Return tt
            | Some err => Raise (OSError err)
            end, s, [ev]).

Definition recvfrom (r : recv_event oserror) : block (bytes * address) :=
  fun s => (match r with
            | RecvData data addr => Return (data, addr)
            | RecvRaise err => Raise (OSError err)
            end, s, [Recvfrom]).

(** [HesaiXT16Controller.test_udp_data_port], against the listening
    socket [lw].  Its value is [True], [False] or, when control reaches the
    end of the function, [None]. *)
Definition test_udp_data_port (lw : listen_world) (ip : string)
  : block (option bool) :=
  (emit (TestingUdp ip data_port) ;;
   try_except_clauses
     (call_or_raise SocketCreate (l_socket lw) ;;
      call_or_raise (Bind data_port) (l_bind lw) ;;
      emit Listening ;;
      received <- recvfrom (l_recvfrom lw) ;;
      emit (Received (len (fst received)) (snd received)) ;;
      if Activation.analyze_hesai_packet (fst received)
      then emit ConfirmedFormat ;; ret (Some true)
      else emit FormatMismatch ;;
           emit SocketClose ;;
           ret None)
     (fun e =>
        if is_socket_timeout e
        then Some (emit NoDataTimeout ;; ret (Some false))
        else if is_Exception e
        then Some (emit (UdpError e) ;; ret (Some false))
        else None))%py.

(** [if value:] on a value that is [True], [False] or [None]. *)
Definition truth (value : option bool) : bool :=
  match value with
  | Some true => true
  | _ => false
  end.

(** The loop [for ip in found_devices] of [main]; its value is the
    [success] it leaves. *)
Fixpoint activate_devices (w : world) (found_devices : list string) : block bool :=
  match found_devices with
  | [] => ret false
  | ip :: found_devices' =>
      (emit (TestingDevice ip) ;;
       sent <- map_events Controller
                 (Activation.send_activation_commands (control w ip) ip) ;;
       if sent : bool
       then emit WaitingForActivation ;;
            emit Sleep5 ;;
            streaming <- test_udp_data_port (data w ip) ip ;;
            if truth streaming
            then emit (DeviceSuccess ip) ;; ret true
            else emit CommandsSentNoData ;;
                 activate_devices w found_devices'
       else activate_devices w found_devices')%py
  end.

(** How [main] ends: by one of its two early [return]s, or at its last
    line with one of the two summaries. *)
Inductive ending : Type :=
| PowerNotReady
| NoLidar
| Activated
| NotActivated.

(** Steps 2 and 3 of [main]: the scan, and the activation of what it
    found. *)
Definition scan_and_activate (w : world) : block ending :=
  (found_devices <- map_events Controller
                      (call_with [] (Activation.scan_for_lidar (network w))) ;;
   match found_devices with
   | [] =>
       emit NoLidarOnNetwork ;;
       emit NetworkConfigurationText ;;
       emit TryManualConfiguration ;;
       ret NoLidar
   | _ :: _ =>
       success <- activate_devices w found_devices ;;
       if success : bool
       then emit SummaryActivated ;; ret Activated
       else emit SummaryFailed ;; ret NotActivated
   end)%py.

(** [main]. *)
Definition main (w : world) : block ending :=
  (emit MainBanner ;;
   ready <- check_power_status w ;;
   if ready : bool
   then scan_and_activate w
   else emit ResolvePowerIssues ;; ret PowerNotReady)%py.

(** The events of a run that are operations on the network: the pings,
    the sockets and what is done on them. *)
Definition is_network_operation (ev : event) : bool :=
  match ev with
  | Controller (Activation.RunPing _)
  | Controller Activation.SocketCreate
  | Controller (Activation.Sendto _ _)
  | Controller Activation.Recvfrom
  | SocketCreate | Bind _ | Recvfrom => true
  | _ => false
  end.

Definition network_operations (out : list event) : list event :=
  filter is_network_operation out.





Definition devices_tested (out : list event) : list string :=
  flat_map (fun ev => match ev with
                      | TestingDevice ip => [ip]
                      | _ => []
                      end) out.


(** What [test_udp_data_port] makes of a listening socket. *)
Definition udp_verdict (lw : listen_world) : option bool :=
  match l_socket lw, l_bind lw, l_recvfrom lw with
  | None, None, RecvData data _ =>
      if Activation.analyze_hesai_packet data then Some true else None
  | _, _, _ => Some false
  end.

Definition is_socket_close (ev : event) : bool :=
  match ev with
  | SocketClose => true
  | _ => false
  end.


End ActivationMain.

(** ** What a run shows: counts and selections of events *)

Module Observed.

(** In a run of the controller: the pings, the waits for a response and
    the pauses. *)
Definition is_ping (ev : Activation.event) : bool :=
  match ev with
  | Activation.RunPing _ => true
  | _ => false
  end.

Definition pings (out : list Activation.event) : list Activation.event :=
  filter is_ping out.

Definition is_recvfrom (ev : Activation.event) : bool :=
  match ev with
  | Activation.Recvfrom => true
  | _ => false
  end.

Definition is_sleep (ev : Activation.event) : bool :=
  match ev with
  | Activation.Sleep => true
  | _ => false
  end.

(** Whether the [i]-th datagram leaves. *)
Definition sent_ok (w : Activation.world) (i : nat) : bool :=
  match Activation.ctl_sendto w i with
  | None => true
  | Some _ => false
  end.

End Observed.

(** ** What the capture methods are given *)

Module Captured.

(** A raw packet as the raw capture reads it: at least the 28 bytes of an
    IPv4 header without options and a UDP header, protocol byte 17 (0x11)
    at offset 9, and the destination port 2368 (0x0940) at offsets 22 and
    23. *)
Definition udp_to_2368 (packet : bytes) : bool :=
  (28 <=? len packet)
  && Byte.eqb (nth 9 packet x00) x11
  && Byte.eqb (nth 22 packet x00) x09
  && Byte.eqb (nth 23 packet x00) x40.

(** A raw packet that the raw capture passes over: one of another
    protocol, or a UDP packet for another port. *)
Definition passed_over (packet : bytes) : bool :=
  (20 <=? len packet)
  && (negb (Byte.eqb (nth 9 packet x00) x11)
      || ((28 <=? len packet)
          && negb (Byte.eqb (nth 22 packet x00) x09
                   && Byte.eqb (nth 23 packet x00) x40))).

(** A sniffed packet that the callback of the sniffer counts. *)
Definition counted (packet : Sniffer.scapy_packet) : bool :=
  Sniffer.has_UDP packet && (Sniffer.dport packet =? 2368)%Z.

(** All characters of a text are other than the white space of
    [str.strip] and other than the newline. *)
Fixpoint solid (text : string) : bool :=
  match text with
  | EmptyString => true
  | String c text' => negb (Sniffer.is_space c) && solid text'
  end.

(** In the events of [main]. *)
Definition is_all_failed (ev : Sniffer.main_event) : bool :=
  match ev with
  | Sniffer.AllMethodsFailed => true
  | _ => false
  end.

Definition goes_on (attempt : string * Sniffer.outcome) : bool :=
  match snd attempt with
  | Sniffer.NoData | Sniffer.Errored _ => true
  | Sniffer.Succeeded | Sniffer.Interrupted => false
  end.

Definition is_raw_recvfrom (ev : Sniffer.main_event) : bool :=
  match ev with
  | Sniffer.FromMethod (Sniffer.Recvfrom 3) => true
  | _ => false
  end.

End Captured.

(** ** One pass of the raw capture, by the bytes of the packet *)

Module RawPass.
Import Sniffer Captured.

(** What one pass of the loop of [method3_raw_socket] comes to for a
    packet received: a return of [True] with the packet counted, a next
    pass, or the [struct.error] of a buffer too short to unpack. *)
Definition raw_pass (packet : bytes) (fr : frame)
  : result flow * frame * list event :=
  if udp_to_2368 packet
  then (Return (ReturnValue true), incr_packet_count fr,
        [Recvfrom 3; Packet 3 (packet_count (self fr) + 1) (len packet)])
  else if passed_over packet
  then (Return Continue, fr, [Recvfrom 3])
  else (Raise StructError, fr, [Recvfrom 3]).

(** The packets, as [recvfrom] gives them. *)
Definition received (packets : list (bytes * address)) : list (recv_event exn) :=
  map (fun pa => RecvData (fst pa) (snd pa)) packets.

Definition raw_recvfrom_calls (out : list main_event) : nat :=
  List.length (filter is_raw_recvfrom out).

End RawPass.

(** ** One turn of the ladder, by the result of the method *)

Module LadderTurn.
Import Sniffer.

(** The outcome that the loop of [main] records for a method that
    returned or raised [r]. *)
Definition outcome_of (r : result bool) : outcome :=
  match r with
  | Return true => Succeeded
  | Return false => NoData
  | Raise e => if is_KeyboardInterrupt e then Interrupted else Errored e
  end.

(** The lines that the loop prints after the method is back. *)
Definition report (name : string) (r : result bool) (sniffer : EnhancedLidarSniffer)
  : list main_event :=
  match r with
  | Return true => [Success name; TotalPackets (packet_count sniffer)]
  | Return false => [NoDataDetected name]
  | Raise e =>
      if is_KeyboardInterrupt e then [StoppedByUser name] else [MethodError name e]
  end.

(** The packets of a capture that the sniffer's callback counts. *)
Definition counted_packets (w : world) : nat :=
  List.length (filter Captured.counted (sniffed w)).

End LadderTurn.

(** ** hesai_network_config.py: the reconfiguration and [main] *)

Module NetConfigMain.
Import NetConfig.

(** What the socket of [configure_hesai_ip] meets. *)
Record config_world : Type :=
  { cfg_socket : option oserror;
    cfg_sendto : option oserror;
    cfg_recvfrom : recv_event oserror }.

(** The environment of one run of [main]. *)
Record world : Type :=
  { scanner : NetConfig.world;
    config : config_world }.

Inductive event : Type :=
| Scanner (ev : NetConfig.event)
| MainBanner
| ConfigBanner (current_ip new_ip : string)
| SocketCreate
| SendingConfig
| Sendto (packet : bytes) (dest : address)
| Recvfrom
| ConfigResponse (nbytes : nat)
| WaitingForRestart
| Sleep10
| DeviceNowAt (new_ip : string)
| NotRespondingAtNewIp
| NoConfigResponse
| SocketClose
| ConfigFailed (e : exn)
| DeviceFoundAt (found_ip : string)
| RecommendingChange
| Ready (found_ip : string)
| NotFound.

Definition block : Type -> Type := M (St:=unit) (Ev:=event).

Definition call_or_raise (ev : event) (fails : option oserror) : block unit :=
  fun s => (match fails with
            | None => Return tt
            | Some err => Raise (OSError err)
            end, s, [ev]).

Definition recvfrom (r : recv_event oserror) : block (bytes * address) :=
  fun s => (match r with
            | RecvData data addr => Return (data, addr)
            | RecvRaise err => Raise (OSError err)
            end, s, [Recvfrom]).

Section Library.

(** The library calls: those of the scan, and [socket.inet_aton], which
    gives the packed address or raises [OSError] on an illegal one
    ([None]). *)
Variable re_findall_ipv4 : string -> list string.
Variable IPv4Network_24 : string -> result (string * string).
Variable inet_aton : string -> option bytes.

Definition call_inet_aton (new_ip : string) : block bytes :=
  fun s => (match inet_aton new_ip with
            | Some packed => Return packed
            | None => Raise (OSError (Errno 22))
            end, s, []).

(** The [config_packet] of [configure_hesai_ip]. *)
Definition config_packet (new_ip_bytes : bytes) : bytes :=
  [x47; x74; x00; x10] ++ new_ip_bytes ++ [x00; x00; x00; x00].

(** [configure_hesai_ip(current_ip, new_ip)]: its value is [new_ip] or
    [None]. *)
Definition configure_hesai_ip (w : world) (current_ip new_ip : string)
  : block (option string) :=
  (emit (ConfigBanner current_ip new_ip) ;;
   try_except
     (call_or_raise SocketCreate (cfg_socket (config w)) ;;
      new_ip_bytes <- call_inet_aton new_ip ;;
      emit SendingConfig ;;
      call_or_raise (Sendto (config_packet new_ip_bytes) (current_ip, 9347%Z))
                    (cfg_sendto (config w)) ;;
      returned <- try_except
                    (response <- recvfrom (cfg_recvfrom (config w)) ;;
                     emit (ConfigResponse (len (fst response))) ;;
                     emit WaitingForRestart ;;
                     emit Sleep10 ;;
                     alive <- map_events Scanner (ping_ip (scanner w) new_ip) ;;
                     if alive : bool
                     then emit (DeviceNowAt new_ip) ;; ret (Some new_ip)
                     else emit NotRespondingAtNewIp ;; ret None)
                    is_socket_timeout
                    (fun _ => emit NoConfigResponse ;; ret None) ;;
      match returned with
      | Some ip => ret (Some ip)
      | None => emit SocketClose ;; ret None
      end)
     is_Exception
     (fun e => emit (ConfigFailed e) ;; ret None))%py.

(** Step 3 of [main], from the [found_ip] of steps 1 and 2: the value of
    [found_ip] after it. *)
Definition main_configuration (w : world) (found_ip : option string)
  : block (option string) :=
  match found_ip with
  | Some (String _ _ as ip) =>
      (emit (DeviceFoundAt ip) ;;
       if negb (str_starts_with "192.168.123" ip)
       then emit RecommendingChange ;;
            new_ip <- configure_hesai_ip w ip "192.168.123.201" ;;
            if truthy new_ip then ret new_ip else ret found_ip
       else ret found_ip)%py
  | _ => ret found_ip
  end.

(** [main]; its value here is the [found_ip] of the final report. *)
Definition main (w : world) : block (option string) :=
  (emit MainBanner ;;
   found_ip <- map_events Scanner
                 (main_discovery re_findall_ipv4 IPv4Network_24 (scanner w)) ;;
   found_ip' <- main_configuration w found_ip ;;
   match found_ip' with
   | Some (String _ _ as ip) => emit (Ready ip) ;; ret found_ip'
   | _ => emit NotFound ;; ret found_ip'
   end)%py.

End Library.

(** The datagrams a run hands to [sendto], in order: those of the
    reconfiguration, and those of the broadcast discovery. *)
Definition config_datagrams (out : list event) : list (bytes * address) :=
  flat_map (fun ev => match ev with
                      | Sendto packet dest => [(packet, dest)]
                      | _ => []
                      end) out.

Definition broadcasts (out : list NetConfig.event) : list (bytes * address) :=
  flat_map (fun ev => match ev with
                      | NetConfig.Sendto packet dest => [(packet, dest)]
                      | _ => []
                      end) out.

(** The number of broadcasts made from the [i]-th address on, with [n]
    addresses to go: up to the first that gets a reply, that one
    included. *)
Fixpoint rounds (w : NetConfig.world) (i n : nat) : nat :=
  match n with
  | 0 => 0
  | S n' =>
      match reply w i with
      | Some _ => 1
      | None => S (rounds w (S i) n')
      end
  end.

Definition is_ready (ev : event) : bool :=
  match ev with
  | Ready _ => true
  | _ => false
  end.

Definition is_config_banner (ev : event) : bool :=
  match ev with
  | ConfigBanner _ _ => true
  | _ => false
  end.

End NetConfigMain.

(** ** What the quick check can tell of a device *)

Module QuickVerdict.
Import QuickCheck.

(** A listening socket delivers when it is created and bound and a
    datagram arrives within the timeout. *)
Definition delivers (lw : listen_world) : bool :=
  match l_socket lw, l_bind lw, l_recvfrom lw with
  | None, None, RecvData _ _ => true
  | _, _, _ => false
  end.

(** The start command goes through when the control socket is created,
    [sendto] takes the command, and waiting for the reply meets nothing
    worse than the timeout. *)
Definition activates (cw : control_world) : bool :=
  match c_socket cw, c_sendto cw, c_recvfrom cw with
  | None, None, RecvData _ _ => true
  | None, None, RecvRaise ETIMEDOUT => true
  | _, _, _ => false
  end.

(** A device works for [main] when its data arrives before the
    activation, or after an activation that went through. *)
Definition working (w : world) (ip : string) : bool :=
  delivers (udp w ip false) || (activates (control w ip) && delivers (udp w ip true)).

(** Whether the start command is handed to [sendto] for [ip]. *)
Definition started (w : world) (ip : string) : bool :=
  negb (delivers (udp w ip false)) &&
  match c_socket (control w ip) with
  | None => true
  | Some _ => false
  end.

(** The devices a run tested, and the commands it handed to [sendto],
    in order. *)
Definition devices_tested (out : list event) : list string :=
  flat_map (fun ev => match ev with
                      | TestingDevice ip => [ip]
                      | _ => []
                      end) out.

Definition start_commands (out : list event) : list (bytes * address) :=
  flat_map (fun ev => match ev with
                      | Sendto cmd dest => [(cmd, dest)]
                      | _ => []
                      end) out.

Definition is_socket_close (ev : event) : bool :=
  match ev with
  | SocketClose => true
  | _ => false
  end.

End QuickVerdict.

(** ** More worlds *)

Module Example.



(** A host out of file descriptors, where the user interrupts the raw
    capture as its socket is opened. *)
Definition no_sockets : Sniffer.world :=
  {| Sniffer.udp_socket := Some (OSError (Errno 24));
     Sniffer.udp_bind := None;
     Sniffer.udp_recvfrom := RecvRaise (OSError ETIMEDOUT);
     Sniffer.tcpdump := Return EmptyString;
     Sniffer.raw_socket := Some KeyboardInterrupt;
     Sniffer.raw_recvfrom := [];
     Sniffer.sniffed := [];
     Sniffer.sniff_raise := None |}.

(** A privileged host that sees, on its raw socket, a DNS reply (UDP to
    port 53), an ICMP packet, and then a packet of the sensor to port
    2368. *)
Definition ip_udp_packet (protocol port_hi port_lo : byte) : bytes :=
  [x45; x00; x00; x20; x00; x00; x00; x00; x40; protocol;
   x00; x00; xc0; xa8; x7b; x14; xc0; xa8; x7b; xde;
   x09; x40; port_hi; port_lo; x00; x0c; x00; x00;
   xee; xff; x55; xaa].

Definition dns_then_icmp : list (bytes * address) :=
  [ (ip_udp_packet x11 x00 x35, ("192.168.123.1"%string, 0%Z));
    (ip_udp_packet x01 x09 x40, ("192.168.123.1"%string, 0%Z)) ].

Definition raw_traffic : Sniffer.world :=
  {| Sniffer.udp_socket := None;
     Sniffer.udp_bind := Some (OSError EADDRINUSE);
     Sniffer.udp_recvfrom := RecvRaise (OSError ETIMEDOUT);
     Sniffer.tcpdump := Return EmptyString;
     Sniffer.raw_socket := None;
     Sniffer.raw_recvfrom :=
       RawPass.received dns_then_icmp
         ++ RecvData (ip_udp_packet x11 x09 x40) ("192.168.123.20"%string, 0%Z)
         :: [];
     Sniffer.sniffed := [];
     Sniffer.sniff_raise := None |}.

(** The same host when a 12-byte fragment comes before the sensor's
    packet. *)
Definition raw_traffic_with_runt : Sniffer.world :=
  {| Sniffer.udp_socket := None;
     Sniffer.udp_bind := Some (OSError EADDRINUSE);
     Sniffer.udp_recvfrom := RecvRaise (OSError ETIMEDOUT);
     Sniffer.tcpdump := Return EmptyString;
     Sniffer.raw_socket := None;
     Sniffer.raw_recvfrom :=
       RawPass.received dns_then_icmp
         ++ [ RecvData (repeat x00 12) ("192.168.123.1"%string, 0%Z);
              RecvData (ip_udp_packet x11 x09 x40) ("192.168.123.20"%string, 0%Z) ];
     Sniffer.sniffed := [];
     Sniffer.sniff_raise := None |}.

(** A Windows host on the default sensor network: every ping is
    answered with a "TTL=" line, and the sensor at 192.168.1.201 answers
    the second broadcast, the one to 192.168.1.255, and the request to
    change its address. *)
Definition answers_everything : NetConfigMain.world :=
  {| NetConfigMain.scanner :=
       {| NetConfig.ipconfig :=
            NetConfig.IpconfigDone "   IPv4 Address. . . . . . . . . . . : 192.168.1.100";
          NetConfig.ping :=
            fun _ => NetConfig.PingDone
                       [x54; x54; x4c; x3d; x36; x34];
          NetConfig.bc_socket := None;
          NetConfig.bc_sendto := fun _ => None;
          NetConfig.bc_recvfrom :=
            fun i => match i with
                     | 1 => RecvData [x47; x74] ("192.168.1.201"%string, 9347%Z)
                     | _ => RecvRaise ETIMEDOUT
                     end |};
     NetConfigMain.config :=
       {| NetConfigMain.cfg_socket := None;
          NetConfigMain.cfg_sendto := None;
          NetConfigMain.cfg_recvfrom :=
            RecvData [x47; x74; x00; x10] ("192.168.1.201"%string, 9347%Z) |} |}.

(** Library calls for that host: the one address that [ipconfig] shows,
    its network, and the packed form of the robot network's address. *)
Definition one_interface (text : string) : list string := ["192.168.1.100"%string].

Definition network_of (ip : string) : result (string * string) :=
  Return ("192.168.1.0/24"%string, "192.168.1.0"%string).

Definition pack_address (ip : string) : option bytes :=
  if String.eqb ip "192.168.123.201" then Some [xc0; xa8; x7b; xc9] else None.

End Example.

Unset Implicit Arguments.

(** * Properties *)

(** ** The packet classifier *)

Section Classifier.
Import Activation.

Lemma byte_eqb_refl (b : byte) : Byte.eqb b b = true.
Proof. now apply Byte.byte_dec_lb. Qed.

Lemma starts_with_app (pattern rest : bytes) :
  starts_with pattern (pattern ++ rest) = true.
Proof.
  induction pattern as [|p pattern IH]; simpl; [reflexivity|].
  now rewrite byte_eqb_refl, IH.
Qed.

Lemma bytes_in_prefix (pattern rest : bytes) :
  bytes_in pattern (pattern ++ rest) = true.
Proof.
  destruct pattern as [|p pattern]; [destruct rest; reflexivity|].
  change (bytes_in (p :: pattern) ((p :: pattern) ++ rest))
    with (starts_with (p :: pattern) ((p :: pattern) ++ rest)
          || bytes_in (p :: pattern) (pattern ++ rest)).
  now rewrite starts_with_app.
Qed.

(** A configured pattern at the head of a buffer is seen in its header
    window: the patterns are 4 bytes long, the window 20. *)
Lemma header_has_pattern_prefix (p t : bytes) :
  In p hesai_patterns -> header_has_pattern (p ++ t) = true.
Proof.
  intros Hin. unfold header_has_pattern, slice_to.
  apply existsb_exists. exists p. split; [assumption|].
  assert (Hlen : List.length p = 4).
  { simpl in Hin. destruct Hin as [<-|[<-|[<-|[]]]]; reflexivity. }
  rewrite firstn_app, Hlen.
  rewrite (firstn_all2 (n:=20) p) by (rewrite Hlen; lia).
  apply bytes_in_prefix.
Qed.

(** The tagged classifier and the function of the script agree. *)
Lemma classify_matched (data : bytes) :
  matched (classify data) = analyze_hesai_packet data.
Proof.
  unfold classify, analyze_hesai_packet.
  destruct (len data <? 512); [reflexivity|].
  destruct (header_has_pattern data); [reflexivity|].
  now destruct ((1000 <? len data) && (len data <? 2000)).
Qed.

Lemma classify_reason_NoMatch (data : bytes) :
  reason (classify data) = NoMatch <-> analyze_hesai_packet data = false.
Proof.
  unfold classify, analyze_hesai_packet.
  destruct (len data <? 512); [now split|].
  destruct (header_has_pattern data); [now split|].
  now destruct ((1000 <? len data) && (len data <? 2000)).
Qed.

(** What the size test of line 158 decides. *)
Lemma size_test_spec (n : nat) :
  (1000 <? n) && (n <? 2000) = true <-> 1000 < n < 2000.
Proof.
  rewrite andb_true_iff, !Nat.ltb_lt. tauto.
Qed.

End Classifier.

Section ClassifierClaims.
Import Activation.

(** C2, as stated, fails: a configured pattern followed by too few bytes
    is under the 512-byte minimum, and line 139 rejects it before any
    pattern is looked for.  Here the pattern alone, with no trailing
    byte. *)
Lemma C2_short_pattern_buffer_rejected :
  In [xee; xff; x55; xaa] hesai_patterns /\
  analyze_hesai_packet ([xee; xff; x55; xaa] ++ []) = false /\
  classify ([xee; xff; x55; xaa] ++ []) = {| matched := false; reason := NoMatch |}.
Proof. repeat split; simpl; auto. Qed.

(** C2, amended: for every configured magic pattern [p] and all trailing
    bytes [t] such that [p ++ t] has at least 512 bytes, the buffer
    [p ++ t] is classified as a match, by its signature. *)
Theorem C2_pattern_prefix_SignatureMatch (p t : bytes) :
  In p hesai_patterns ->
  512 <= len (p ++ t) ->
  analyze_hesai_packet (p ++ t) = true /\
  classify (p ++ t) = {| matched := true; reason := SignatureMatch |}.
Proof.
  intros Hin Hlen.
  unfold analyze_hesai_packet, classify.
  destruct (len (p ++ t) <? 512) eqn:Hshort.
  - apply Nat.ltb_lt in Hshort. lia.
  - now rewrite header_has_pattern_prefix.
Qed.

Lemma C2_pattern_prefix_SignatureMatch_witness :
  analyze_hesai_packet ([xff; xee; xaa; x55] ++ repeat x00 508) = true /\
  classify ([xff; xee; xaa; x55] ++ repeat x00 508)
  = {| matched := true; reason := SignatureMatch |}.
Proof.
  apply (C2_pattern_prefix_SignatureMatch [xff; xee; xaa; x55] (repeat x00 508)).
  - simpl. auto.
  - vm_compute. lia.
Defined.

(** C3: every buffer shorter than the minimum size of 512 bytes is not a
    match, with reason [NoMatch], whatever its bytes are; a 10-byte buffer
    is such a buffer. *)
Theorem C3_short_buffer_NoMatch (data : bytes) :
  len data < 512 ->
  analyze_hesai_packet data = false /\
  classify data = {| matched := false; reason := NoMatch |}.
Proof.
  intros Hlen. apply Nat.ltb_lt in Hlen.
  unfold analyze_hesai_packet, classify. now rewrite Hlen.
Qed.

Lemma C3_short_buffer_NoMatch_witness :
  analyze_hesai_packet [xee; xff; x55; xaa; x00; x01; x02; x03; x04; x05] = false /\
  classify [xee; xff; x55; xaa; x00; x01; x02; x03; x04; x05]
  = {| matched := false; reason := NoMatch |}.
Proof.
  apply (C3_short_buffer_NoMatch [xee; xff; x55; xaa; x00; x01; x02; x03; x04; x05]).
  simpl. lia.
Defined.

(** C4, as stated, fails: the configured patterns are 4 bytes long, and the
    two bytes EE FF alone are none of them.  A 1400-byte buffer that goes
    on with zeros is a match by its size, line 159, not by a signature. *)
Lemma C4_EE_FF_zeros_is_SizeHeuristic :
  len ([xee; xff] ++ repeat x00 1398) = 1400 /\
  firstn 2 ([xee; xff] ++ repeat x00 1398) = [xee; xff] /\
  classify ([xee; xff] ++ repeat x00 1398)
  = {| matched := true; reason := SizeHeuristic |} /\
  reason (classify ([xee; xff] ++ repeat x00 1398)) <> SignatureMatch.
Proof.
  assert (H : classify ([xee; xff] ++ repeat x00 1398)
              = {| matched := true; reason := SizeHeuristic |})
    by (vm_compute; reflexivity).
  repeat split; try (vm_compute; reflexivity); try assumption.
  rewrite H. discriminate.
Qed.

(** C4, amended: every 1400-byte buffer whose first two bytes are EE FF is
    classified as a match; its reason is [SignatureMatch] when one of the
    configured 4-byte patterns occurs in its first 20 bytes, and
    [SizeHeuristic] when none does. *)
Theorem C4_1400_bytes_EE_FF_matched (data : bytes) :
  len data = 1400 ->
  firstn 2 data = [xee; xff] ->
  analyze_hesai_packet data = true /\
  matched (classify data) = true /\
  (header_has_pattern data = true -> reason (classify data) = SignatureMatch) /\
  (header_has_pattern data = false -> reason (classify data) = SizeHeuristic).
Proof.
  intros Hlen _.
  unfold analyze_hesai_packet, classify. rewrite Hlen.
  change (1400 <? 512) with false.
  change ((1000 <? 1400) && (1400 <? 2000)) with true.
  destruct (header_has_pattern data); repeat split; intros; congruence.
Qed.

Lemma C4_1400_bytes_EE_FF_matched_witness :
  analyze_hesai_packet ([xee; xff; x55; xaa] ++ repeat x00 1396) = true /\
  matched (classify ([xee; xff; x55; xaa] ++ repeat x00 1396)) = true /\
  (header_has_pattern ([xee; xff; x55; xaa] ++ repeat x00 1396) = true ->
   reason (classify ([xee; xff; x55; xaa] ++ repeat x00 1396)) = SignatureMatch) /\
  (header_has_pattern ([xee; xff; x55; xaa] ++ repeat x00 1396) = false ->
   reason (classify ([xee; xff; x55; xaa] ++ repeat x00 1396)) = SizeHeuristic).
Proof.
  apply (C4_1400_bytes_EE_FF_matched ([xee; xff; x55; xaa] ++ repeat x00 1396)).
  - vm_compute. reflexivity.
  - reflexivity.
Defined.

(** C9: for every buffer with none of the configured patterns in its
    first 20 bytes, the classifier reports a match exactly when the length
    is strictly between 1000 and 2000, the match then being by size alone;
    so such a buffer of 512 to 1000 bytes is no match; and every buffer of
    1001 to 1999 bytes, whatever it holds, is a match. *)
Theorem C9_without_pattern_size_decides (data : bytes) :
  header_has_pattern data = false ->
  (analyze_hesai_packet data = true <-> 1000 < len data < 2000) /\
  (1000 < len data < 2000 ->
   classify data = {| matched := true; reason := SizeHeuristic |}) /\
  (512 <= len data <= 1000 ->
   analyze_hesai_packet data = false /\
   classify data = {| matched := false; reason := NoMatch |}) /\
  (forall any : bytes,
      1001 <= len any <= 1999 -> analyze_hesai_packet any = true).
Proof.
  intros Hnone.
  assert (Hany : forall any : bytes,
             1001 <= len any <= 1999 -> analyze_hesai_packet any = true).
  { intros any H. unfold analyze_hesai_packet.
    destruct (len any <? 512) eqn:Hshort.
    - apply Nat.ltb_lt in Hshort. lia.
    - destruct (header_has_pattern any); [reflexivity|].
      assert (Hsize : (1000 <? len any) && (len any <? 2000) = true)
        by (apply size_test_spec; lia).
      now rewrite Hsize. }
  unfold analyze_hesai_packet, classify. rewrite Hnone.
  destruct (len data <? 512) eqn:Hshort.
  - apply Nat.ltb_lt in Hshort.
    split; [split; [discriminate|lia]|].
    split; [lia|]. split; [lia|exact Hany].
  - apply Nat.ltb_ge in Hshort.
    destruct ((1000 <? len data) && (len data <? 2000)) eqn:Hsize.
    + apply size_test_spec in Hsize.
      split; [split; auto|]. split; [reflexivity|]. split; [lia|exact Hany].
    + assert (Hout : ~ 1000 < len data < 2000).
      { intros H. apply size_test_spec in H. congruence. }
      split; [split; [discriminate|tauto]|].
      split; [tauto|]. split; [auto|exact Hany].
Qed.

Lemma C9_without_pattern_size_decides_witness :
  (analyze_hesai_packet (repeat x00 1000) = true <-> 1000 < len (repeat x00 1000) < 2000) /\
  (1000 < len (repeat x00 1000) < 2000 ->
   classify (repeat x00 1000) = {| matched := true; reason := SizeHeuristic |}) /\
  (512 <= len (repeat x00 1000) <= 1000 ->
   analyze_hesai_packet (repeat x00 1000) = false /\
   classify (repeat x00 1000) = {| matched := false; reason := NoMatch |}) /\
  (forall any : bytes,
      1001 <= len any <= 1999 -> analyze_hesai_packet any = true).
Proof.
  apply (C9_without_pattern_size_decides (repeat x00 1000)).
  vm_compute. reflexivity.
Defined.

End ClassifierClaims.

(** The classifier of [go2w_lidar_access.py] does take the two bytes EE FF
    at the head of a buffer of 16 bytes or more for a signature. *)
Lemma go2w_EE_FF_header_is_signature (data : bytes) :
  16 <= len data ->
  firstn 2 data = [xee; xff] ->
  Go2wAccess.header_has_pattern data = true /\
  Go2wAccess.analyze_lidar_packet data = true.
Proof.
  intros Hlen Hhead.
  assert (Hsig : Go2wAccess.header_has_pattern data = true).
  { destruct data as [|b0 [|b1 rest]]; try discriminate.
    cbn in Hhead. injection Hhead as -> ->. reflexivity. }
  split; [assumption|].
  unfold Go2wAccess.analyze_lidar_packet. rewrite Hsig.
  destruct (len data <? 16) eqn:Hshort; [|reflexivity].
  apply Nat.ltb_lt in Hshort. lia.
Qed.

(** ** The command channel *)

Section CommandChannel.
Import Activation.

Variable w : world.
Variable ip : string.

(** One iteration of the command loop always ends normally, whatever the
    socket does, having called [sendto] once and printed one outcome. *)
Lemma send_command_run (n i : nat) (cmd : bytes) (s : unit) :
  exists out,
    send_command w ip n i cmd s = (Return tt, s, out) /\
    command_results out = [command_outcome w i] /\
    sendto_calls out = [Sendto cmd (ip, device_port)].
Proof.
  unfold send_command, command_outcome, sendto, recvfrom,
    try_except, try_except_clauses, bind, emit.
  destruct (ctl_sendto w i) as [err|]; simpl.
  - eexists. split; [reflexivity|]. split; reflexivity.
  - destruct (ctl_recvfrom w i) as [data addr|err]; simpl.
    + eexists. split; [reflexivity|]. split; reflexivity.
    + destruct err; simpl; eexists; (split; [reflexivity|]); split; reflexivity.
Qed.

Lemma command_results_app (l1 l2 : list event) :
  command_results (l1 ++ l2) = command_results l1 ++ command_results l2.
Proof. apply filter_app. Qed.

Lemma sendto_calls_app (l1 l2 : list event) :
  sendto_calls (l1 ++ l2) = sendto_calls l1 ++ sendto_calls l2.
Proof. apply filter_app. Qed.

(** The loop over the commands runs to its end: one outcome per command,
    in order, and every command handed to [sendto]. *)
Lemma send_loop_run (n : nat) (cmds : list bytes) :
  forall (i : nat) (s : unit),
  exists out,
    for_enumerate (send_command w ip n) i cmds s = (Return tt, s, out) /\
    command_results out = map (command_outcome w) (seq i (List.length cmds)) /\
    sendto_calls out = map (fun cmd => Sendto cmd (ip, device_port)) cmds.
Proof.
  induction cmds as [|cmd cmds IH]; intros i s.
  - exists []. repeat split.
  - destruct (send_command_run n i cmd s) as (out1 & Hrun1 & Hres1 & Hsend1).
    destruct (IH (S i) s) as (out2 & Hrun2 & Hres2 & Hsend2).
    exists (out1 ++ out2).
    cbn [for_enumerate]. unfold bind at 1. rewrite Hrun1, Hrun2.
    split; [reflexivity|].
    rewrite command_results_app, sendto_calls_app, Hres1, Hres2, Hsend1, Hsend2.
    split; reflexivity.
Qed.

(** With its socket created, the sender goes through the whole list and
    returns [True]. *)
Lemma send_commands_to_created (cmds : list bytes) (s : unit) :
  ctl_socket w = None ->
  exists out,
    send_commands_to w ip cmds s = (Return true, s, out) /\
    command_results out = map (command_outcome w) (seq 0 (List.length cmds)) /\
    sendto_calls out = map (fun cmd => Sendto cmd (ip, device_port)) cmds.
Proof.
  intros Hsock.
  destruct (send_loop_run (List.length cmds) cmds 0 s) as (out & Hrun & Hres & Hsend).
  unfold send_commands_to, socket_create, try_except, try_except_clauses.
  unfold bind at 1 2 3. rewrite Hsock. cbn [emit]. rewrite Hrun.
  cbn. eexists. split; [reflexivity|].
  change (SendBanner ip :: SocketCreate :: out ++ [SocketClose; CommandsSent])
    with ([SendBanner ip; SocketCreate] ++ out ++ [SocketClose; CommandsSent]).
  rewrite !command_results_app, !sendto_calls_app, Hres, Hsend. cbn.
  rewrite !app_nil_r. split; reflexivity.
Qed.

(** Without it, the sender prints the failure and returns [False]: no
    command is sent and no outcome printed. *)
Lemma send_commands_to_not_created (cmds : list bytes) (s : unit) (err : oserror) :
  ctl_socket w = Some err ->
  send_commands_to w ip cmds s
  = (Return false, s, [SendBanner ip; SocketCreate; ActivationFailed (OSError err)]).
Proof.
  intros Hsock.
  unfold send_commands_to, socket_create, try_except, try_except_clauses, bind.
  rewrite Hsock. reflexivity.
Qed.

End CommandChannel.

Section CommandChannelClaims.
Import Activation.

(** C6, as stated, fails when the control socket cannot be created: the
    handler of line 203 returns [False] before the loop is entered, and
    none of the three commands has an outcome. *)
Lemma C6_no_socket_no_command_result :
  run (send_activation_commands Scenario.no_socket "192.168.1.201") tt
  = (Return false,
     [SendBanner "192.168.1.201"; SocketCreate; ActivationFailed (OSError (Errno 24))]) /\
  List.length (command_results
                 (snd (run (send_activation_commands Scenario.no_socket "192.168.1.201") tt)))
  = 0 /\
  List.length commands = 3.
Proof. repeat split. Qed.

(** C6, amended: once the control socket is created, for every list of N
    commands and whatever the endpoint does, the sender records exactly N
    outcomes, the i-th being that of the i-th command; a socket error on a
    command is caught into that command's outcome, and every command of
    the list is handed to [sendto] all the same; and with or without a
    socket the sender returns a boolean: no socket error escapes it. *)
Theorem C6_one_outcome_per_command (w : world) (ip : string) (cmds : list bytes) :
  ctl_socket w = None ->
  (exists out,
      run (send_commands_to w ip cmds) tt = (Return true, out) /\
      List.length (command_results out) = List.length cmds /\
      sendto_calls out = map (fun cmd => Sendto cmd (ip, device_port)) cmds /\
      (forall i, i < List.length cmds ->
                 nth_error (command_results out) i = Some (command_outcome w i)) /\
      (forall i err, i < List.length cmds -> ctl_sendto w i = Some err ->
                     nth_error (command_results out) i
                     = Some (CommandFailed (i + 1) (OSError err)))) /\
  (forall w' : world, exists b out,
        run (send_commands_to w' ip cmds) tt = (Return b, out)).
Proof.
  intros Hsock. split.
  - destruct (send_commands_to_created w ip cmds tt Hsock) as (out & Hrun & Hres & Hsend).
    exists out. unfold run. rewrite Hrun.
    assert (Hnth : forall i, i < List.length cmds ->
              nth_error (command_results out) i = Some (command_outcome w i)).
    { intros i Hi. rewrite Hres.
      rewrite nth_error_map, nth_error_seq.
      apply Nat.ltb_lt in Hi. now rewrite Hi. }
    split; [reflexivity|].
    split; [now rewrite Hres, length_map, length_seq|].
    split; [assumption|].
    split; [assumption|].
    intros i err Hi Herr. rewrite (Hnth i Hi).
    unfold command_outcome. now rewrite Herr.
  - intros w'. destruct (ctl_socket w') as [err|] eqn:Hsock'.
    + exists false. eexists. unfold run.
      now rewrite (send_commands_to_not_created w' ip cmds tt err Hsock').
    + destruct (send_commands_to_created w' ip cmds tt Hsock') as (out & Hrun & _).
      exists true, out. unfold run. now rewrite Hrun.
Qed.

(** Three commands against an endpoint that never answers: three
    outcomes. *)
Lemma C6_one_outcome_per_command_witness :
  (exists out,
      run (send_commands_to Scenario.silent_endpoint "192.168.1.201" commands) tt
      = (Return true, out) /\
      List.length (command_results out) = List.length commands /\
      sendto_calls out
      = map (fun cmd => Sendto cmd ("192.168.1.201"%string, device_port)) commands /\
      (forall i, i < List.length commands ->
                 nth_error (command_results out) i
                 = Some (command_outcome Scenario.silent_endpoint i)) /\
      (forall i err, i < List.length commands ->
                     ctl_sendto Scenario.silent_endpoint i = Some err ->
                     nth_error (command_results out) i
                     = Some (CommandFailed (i + 1) (OSError err)))) /\
  (forall w' : world, exists b out,
        run (send_commands_to w' "192.168.1.201" commands) tt = (Return b, out)).
Proof.
  apply (C6_one_outcome_per_command Scenario.silent_endpoint "192.168.1.201" commands).
  reflexivity.
Defined.

(** The run of scenario D: each of the three commands is sent and gets
    "No response". *)
Example silent_endpoint_run :
  command_results
    (snd (run (send_activation_commands Scenario.silent_endpoint "192.168.1.201") tt))
  = [NoResponse; NoResponse; NoResponse].
Proof. reflexivity. Qed.

(** C10: the sender returns [True] whenever its control socket was
    created, whatever happens to the commands: when every [sendto] fails
    and when no response ever comes as well.  The value says that the loop
    ran, nothing about the device. *)
Theorem C10_True_whenever_socket_created (w : world) (ip : string) :
  ctl_socket w = None ->
  fst (run (send_activation_commands w ip) tt) = Return true.
Proof.
  intros Hsock.
  destruct (send_commands_to_created w ip commands tt Hsock) as (out & Hrun & _).
  unfold run, send_activation_commands. now rewrite Hrun.
Qed.

(** Every [sendto] fails, no response is received, and the value is
    [True]. *)
Lemma C10_True_whenever_socket_created_witness :
  fst (run (send_activation_commands Scenario.unreachable_network "10.5.5.200") tt)
  = Return true.
Proof.
  apply (C10_True_whenever_socket_created Scenario.unreachable_network "10.5.5.200").
  reflexivity.
Defined.

Example unreachable_network_run :
  command_results
    (snd (run (send_activation_commands Scenario.unreachable_network "10.5.5.200") tt))
  = [CommandFailed 1 (OSError (Errno 101));
     CommandFailed 2 (OSError (Errno 101));
     CommandFailed 3 (OSError (Errno 101))].
Proof. reflexivity. Qed.

(** Conversely [True] is returned only when the socket was created. *)
Lemma send_activation_commands_True_iff (w : world) (ip : string) :
  fst (run (send_activation_commands w ip) tt) = Return true <-> ctl_socket w = None.
Proof.
  split.
  - destruct (ctl_socket w) as [err|] eqn:Hsock; [|reflexivity].
    unfold run, send_activation_commands.
    rewrite (send_commands_to_not_created w ip commands tt err Hsock).
    discriminate.
  - intros Hsock.
    destruct (send_commands_to_created w ip commands tt Hsock) as (out & Hrun & _).
    unfold run, send_activation_commands. now rewrite Hrun.
Qed.

End CommandChannelClaims.

(** ** The capture ladder *)

Section Ladder.
Import Sniffer.

Lemma attempts_app (l1 l2 : list main_event) :
  attempts (l1 ++ l2) = attempts l1 ++ attempts l2.
Proof. apply flat_map_app. Qed.

Lemma tried_app (l1 l2 : list main_event) :
  tried (l1 ++ l2) = tried l1 ++ tried l2.
Proof. apply flat_map_app. Qed.

(** What a method prints is no report of the loop. *)
Lemma attempts_FromMethod (out : list event) : attempts (map FromMethod out) = [].
Proof. induction out; simpl; auto. Qed.

Lemma tried_FromMethod (out : list event) : tried (map FromMethod out) = [].
Proof. induction out; simpl; auto. Qed.

(** One iteration of the loop: the method is announced and called once,
    one outcome is reported, and the loop is left exactly on a success or
    an interrupt. *)
Lemma try_method_run (name : string) (m : method) (s : EnhancedLidarSniffer) :
  exists o s' out,
    try_method name m s = (Return (flow_after o), s', out) /\
    attempts out = [(name, o)] /\
    tried out = [name].
Proof.
  assert (Hatt : forall (out0 : list event) (l : list main_event),
             attempts (Trying name :: map FromMethod out0 ++ l) = attempts l
             /\ tried (Trying name :: map FromMethod out0 ++ l) = name :: tried l).
  { intros out0 l.
    change (Trying name :: map FromMethod out0 ++ l)
      with ([Trying name] ++ map FromMethod out0 ++ l).
    rewrite !attempts_app, !tried_app, attempts_FromMethod, tried_FromMethod.
    split; reflexivity. }
  unfold try_method, call, try_except_clauses, bind, emit.
  destruct (m {| self := s; sock_bound := false |}) as [[r fr] out0].
  destruct r as [[|]|e].
  - exists Succeeded. do 2 eexists. cbn. split; [reflexivity|].
    destruct (Hatt out0 [Success name; TotalPackets (packet_count (self fr))])
      as [-> ->].
    split; reflexivity.
  - exists NoData. do 2 eexists. cbn. split; [reflexivity|].
    destruct (Hatt out0 [NoDataDetected name]) as [-> ->].
    split; reflexivity.
  - destruct e;
      [ exists Interrupted | exists (Errored (OSError err))
      | exists (Errored TimeoutExpired) | exists (Errored StructError)
      | exists (Errored TypeError) | exists (Errored ValueError)
      | exists (Errored (UnboundLocalError name0)) ];
      do 2 eexists; cbn; (split; [reflexivity|]);
      match goal with
      | |- attempts (_ :: _ ++ ?l) = _ /\ _ => destruct (Hatt out0 l) as [-> ->]
      end;
      split; reflexivity.
Qed.

(** The loop over the methods: it ends, the methods it tried are the
    first of the list, each has one outcome, and a success is the last
    outcome. *)
Lemma try_methods_run (ms : list (string * method)) :
  forall s : EnhancedLidarSniffer,
  exists b s' out,
    try_methods ms s = (Return b, s', out) /\
    map fst (attempts out) = tried out /\
    tried out = firstn (List.length (tried out)) (map fst ms) /\
    (forall k name, nth_error (attempts out) k = Some (name, Succeeded) ->
                    List.length (attempts out) = S k).
Proof.
  induction ms as [|[name m] ms IH]; intros s.
  - exists true, s, []. repeat split. intros [|k] name' H; discriminate.
  - destruct (try_method_run name m s) as (o & s1 & out1 & Hrun1 & Hatt1 & Htried1).
    destruct (IH s1) as (b2 & s2 & out2 & Hrun2 & Hnames2 & Hpre2 & Hlast2).
    cbn [try_methods]. unfold bind at 1. rewrite Hrun1.
    destruct o; cbn [flow_after].
    + exists false, s1, (out1 ++ []). unfold ret. split; [reflexivity|].
      rewrite app_nil_r, Hatt1, Htried1. repeat split.
      intros [|[|k]] name' H; [reflexivity|discriminate|discriminate].
    + rewrite Hrun2. exists b2, s2, (out1 ++ out2). split; [reflexivity|].
      rewrite attempts_app, tried_app, Hatt1, Htried1. cbn.
      split; [now rewrite Hnames2|]. split; [now rewrite <- Hpre2|].
      intros [|k] name' H; [discriminate|].
      cbn in H. now rewrite (Hlast2 k name' H).
    + exists false, s1, (out1 ++ []). unfold ret. split; [reflexivity|].
      rewrite app_nil_r, Hatt1, Htried1. repeat split.
      intros [|[|k]] name' H; discriminate.
    + rewrite Hrun2. exists b2, s2, (out1 ++ out2). split; [reflexivity|].
      rewrite attempts_app, tried_app, Hatt1, Htried1. cbn.
      split; [now rewrite Hnames2|]. split; [now rewrite <- Hpre2|].
      intros [|k] name' H; [discriminate|].
      cbn in H. now rewrite (Hlast2 k name' H).
Qed.

(** The same of the whole ladder, whose closing lines report on no
    method. *)
Lemma ladder_run (ms : list (string * method)) (s : EnhancedLidarSniffer) :
  map fst (attempts (ladder_events ms s)) = tried (ladder_events ms s) /\
  tried (ladder_events ms s)
  = firstn (List.length (tried (ladder_events ms s))) (map fst ms) /\
  (forall k name,
      nth_error (attempts (ladder_events ms s)) k = Some (name, Succeeded) ->
      List.length (attempts (ladder_events ms s)) = S k).
Proof.
  destruct (try_methods_run ms s) as (b & s' & out & Hrun & Hnames & Hpre & Hlast).
  assert (Hatt : attempts (ladder_events ms s) = attempts out
                 /\ tried (ladder_events ms s) = tried out).
  { unfold ladder_events, ladder, bind. rewrite Hrun.
    destruct b; cbn; rewrite attempts_app, tried_app; cbn;
      now rewrite !app_nil_r. }
  destruct Hatt as [-> ->]. auto.
Qed.

End Ladder.

Section LadderClaims.
Import Sniffer.

(** C1: the ladder has no exhaustive mode, and over any ordered list of
    methods, if the k-th attempt (counting from 1) is a success, then it
    is the last: exactly k attempts are recorded, the methods tried are
    the first k of the list and no later one runs, and no attempt before
    the k-th was a success. *)
Theorem C1_first_success_stops_ladder
        (ms : list (string * method)) (sniffer : EnhancedLidarSniffer)
        (k : nat) (name : string) :
  1 <= k ->
  nth_error (attempts (ladder_events ms sniffer)) (k - 1) = Some (name, Succeeded) ->
  List.length (attempts (ladder_events ms sniffer)) = k /\
  tried (ladder_events ms sniffer) = firstn k (map fst ms) /\
  nth_error (map fst ms) (k - 1) = Some name /\
  (forall j name' o,
      j < k - 1 ->
      nth_error (attempts (ladder_events ms sniffer)) j = Some (name', o) ->
      o <> Succeeded).
Proof.
  intros Hk Hnth.
  destruct (ladder_run ms sniffer) as (Hnames & Hpre & Hlast).
  assert (Hlen : List.length (attempts (ladder_events ms sniffer)) = k).
  { rewrite (Hlast _ _ Hnth). lia. }
  assert (Htried : tried (ladder_events ms sniffer) = firstn k (map fst ms)).
  { rewrite Hpre. f_equal. now rewrite <- Hnames, length_map. }
  split; [assumption|]. split; [assumption|]. split.
  - assert (H : nth_error (tried (ladder_events ms sniffer)) (k - 1) = Some name).
    { rewrite <- Hnames, nth_error_map, Hnth. reflexivity. }
    rewrite Htried in H.
    rewrite nth_error_firstn in H.
    destruct (k - 1 <? k) eqn:Hlt; [assumption|discriminate].
  - intros j name' o Hj Hnthj ->.
    apply Hlast in Hnthj. lia.
Qed.

(** In [main], with the UDP listener timing out and tcpdump, the second
    method, seeing a packet: two attempts, and neither the raw socket nor
    the sniffer runs. *)
Lemma C1_first_success_stops_ladder_witness :
  List.length (attempts (ladder_events (methods Scenario.tcpdump_sees_packet) init)) = 2 /\
  tried (ladder_events (methods Scenario.tcpdump_sees_packet) init)
  = firstn 2 (map fst (methods Scenario.tcpdump_sees_packet)) /\
  nth_error (map fst (methods Scenario.tcpdump_sees_packet)) (2 - 1)
  = Some "tcpdump Analysis"%string /\
  (forall j name' o,
      j < 2 - 1 ->
      nth_error (attempts (ladder_events (methods Scenario.tcpdump_sees_packet) init)) j
      = Some (name', o) ->
      o <> Succeeded).
Proof.
  apply (C1_first_success_stops_ladder
           (methods Scenario.tcpdump_sees_packet) init 2 "tcpdump Analysis").
  - lia.
  - vm_compute. reflexivity.
Defined.

(** [main] is the ladder over its four methods, after a banner. *)
Lemma main_events_ladder (w : world) :
  main_events w = MainBanner :: ladder_events (methods w) init.
Proof.
  unfold main_events, main, ladder_events, bind, emit.
  destruct (ladder (methods w) init) as [[r s] out]. now destruct r.
Qed.

End LadderClaims.

(** ** The raw capture *)

Section RawCapture.
Import Sniffer.



End RawCapture.

Section RawCaptureClaims.
Import Sniffer.




End RawCaptureClaims.

(** ** The network scanner *)

Section Scanner.
Import NetConfig.

Variable re_findall_ipv4 : string -> list string.
Variable IPv4Network_24 : string -> result (string * string).
Variable w : world.

(** [ping_ip] answers [False] for every address: when the ping process
    has run, the membership test of line 65 raises [TypeError], and the
    bare [except] turns every exception into [False]. *)
Lemma ping_ip_run (ip : string) (s : unit) :
  ping_ip w ip s = (Return false, s, [RunPing ip]).
Proof.
  unfold ping_ip, run_ping, lift, str_in_bytes, try_except, try_except_clauses, bind.
  destruct (ping w ip); reflexivity.
Qed.

Lemma first_responding_run (test_ips : list string) (s : unit) :
  first_responding w test_ips s = (Return None, s, map RunPing test_ips).
Proof.
  induction test_ips as [|test_ip test_ips IH]; [reflexivity|].
  cbn [first_responding]. unfold bind. now rewrite ping_ip_run, IH.
Qed.

Lemma scan_interfaces_run (found_ips : list string) (s : unit) :
  exists out,
    scan_interfaces IPv4Network_24 w found_ips s = (Return None, s, out).
Proof.
  induction found_ips as [|ip found_ips [out IH]]; [now exists []|].
  cbn [scan_interfaces].
  destruct (negb (str_starts_with "127." ip)); [|now exists out].
  unfold try_except, try_except_clauses, lift, bind, emit.
  destruct (IPv4Network_24 ip) as [network|e].
  - rewrite first_responding_run. cbn. rewrite IH. eexists. reflexivity.
  - cbn. rewrite IH. eexists. reflexivity.
Qed.

(** The local scan always ends, and by returning a value. *)
Lemma scan_local_networks_run (s : unit) :
  exists found out,
    scan_local_networks re_findall_ipv4 IPv4Network_24 w s = (Return found, s, out).
Proof.
  unfold scan_local_networks, run_ipconfig, try_except, try_except_clauses, bind, emit.
  destruct (ipconfig w) as [interfaces|err].
  - destruct (scan_interfaces_run (re_findall_ipv4 interfaces) s) as [out ->].
    do 2 eexists. reflexivity.
  - do 2 eexists. reflexivity.
Qed.

(** One broadcast: the host of the reply if there is one, and no
    exception otherwise. *)
Lemma broadcast_to_run (i : nat) (addr : string) (s : unit) :
  exists out,
    broadcast_to w i addr s
    = (Return (option_map (fun r => fst (snd r)) (reply w i)), s, out).
Proof.
  unfold broadcast_to, reply, sendto, recvfrom, try_except, try_except_clauses,
    bind, emit.
  destruct (bc_sendto w i) as [err|]; cbn.
  - eexists. reflexivity.
  - destruct (bc_recvfrom w i) as [data server|err]; cbn.
    + eexists. reflexivity.
    + destruct err; cbn; eexists; reflexivity.
Qed.

Lemma broadcast_loop_run (addrs : list string) :
  forall (i : nat) (s : unit),
  exists out,
    broadcast_loop w i addrs s = (Return (first_reply w i (List.length addrs)), s, out).
Proof.
  induction addrs as [|addr addrs IH]; intros i s; [now exists []|].
  destruct (broadcast_to_run i addr s) as [out1 H1].
  destruct (IH (S i) s) as [out2 H2].
  cbn [broadcast_loop List.length first_reply]. unfold bind. rewrite H1.
  destruct (reply w i) as [[data server]|]; cbn.
  - eexists. reflexivity.
  - rewrite H2. eexists. reflexivity.
Qed.

(** The broadcast discovery always ends by returning a value: the host
    of the first reply, or [None]. *)
Lemma try_hesai_broadcast_discovery_run (s : unit) :
  exists out,
    try_hesai_broadcast_discovery w s
    = (Return (match bc_socket w with
               | None => first_reply w 0 (List.length broadcast_addresses)
               | Some _ => None
               end), s, out).
Proof.
  unfold try_hesai_broadcast_discovery, socket_create, try_except,
    try_except_clauses, bind, emit.
  destruct (bc_socket w) as [err|].
  - eexists. reflexivity.
  - destruct (broadcast_loop_run broadcast_addresses 0 s) as [out ->].
    destruct (first_reply w 0 (List.length broadcast_addresses));
      eexists; reflexivity.
Qed.

(** The broadcast discovery announces itself first. *)
Lemma try_hesai_broadcast_discovery_banner (s : unit) :
  In BroadcastBanner (snd (try_hesai_broadcast_discovery w s)).
Proof.
  unfold try_hesai_broadcast_discovery, bind at 1, emit.
  match goal with
  | |- context [try_except ?b ?c ?h s] =>
      destruct (try_except b c h s) as [[r s'] out]
  end.
  cbn. auto.
Qed.

(** Steps 1 and 2 of [main]: when the local scan found nothing the value
    of [found_ip] is that of the broadcast discovery, which was run. *)
Lemma main_discovery_fallback (s : unit) :
  fst (fst (scan_local_networks re_findall_ipv4 IPv4Network_24 w s)) = Return None ->
  fst (fst (main_discovery re_findall_ipv4 IPv4Network_24 w s))
  = fst (fst (try_hesai_broadcast_discovery w s)) /\
  In BroadcastBanner (snd (main_discovery re_findall_ipv4 IPv4Network_24 w s)).
Proof.
  intros Hscan.
  destruct (scan_local_networks_run s) as (found & out0 & Hrun0).
  rewrite Hrun0 in Hscan. cbn in Hscan. injection Hscan as ->.
  pose proof (try_hesai_broadcast_discovery_banner s) as Hbanner.
  destruct (try_hesai_broadcast_discovery_run s) as [out1 Hrun1].
  rewrite Hrun1 in Hbanner |- *. cbn [fst snd] in Hbanner |- *.
  set (r := match bc_socket w with
            | Some _ => None
            | None => first_reply w 0 (List.length broadcast_addresses)
            end) in *.
  assert (Hmain : exists final,
             main_discovery re_findall_ipv4 IPv4Network_24 w s
             = (Return r, s, out0 ++ [NoDevicesOnLocalNetworks] ++ out1 ++ [final])).
  { unfold main_discovery, bind at 1. rewrite Hrun0. cbn [truthy].
    unfold bind at 1. cbn [emit]. unfold bind at 1. rewrite Hrun1.
    destruct r as [[|c host]|]; cbn; eexists; reflexivity. }
  destruct Hmain as [final ->]. cbn [fst snd].
  split; [reflexivity|].
  apply in_or_app; right. apply in_or_app; right. apply in_or_app; left.
  exact Hbanner.
Qed.

(** The first reply is the one no earlier broadcast got. *)
Lemma first_reply_at (n : nat) :
  forall (a i : nat) (data : bytes) (server : address),
    a <= i < a + n ->
    (forall j, a <= j < i -> reply w j = None) ->
    reply w i = Some (data, server) ->
    first_reply w a n = Some (fst server).
Proof.
  induction n as [|n IH]; intros a i data server Hi Hbefore Hreply; [lia|].
  cbn [first_reply].
  destruct (Nat.eq_dec a i) as [->|Hne].
  - now rewrite Hreply.
  - rewrite (Hbefore a) by lia.
    apply (IH (S a) i data server); [lia| |assumption].
    intros j Hj. apply Hbefore. lia.
Qed.

Lemma first_reply_none (n : nat) :
  forall a : nat,
    (forall j, a <= j < a + n -> reply w j = None) ->
    first_reply w a n = None.
Proof.
  induction n as [|n IH]; intros a Hnone; [reflexivity|].
  cbn [first_reply]. rewrite (Hnone a) by lia.
  apply IH. intros j Hj. apply Hnone. lia.
Qed.

End Scanner.

Lemma filter_none {A} (f : A -> bool) (l : list A) :
  (forall x, In x l -> f x = false) <-> filter f l = [].
Proof.
  induction l as [|a l IH]; cbn; [tauto|].
  split.
  - intros H. rewrite (H a) by auto. apply IH. auto.
  - destruct (f a) eqn:Ha; [discriminate|].
    intros Hnil x [<-|Hin]; [assumption|]. now apply IH.
Qed.

Section PingScan.
Import Activation.

Variable w : world.

(** One probe of [scan_for_lidar]: the address joins [found_devices]
    exactly when its ping ends with return code 0; nothing is raised. *)
Lemma scan_probe_run (ip : string) (found : list string) :
  exists out,
    scan_probe w ip found
    = (Return tt, found ++ (if responds w ip then [ip] else []), out).
Proof.
  unfold scan_probe, responds, run_ping, try_except, try_except_clauses,
    bind, emit, modify.
  destruct (ping w ip) as [returncode|e]; cbn.
  - destruct (returncode =? 0)%Z; cbn; rewrite ?app_nil_r; eexists; reflexivity.
  - rewrite app_nil_r. eexists. reflexivity.
Qed.

Lemma scan_loop_run (ips : list string) :
  forall found : list string,
  exists out,
    for_each (scan_probe w) ips found
    = (Return tt, found ++ filter (responds w) ips, out).
Proof.
  induction ips as [|ip ips IH]; intros found.
  - exists []. cbn. now rewrite app_nil_r.
  - destruct (scan_probe_run ip found) as [out1 H1].
    destruct (IH (found ++ (if responds w ip then [ip] else []))) as [out2 H2].
    cbn [for_each filter]. unfold bind. rewrite H1, H2.
    exists (out1 ++ out2). rewrite <- app_assoc.
    now destruct (responds w ip).
Qed.

(** [scan_for_lidar] returns the candidates that answered, in order; it
    raises nothing. *)
Lemma scan_for_lidar_run (found0 : list string) :
  fst (fst (scan_for_lidar w found0)) = Return (filter (responds w) possible_ips).
Proof.
  unfold scan_for_lidar.
  destruct (scan_loop_run possible_ips []) as [out H].
  unfold bind at 1. cbn [emit]. unfold bind at 1. cbn [modify].
  unfold bind at 1. rewrite H. cbn [app].
  unfold bind at 1. cbn [get].
  destruct (filter (responds w) possible_ips); reflexivity.
Qed.

End PingScan.

Section ScannerClaims.
Import NetConfig.

(** C7: in [hesai_network_config.main], if the local scan finds no
    address that answers, the broadcast discovery is run and decides
    [found_ip]: the source host of the first reply to a broadcast becomes
    the discovered endpoint, and with no reply at all the result is
    [None]; and [scan_for_lidar] returns the empty list when no candidate
    answers its ping.  Every one of them returns a value, none raises. *)
Theorem C7_scanner_falls_back_to_broadcast
        (re_findall_ipv4 : string -> list string)
        (IPv4Network_24 : string -> result (string * string))
        (w : world) (aw : Activation.world) :
  fst (fst (scan_local_networks re_findall_ipv4 IPv4Network_24 w tt)) = Return None ->
  In BroadcastBanner (snd (main_discovery re_findall_ipv4 IPv4Network_24 w tt)) /\
  fst (fst (main_discovery re_findall_ipv4 IPv4Network_24 w tt))
  = fst (fst (try_hesai_broadcast_discovery w tt)) /\
  (forall i data host port,
      bc_socket w = None ->
      i < List.length broadcast_addresses ->
      (forall j, j < i -> reply w j = None) ->
      reply w i = Some (data, (host, port)) ->
      fst (fst (main_discovery re_findall_ipv4 IPv4Network_24 w tt))
      = Return (Some host)) /\
  ((forall i, i < List.length broadcast_addresses -> reply w i = None) ->
   fst (fst (main_discovery re_findall_ipv4 IPv4Network_24 w tt)) = Return None) /\
  ((forall ip, In ip Activation.possible_ips -> Activation.responds aw ip = false) ->
   fst (fst (Activation.scan_for_lidar aw [])) = Return []) /\
  (exists found_ip,
      fst (fst (main_discovery re_findall_ipv4 IPv4Network_24 w tt)) = Return found_ip) /\
  (exists found_devices,
      fst (fst (Activation.scan_for_lidar aw [])) = Return found_devices).
Proof.
  intros Hscan.
  destruct (main_discovery_fallback re_findall_ipv4 IPv4Network_24 w tt Hscan)
    as [Hsame Hbanner].
  destruct (try_hesai_broadcast_discovery_run w tt) as [out Hrun].
  split; [assumption|]. split; [assumption|].
  rewrite Hsame, Hrun. cbn [fst].
  split; [|split; [|split; [|split]]].
  - intros i data host port Hsock Hi Hbefore Hreply. rewrite Hsock.
    f_equal.
    apply (first_reply_at w _ 0 i data (host, port)); [lia| |assumption].
    intros j Hj. apply Hbefore. lia.
  - intros Hnone. destruct (bc_socket w); [reflexivity|].
    f_equal. apply first_reply_none. intros j Hj. apply Hnone. lia.
  - intros Hnone. rewrite scan_for_lidar_run. f_equal.
    now apply filter_none.
  - eexists. reflexivity.
  - eexists. apply scan_for_lidar_run.
Qed.

(** The sensor answers the broadcast to 192.168.123.255: the fallback
    runs and its address is the endpoint found. *)
Lemma C7_scanner_falls_back_to_broadcast_witness :
  In BroadcastBanner
     (snd (main_discovery Scenario.no_match Scenario.no_network
                          Scenario.sensor_answers_broadcast tt)) /\
  fst (fst (main_discovery Scenario.no_match Scenario.no_network
                           Scenario.sensor_answers_broadcast tt))
  = Return (Some "192.168.123.201"%string) /\
  fst (fst (Activation.scan_for_lidar Scenario.silent_endpoint [])) = Return [].
Proof.
  destruct (C7_scanner_falls_back_to_broadcast
              Scenario.no_match Scenario.no_network
              Scenario.sensor_answers_broadcast Scenario.silent_endpoint eq_refl)
    as (Hbanner & _ & Hreply & _ & Hempty & _).
  split; [exact Hbanner|]. split.
  - apply (Hreply 2 [x47; x74; x00; xff] "192.168.123.201"%string 9347%Z).
    + reflexivity.
    + cbn. lia.
    + intros [|[|j]] Hj; [reflexivity|reflexivity|lia].
    + reflexivity.
  - apply Hempty. intros ip _. reflexivity.
Defined.

End ScannerClaims.

(** ** The quick check *)

Section QuickCheckRuns.
Import QuickCheck.

Variable w : world.

Lemma network_operations_app (l1 l2 : list event) :
  network_operations (l1 ++ l2) = network_operations l1 ++ network_operations l2.
Proof. apply filter_app. Qed.

(** One probe of [ping_hesai_addresses]: one ping is run, and the
    address joins [found] exactly when it answered. *)
Lemma ping_probe_run (ip : string) (found : list string) :
  exists out,
    ping_probe w ip found
    = (Return tt, found ++ (if responds w ip then [ip] else []), out) /\
    network_operations out = [RunPing ip ping_timeout].
Proof.
  unfold ping_probe, responds, run_ping, try_except, try_except_clauses,
    bind, emit, modify.
  destruct (ping w ip) as [stdout|e]; cbn.
  - destruct (str_in "TTL=" stdout); cbn; rewrite ?app_nil_r;
      eexists; split; reflexivity.
  - rewrite app_nil_r. eexists. split; reflexivity.
Qed.

Lemma ping_loop_run (ips : list string) :
  forall found : list string,
  exists out,
    for_each (ping_probe w) ips found
    = (Return tt, found ++ filter (responds w) ips, out) /\
    network_operations out = map (fun ip => RunPing ip ping_timeout) ips.
Proof.
  induction ips as [|ip ips IH]; intros found.
  - exists []. cbn. now rewrite app_nil_r.
  - destruct (ping_probe_run ip found) as (out1 & H1 & Hops1).
    destruct (IH (found ++ (if responds w ip then [ip] else [])))
      as (out2 & H2 & Hops2).
    cbn [for_each filter map]. unfold bind. rewrite H1, H2.
    exists (out1 ++ out2). rewrite <- app_assoc, network_operations_app, Hops1, Hops2.
    split; [|reflexivity].
    now destruct (responds w ip).
Qed.

(** The scan returns the candidates that answered, having pinged every
    candidate once, in order. *)
Lemma ping_addresses_run (ips found0 : list string) :
  exists s out,
    ping_addresses w ips found0 = (Return (filter (responds w) ips), s, out) /\
    network_operations out = map (fun ip => RunPing ip ping_timeout) ips.
Proof.
  destruct (ping_loop_run ips []) as (out & H & Hops).
  unfold ping_addresses.
  unfold bind at 1. cbn [emit]. unfold bind at 1. cbn [modify].
  unfold bind at 1. rewrite H. cbn [app get].
  do 2 eexists. split; [reflexivity|].
  cbn. now rewrite app_nil_r.
Qed.






End QuickCheckRuns.

Section QuickCheckClaims.
Import QuickCheck.



End QuickCheckClaims.

(** * Further properties of the scripts *)

(** ** Where the classifier sees a signature *)

Section PatternSearch.
Import Activation.

(** The search [pattern in data] finds exactly the contiguous
    occurrences. *)
Lemma starts_with_iff (pattern : bytes) :
  forall data : bytes,
    starts_with pattern data = true <-> exists post, data = pattern ++ post.
Proof.
  induction pattern as [|p pattern IH]; intros data.
  - cbn. split; [intros _; now exists data|reflexivity].
  - destruct data as [|d data]; cbn.
    + split; [discriminate|intros [post H]; discriminate].
    + rewrite andb_true_iff, IH. split.
      * intros [Hpd [post ->]]. apply Byte.byte_dec_bl in Hpd. subst d.
        now exists post.
      * intros [post H]. injection H as -> ->. split; [apply byte_eqb_refl|].
        now exists post.
Qed.

Lemma bytes_in_iff (pattern : bytes) :
  forall data : bytes,
    bytes_in pattern data = true
    <-> exists pre post, data = pre ++ pattern ++ post.
Proof.
  induction data as [|d data IH].
  - cbn. rewrite orb_false_r, starts_with_iff. split.
    + intros [post H]. now exists [], post.
    + intros (pre & post & H). destruct pre; [now exists post|discriminate].
  - change (bytes_in pattern (d :: data))
      with (starts_with pattern (d :: data) || bytes_in pattern data).
    rewrite orb_true_iff, starts_with_iff, IH. split.
    + intros [[post H]|(pre & post & H)].
      * now exists [], post.
      * exists (d :: pre), post. now rewrite H.
    + intros (pre & post & H). destruct pre as [|x pre].
      * left. now exists post.
      * right. injection H as _ H. now exists pre, post.
Qed.

(** The header window holds a pattern exactly when one of the three
    occurs wholly inside the first 20 bytes. *)
Lemma header_has_pattern_iff (data : bytes) :
  header_has_pattern data = true
  <-> exists p pre post,
      In p hesai_patterns /\ firstn 20 data = pre ++ p ++ post.
Proof.
  unfold header_has_pattern, slice_to. rewrite existsb_exists. split.
  - intros (p & Hin & Hp). apply bytes_in_iff in Hp.
    destruct Hp as (pre & post & H). now exists p, pre, post.
  - intros (p & pre & post & Hin & H). exists p. split; [assumption|].
    apply bytes_in_iff. now exists pre, post.
Qed.

(** For a buffer of the minimum size or more, the classifier answers
    [SignatureMatch] exactly when one of the configured patterns lies
    wholly within the first 20 bytes; bytes further on are never searched. *)
Theorem signature_iff_pattern_within_header (data : bytes) :
  512 <= len data ->
  (reason (classify data) = SignatureMatch
   <-> exists p pre post,
      In p hesai_patterns /\ firstn 20 data = pre ++ p ++ post).
Proof.
  intros Hlen. rewrite <- header_has_pattern_iff.
  unfold classify.
  destruct (len data <? 512) eqn:Hshort.
  - apply Nat.ltb_lt in Hshort. lia.
  - destruct (header_has_pattern data).
    + split; reflexivity.
    + destruct ((1000 <? len data) && (len data <? 2000));
        split; discriminate.
Qed.

(** A pattern at offset 3 of a 600-byte buffer. *)
Lemma signature_iff_pattern_within_header_witness :
  reason (classify (repeat x00 3 ++ [x55; xaa; xff; xee] ++ repeat x00 593))
  = SignatureMatch
  <-> exists p pre post,
      In p hesai_patterns /\
      firstn 20 (repeat x00 3 ++ [x55; xaa; xff; xee] ++ repeat x00 593)
      = pre ++ p ++ post.
Proof.
  apply (signature_iff_pattern_within_header
           (repeat x00 3 ++ [x55; xaa; xff; xee] ++ repeat x00 593)).
  vm_compute. lia.
Defined.

(** A configured pattern that begins at any of the offsets 0 to 16 of a
    buffer of at least 512 bytes makes the buffer a match by signature,
    whatever the other bytes are. *)
Theorem pattern_at_offset_up_to_16_matches (pre p post : bytes) :
  In p hesai_patterns ->
  List.length pre <= 16 ->
  512 <= len (pre ++ p ++ post) ->
  classify (pre ++ p ++ post) = {| matched := true; reason := SignatureMatch |} /\
  analyze_hesai_packet (pre ++ p ++ post) = true.
Proof.
  intros Hin Hpre Hlen.
  assert (Hp : List.length p = 4).
  { simpl in Hin. destruct Hin as [<-|[<-|[<-|[]]]]; reflexivity. }
  assert (Hsig : header_has_pattern (pre ++ p ++ post) = true).
  { apply header_has_pattern_iff.
    exists p, pre, (firstn (20 - List.length pre - 4) post).
    split; [assumption|].
    rewrite firstn_app, (firstn_all2 (n:=20) pre) by lia.
    rewrite firstn_app, (firstn_all2 (n:=20 - List.length pre) p) by lia.
    now rewrite Hp. }
  unfold classify, analyze_hesai_packet. rewrite Hsig.
  destruct (len (pre ++ p ++ post) <? 512) eqn:Hshort; [|split; reflexivity].
  apply Nat.ltb_lt in Hshort. lia.
Qed.

Lemma pattern_at_offset_up_to_16_matches_witness :
  classify (repeat x01 16 ++ [xee; xff; x55; xaa] ++ repeat x00 2100)
  = {| matched := true; reason := SignatureMatch |} /\
  analyze_hesai_packet (repeat x01 16 ++ [xee; xff; x55; xaa] ++ repeat x00 2100) = true.
Proof.
  apply (pattern_at_offset_up_to_16_matches
           (repeat x01 16) [xee; xff; x55; xaa] (repeat x00 2100)).
  - simpl. auto.
  - vm_compute. lia.
  - vm_compute. lia.
Defined.

End PatternSearch.

(** ** The command channel and the ping scan of the controller *)

Section ControllerRuns.
Import Activation Observed.

Variable w : world.
Variable ip : string.

(** One iteration: a pause at its end in every case, and a wait for a
    response only when the datagram left. *)
Lemma send_command_waits (n i : nat) (cmd : bytes) (s : unit) :
  exists out,
    send_command w ip n i cmd s = (Return tt, s, out) /\
    List.length (filter is_sleep out) = 1 /\
    List.length (filter is_recvfrom out) = (if sent_ok w i then 1 else 0).
Proof.
  unfold send_command, sent_ok, sendto, recvfrom,
    try_except, try_except_clauses, bind, emit.
  destruct (ctl_sendto w i) as [err|]; simpl.
  - eexists. split; [reflexivity|]. split; reflexivity.
  - destruct (ctl_recvfrom w i) as [data addr|err]; simpl.
    + eexists. split; [reflexivity|]. split; reflexivity.
    + destruct err; simpl; eexists; (split; [reflexivity|]); split; reflexivity.
Qed.

Lemma send_loop_waits (n : nat) (cmds : list bytes) :
  forall (i : nat) (s : unit),
  exists out,
    for_enumerate (send_command w ip n) i cmds s = (Return tt, s, out) /\
    List.length (filter is_sleep out) = List.length cmds /\
    List.length (filter is_recvfrom out)
    = List.length (filter (sent_ok w) (seq i (List.length cmds))).
Proof.
  induction cmds as [|cmd cmds IH]; intros i s.
  - exists []. repeat split.
  - destruct (send_command_waits n i cmd s) as (out1 & Hrun1 & Hs1 & Hr1).
    destruct (IH (S i) s) as (out2 & Hrun2 & Hs2 & Hr2).
    exists (out1 ++ out2).
    cbn [for_enumerate]. unfold bind at 1. rewrite Hrun1, Hrun2.
    split; [reflexivity|].
    rewrite !filter_app, !length_app, Hs1, Hs2, Hr1, Hr2.
    split; [reflexivity|].
    cbn [List.length seq filter]. now destruct (sent_ok w i).
Qed.

End ControllerRuns.

Section ControllerFacts.
Import Activation Observed.

(** With its socket created, the sender pauses once after every command,
    also after one that failed, and waits for a response exactly once for
    every datagram that left: never for a command whose [sendto] failed. *)
Theorem sender_waits_only_after_a_send (w : world) (ip : string) (cmds : list bytes) :
  ctl_socket w = None ->
  List.length (filter is_sleep (snd (run (send_commands_to w ip cmds) tt)))
  = List.length cmds /\
  List.length (filter is_recvfrom (snd (run (send_commands_to w ip cmds) tt)))
  = List.length (filter (sent_ok w) (seq 0 (List.length cmds))).
Proof.
  intros Hsock.
  destruct (send_loop_waits w ip (List.length cmds) cmds 0 tt) as (out & Hrun & Hs & Hr).
  assert (Hout : snd (run (send_commands_to w ip cmds) tt)
                 = [SendBanner ip; SocketCreate] ++ out ++ [SocketClose; CommandsSent]).
  { unfold run, send_commands_to, socket_create, try_except, try_except_clauses.
    unfold bind at 1 2 3. rewrite Hsock. cbn [emit]. rewrite Hrun. reflexivity. }
  rewrite Hout, !filter_app, !length_app, Hs, Hr. cbn. lia.
Qed.

Lemma sender_waits_only_after_a_send_witness :
  List.length (filter is_sleep
                 (snd (run (send_commands_to Scenario.unreachable_network
                                             "192.168.1.201" commands) tt)))
  = List.length commands /\
  List.length (filter is_recvfrom
                 (snd (run (send_commands_to Scenario.unreachable_network
                                             "192.168.1.201" commands) tt)))
  = List.length (filter (sent_ok Scenario.unreachable_network)
                        (seq 0 (List.length commands))).
Proof.
  apply (sender_waits_only_after_a_send
           Scenario.unreachable_network "192.168.1.201" commands).
  reflexivity.
Defined.

(** One probe of the scan: one ping, whatever comes of it. *)
Lemma scan_probe_pings (w : world) (ip : string) (found : list string) :
  exists out,
    scan_probe w ip found
    = (Return tt, found ++ (if responds w ip then [ip] else []), out) /\
    pings out = [RunPing ip].
Proof.
  unfold scan_probe, responds, run_ping, try_except, try_except_clauses,
    bind, emit, modify.
  destruct (ping w ip) as [returncode|e]; cbn.
  - destruct (returncode =? 0)%Z; cbn; rewrite ?app_nil_r;
      eexists; split; reflexivity.
  - rewrite app_nil_r. eexists. split; reflexivity.
Qed.

Lemma scan_loop_pings (w : world) (ips : list string) :
  forall found : list string,
  exists out,
    for_each (scan_probe w) ips found
    = (Return tt, found ++ filter (responds w) ips, out) /\
    pings out = map RunPing ips.
Proof.
  induction ips as [|ip ips IH]; intros found.
  - exists []. cbn. now rewrite app_nil_r.
  - destruct (scan_probe_pings w ip found) as (out1 & H1 & Hp1).
    destruct (IH (found ++ (if responds w ip then [ip] else [])))
      as (out2 & H2 & Hp2).
    cbn [for_each filter map]. unfold bind. rewrite H1, H2.
    exists (out1 ++ out2). unfold pings in *.
    rewrite <- app_assoc, filter_app, Hp1, Hp2.
    split; [|reflexivity]. now destruct (responds w ip).
Qed.

(** [scan_for_lidar] pings every candidate once, in the order of
    [possible_ips], and returns exactly the candidates whose ping ended
    with return code 0, in that order; an exception of the ping, of any
    class, a [KeyboardInterrupt] too, counts as no answer and stops
    nothing. *)
Theorem scan_for_lidar_returns_the_responders (w : world) (found0 : list string) :
  fst (run (scan_for_lidar w) found0) = Return (filter (responds w) possible_ips) /\
  pings (snd (run (scan_for_lidar w) found0)) = map RunPing possible_ips /\
  (forall ip e, ping w ip = PingRaise e ->
                ~ In ip (filter (responds w) possible_ips)).
Proof.
  destruct (scan_loop_pings w possible_ips []) as (out & H & Hp).
  assert (Hrun : scan_for_lidar w found0
                 = (Return (filter (responds w) possible_ips),
                    filter (responds w) possible_ips,
                    [ScanBanner] ++ out
                      ++ [match filter (responds w) possible_ips with
                          | [] => NoDevicesFound
                          | _ :: _ => FoundDevices (filter (responds w) possible_ips)
                          end])).
  { unfold scan_for_lidar.
    unfold bind at 1. cbn [emit]. unfold bind at 1. cbn [modify].
    unfold bind at 1. rewrite H. cbn [app].
    unfold bind at 1. cbn [get].
    destruct (filter (responds w) possible_ips); cbn; rewrite ?app_nil_r;
      reflexivity. }
  unfold run. rewrite Hrun. cbn [fst snd].
  split; [reflexivity|]. split.
  - unfold pings in *. rewrite !filter_app, Hp.
    destruct (filter (responds w) possible_ips); cbn; rewrite ?app_nil_r;
      reflexivity.
  - intros ip e He Hin. apply filter_In in Hin. destruct Hin as [_ Hresp].
    unfold responds in Hresp. rewrite He in Hresp. discriminate.
Qed.

End ControllerFacts.

(** ** [main] of the activation script *)

Section ActivationMainRuns.
Import ActivationMain.







(** The listening test returns; its value and whether it closed its
    socket. *)
Lemma test_udp_data_port_run (lw : listen_world) (ip : string) (s : unit) :
  exists out,
    test_udp_data_port lw ip s = (Return (udp_verdict lw), s, out) /\
    (existsb is_socket_close out = true <-> udp_verdict lw = None) /\
    devices_tested out = [].
Proof.
  unfold test_udp_data_port, udp_verdict, call_or_raise, recvfrom,
    try_except_clauses, bind, emit.
  destruct (l_socket lw) as [e1|]; cbn.
  - destruct e1; eexists; (split; [reflexivity|]); split; try reflexivity;
      split; discriminate.
  - destruct (l_bind lw) as [e2|]; cbn.
    + destruct e2; eexists; (split; [reflexivity|]); split; try reflexivity;
        split; discriminate.
    + destruct (l_recvfrom lw) as [payload addr|e3]; cbn.
      * destruct (Activation.analyze_hesai_packet payload); cbn;
          eexists; (split; [reflexivity|]); split; try reflexivity;
          split; try discriminate; reflexivity.
      * destruct e3; eexists; (split; [reflexivity|]); split; try reflexivity;
          split; discriminate.
Qed.





End ActivationMainRuns.

Section ActivationMainFacts.
Import ActivationMain.





(** The listening test of the controller is truthy exactly when a
    datagram arrives and the classifier takes it; when a datagram arrives
    that the classifier refuses, its value is [None], not [False], and that
    is the one case in which it closes its socket itself; it raises
    nothing on any socket error. *)
Theorem udp_test_truthy_iff_matching_datagram
        (lw : listen_world) (ip : string) :
  exists value out,
    test_udp_data_port lw ip tt = (Return value, tt, out) /\
    (truth value = true
     <-> exists payload addr,
        l_socket lw = None /\ l_bind lw = None /\
        l_recvfrom lw = RecvData payload addr /\
        Activation.analyze_hesai_packet payload = true) /\
    (value = None
     <-> exists payload addr,
        l_socket lw = None /\ l_bind lw = None /\
        l_recvfrom lw = RecvData payload addr /\
        Activation.analyze_hesai_packet payload = false) /\
    (existsb is_socket_close out = true <-> value = None).
Proof.
  destruct (test_udp_data_port_run lw ip tt) as (out & Hrun & Hclose & _).
  exists (udp_verdict lw), out.
  split; [assumption|]. split; [|split; [|assumption]].
  - unfold udp_verdict.
    destruct (l_socket lw) as [e1|]; [split; [discriminate|intros (d & a & H & _); discriminate]|].
    destruct (l_bind lw) as [e2|]; [split; [discriminate|intros (d & a & _ & H & _); discriminate]|].
    destruct (l_recvfrom lw) as [payload addr|e3];
      [|split; [discriminate|intros (d & a & _ & _ & H & _); discriminate]].
    destruct (Activation.analyze_hesai_packet payload) eqn:Hm; cbn.
    + split; [intros _; now exists payload, addr|reflexivity].
    + split; [discriminate|].
      intros (d & a & _ & _ & H & Hd). injection H as <- <-. congruence.
  - unfold udp_verdict.
    destruct (l_socket lw) as [e1|]; [split; [discriminate|intros (d & a & H & _); discriminate]|].
    destruct (l_bind lw) as [e2|]; [split; [discriminate|intros (d & a & _ & H & _); discriminate]|].
    destruct (l_recvfrom lw) as [payload addr|e3];
      [|split; [discriminate|intros (d & a & _ & _ & H & _); discriminate]].
    destruct (Activation.analyze_hesai_packet payload) eqn:Hm; cbn.
    + split; [discriminate|].
      intros (d & a & _ & _ & H & Hd). injection H as <- <-. congruence.
    + split; [intros _; now exists payload, addr|reflexivity].
Qed.

End ActivationMainFacts.

(** ** The capture methods one by one *)

Section DirectListener.
Import Sniffer.

(** The direct UDP listener returns [True] exactly when its socket is
    created and bound, the sniffer is running and a datagram arrives; the
    packet count goes up by one exactly then and is untouched otherwise,
    and [running] is never changed. *)
Theorem method1_true_iff_datagram (w : world) (s : EnhancedLidarSniffer) :
  (fst (fst (call (method1_direct_udp w) s)) = Return true
   <-> udp_socket w = None /\ udp_bind w = None /\ running s = true /\
       exists data addr, udp_recvfrom w = RecvData data addr) /\
  packet_count (snd (fst (call (method1_direct_udp w) s)))
  = packet_count s
    + (match fst (fst (call (method1_direct_udp w) s)) with
       | Return true => 1
       | _ => 0
       end) /\
  running (snd (fst (call (method1_direct_udp w) s))) = running s.
Proof.
  unfold call, method1_direct_udp, try_finally, try_except, try_except_clauses,
    socket_create, sock_close, call_or_raise, recvfrom, or_return_False,
    bind, emit, get, modify, ret.
  destruct (udp_socket w) as [e1|].
  { destruct e1; cbn;
      (split; [split; [discriminate|intros (H & _); discriminate]|]);
      (split; [lia|reflexivity]). }
  destruct (udp_bind w) as [e2|].
  { destruct e2; cbn;
      (split; [split; [discriminate|intros (_ & H & _); discriminate]|]);
      (split; [lia|reflexivity]). }
  cbn. destruct (running s) eqn:Hrun; cbn.
  - destruct (udp_recvfrom w) as [data addr|e3]; cbn.
    + split; [split; [intros _; repeat split; now exists data, addr|reflexivity]|].
      split; [reflexivity|congruence].
    + destruct e3 as [|[]| | | | |]; cbn;
        (split; [split; [discriminate
                        |intros (_ & _ & _ & d & a & H); discriminate]|]);
        (split; [lia|congruence]).
  - split; [split; [discriminate|intros (_ & _ & H & _); discriminate]|].
    split; [lia|congruence].
Qed.

(** When [socket.socket] raises, the direct listener and the raw capture
    both end by the [UnboundLocalError] of their [finally] clause, whatever
    the exception was, an interrupt too; [main] records that error for the
    method and goes on to the next one. *)
Theorem socket_failure_surfaces_as_UnboundLocalError
        (w : world) (s : EnhancedLidarSniffer) (e1 e3 : exn) :
  udp_socket w = Some e1 ->
  raw_socket w = Some e3 ->
  fst (fst (call (method1_direct_udp w) s)) = Raise (UnboundLocalError "sock") /\
  fst (fst (call (method3_raw_socket w) s)) = Raise (UnboundLocalError "sock") /\
  fst (fst (try_method "Direct UDP Listener" (method1_direct_udp w) s))
  = Return Continue /\
  fst (fst (try_method "Raw Socket Capture" (method3_raw_socket w) s))
  = Return Continue /\
  snd (fst (call (method1_direct_udp w) s)) = s /\
  snd (fst (call (method3_raw_socket w) s)) = s.
Proof.
  intros H1 H3.
  unfold try_method, call, method1_direct_udp, method3_raw_socket,
    try_finally, try_except, try_except_clauses,
    socket_create, sock_close, or_return_False, bind, emit.
  rewrite H1, H3.
  destruct e1, e3; cbn; repeat split.
Qed.

Lemma socket_failure_surfaces_as_UnboundLocalError_witness :
  fst (fst (call (method1_direct_udp Example.no_sockets) init))
  = Raise (UnboundLocalError "sock") /\
  fst (fst (call (method3_raw_socket Example.no_sockets) init))
  = Raise (UnboundLocalError "sock") /\
  fst (fst (try_method "Direct UDP Listener" (method1_direct_udp Example.no_sockets) init))
  = Return Continue /\
  fst (fst (try_method "Raw Socket Capture" (method3_raw_socket Example.no_sockets) init))
  = Return Continue /\
  snd (fst (call (method1_direct_udp Example.no_sockets) init)) = init /\
  snd (fst (call (method3_raw_socket Example.no_sockets) init)) = init.
Proof.
  apply (socket_failure_surfaces_as_UnboundLocalError
           Example.no_sockets init (OSError (Errno 24)) KeyboardInterrupt);
    reflexivity.
Defined.

End DirectListener.

Section RawPackets.
Import Sniffer Captured.

Lemma byte_to_Z_range (b : byte) : (0 <= byte_to_Z b < 256)%Z.
Proof.
  unfold byte_to_Z. pose proof (Byte.to_N_bounded b). lia.
Qed.

Lemma byte_to_Z_inj (a b : byte) : byte_to_Z a = byte_to_Z b -> a = b.
Proof.
  unfold byte_to_Z. intros H. apply N2Z.inj in H.
  pose proof (Byte.of_to_N a) as Ha. rewrite H, Byte.of_to_N in Ha.
  now injection Ha.
Qed.

Lemma byte_to_Z_eqb (b c : byte) :
  (byte_to_Z b =? byte_to_Z c)%Z = Byte.eqb b c.
Proof.
  destruct (Byte.eqb b c) eqn:Hbc.
  - apply Byte.byte_dec_bl in Hbc. subst c. apply Z.eqb_refl.
  - apply Z.eqb_neq. intros H. apply byte_to_Z_inj in H. subst c.
    now rewrite byte_eqb_refl in Hbc.
Qed.

(** The protocol test of line 76 and the port test of line 80, on the
    bytes they read. *)
Lemma protocol_is_17 (b : byte) : (byte_to_Z b =? 17)%Z = Byte.eqb b x11.
Proof. exact (byte_to_Z_eqb b x11). Qed.

Lemma port_is_2368 (hi lo : byte) :
  (be16 hi lo =? 2368)%Z = Byte.eqb hi x09 && Byte.eqb lo x40.
Proof.
  rewrite <- (byte_to_Z_eqb hi x09), <- (byte_to_Z_eqb lo x40).
  unfold be16. change (byte_to_Z x09) with 9%Z. change (byte_to_Z x40) with 64%Z.
  pose proof (byte_to_Z_range hi). pose proof (byte_to_Z_range lo).
  destruct (byte_to_Z hi =? 9)%Z eqn:Hhi, (byte_to_Z lo =? 64)%Z eqn:Hlo;
    cbn [andb];
    rewrite ?Z.eqb_eq, ?Z.eqb_neq in *; lia.
Qed.

End RawPackets.

Section RawDecode.
Import Sniffer Captured RawPass.

(** One pass over a received packet, by its bytes. *)
Lemma raw_iteration_raw_pass (packet : bytes) (addr : address) (fr : frame) :
  raw_iteration (RecvData packet addr) fr = raw_pass packet fr.
Proof.
  unfold raw_pass, udp_to_2368, passed_over.
  do 20 (destruct packet as [|? packet]; [reflexivity|]).
  unfold raw_iteration, try_except, try_except_clauses,
    recvfrom, lift, bind, emit, modify, get, ret, slice_to, slice, len.
  cbn -[byte_to_Z be16 Z.eqb Byte.eqb].
  rewrite protocol_is_17.
  match goal with
  | |- context [Byte.eqb ?b x11] => destruct (Byte.eqb b x11)
  end.
  - do 8 (destruct packet as [|? packet]; [reflexivity|]).
    cbn -[byte_to_Z be16 Z.eqb Byte.eqb].
    rewrite port_is_2368.
    match goal with
    | |- context [Byte.eqb ?hi x09 && Byte.eqb ?lo x40] =>
        destruct (Byte.eqb hi x09), (Byte.eqb lo x40)
    end; reflexivity.
  - do 8 (destruct packet as [|? packet]; [reflexivity|]).
    reflexivity.
Qed.

(** One pass of the raw capture over a received packet returns [True]
    exactly for a packet of 28 bytes or more with protocol byte 0x11 at
    offset 9 and the bytes 0x09 0x40, port 2368, at offsets 22 and 23, and
    counts it; it goes on to the next packet for another protocol or
    another port; and it raises [struct.error] for a packet under 20
    bytes, or a UDP one under 28. *)
Theorem raw_iteration_decodes (packet : bytes) (addr : address) (fr : frame) :
  raw_iteration (RecvData packet addr) fr = raw_pass packet fr.
Proof. exact (raw_iteration_raw_pass packet addr fr). Qed.

End RawDecode.

Section RawLoop.
Import Sniffer Captured RawPass.

Lemma raw_loop_passes_over (skipped : list (bytes * address)) :
  forall (recvs : list (recv_event exn)) (fr : frame),
    running (self fr) = true ->
    forallb (fun pa => passed_over (fst pa)) skipped = true ->
    raw_loop (received skipped ++ recvs) fr
    = (let '(r, fr', out) := raw_loop recvs fr in
       (r, fr', repeat (Recvfrom 3) (List.length skipped) ++ out)).
Proof.
  induction skipped as [|[packet addr] skipped IH]; intros recvs fr Hrun Hskip.
  - cbn. now destruct (raw_loop recvs fr) as [[r fr'] out].
  - cbn in Hskip. apply andb_true_iff in Hskip. destruct Hskip as [Hp Hskip].
    assert (Hno : udp_to_2368 packet = false).
    { unfold udp_to_2368, passed_over in *.
      destruct (28 <=? len packet), (20 <=? len packet),
        (Byte.eqb (nth 9 packet x00) x11),
        (Byte.eqb (nth 22 packet x00) x09),
        (Byte.eqb (nth 23 packet x00) x40); cbn in *; congruence. }
    cbn [received map List.length repeat app fst snd raw_loop].
    unfold bind at 1. cbn [get]. rewrite Hrun.
    unfold bind at 1. rewrite raw_iteration_raw_pass. unfold raw_pass.
    rewrite Hno, Hp. cbn [after_iteration].
    fold (received skipped). rewrite (IH recvs fr Hrun Hskip).
    destruct (raw_loop recvs fr) as [[r fr'] out]. reflexivity.
Qed.

(** How the loop ends on what follows the packets passed over. *)
Lemma raw_loop_match (packet : bytes) (addr : address)
      (recvs : list (recv_event exn)) (fr : frame) :
  running (self fr) = true ->
  udp_to_2368 packet = true ->
  raw_loop (RecvData packet addr :: recvs) fr
  = (Return (Some true), incr_packet_count fr,
     [Recvfrom 3; Packet 3 (packet_count (self fr) + 1) (len packet)]).
Proof.
  intros Hrun Hm. cbn [raw_loop].
  unfold bind at 1. cbn [get]. rewrite Hrun.
  unfold bind at 1. rewrite raw_iteration_raw_pass. unfold raw_pass.
  rewrite Hm. reflexivity.
Qed.

Lemma raw_loop_runt (packet : bytes) (addr : address)
      (recvs : list (recv_event exn)) (fr : frame) :
  running (self fr) = true ->
  udp_to_2368 packet = false ->
  passed_over packet = false ->
  raw_loop (RecvData packet addr :: recvs) fr
  = (Raise StructError, fr, [Recvfrom 3]).
Proof.
  intros Hrun Hm Hp. cbn [raw_loop].
  unfold bind at 1. cbn [get]. rewrite Hrun.
  unfold bind at 1. rewrite raw_iteration_raw_pass. unfold raw_pass.
  rewrite Hm, Hp. reflexivity.
Qed.

Lemma raw_loop_timeout (recvs : list (recv_event exn)) (fr : frame) :
  running (self fr) = true ->
  hd (RecvRaise (OSError ETIMEDOUT)) recvs = RecvRaise (OSError ETIMEDOUT) ->
  raw_loop recvs fr = (Return None, fr, [Recvfrom 3]).
Proof.
  intros Hrun Hhd. destruct recvs as [|r recvs]; cbn in Hhd; [|subst r];
    cbn [raw_loop]; unfold bind at 1; cbn [get]; rewrite Hrun; reflexivity.
Qed.

Lemma raw_recvfrom_calls_app (l1 l2 : list event) :
  raw_recvfrom_calls (map FromMethod (l1 ++ l2))
  = raw_recvfrom_calls (map FromMethod l1) + raw_recvfrom_calls (map FromMethod l2).
Proof.
  unfold raw_recvfrom_calls. now rewrite map_app, filter_app, length_app.
Qed.

Lemma raw_recvfrom_calls_repeat (n : nat) :
  raw_recvfrom_calls (map FromMethod (repeat (Recvfrom 3) n)) = n.
Proof.
  unfold raw_recvfrom_calls.
  induction n as [|n IH]; [reflexivity|]. cbn. now rewrite IH.
Qed.

(** The raw capture with its socket open, by what its loop comes to. *)
Lemma method3_open (w : world) (s : EnhancedLidarSniffer)
      (r : result (option bool)) (fr' : frame) (out : list event) :
  raw_socket w = None ->
  raw_loop (raw_recvfrom w) {| self := s; sock_bound := true |} = (r, fr', out) ->
  sock_bound fr' = true ->
  call (method3_raw_socket w) s
  = (match r with
     | Return (Some b) => Return b
     | Return None => Return false
     | Raise e => if is_Exception e then Return false else Raise e
     end,
     self fr',
     map FromMethod
         ([MethodBanner 3; SocketCreate 3] ++ out
            ++ (match r with
                | Raise e => if is_Exception e then [MethodFailed 3 e] else []
                | _ => []
                end)
            ++ [SocketClose 3])).
Proof.
  intros Hsock Hloop Hbound.
  unfold call, method3_raw_socket, try_finally, try_except, try_except_clauses,
    socket_create, sock_close, or_return_False, bind, emit.
  rewrite Hsock. cbn -[raw_loop].
  change (bind_sock {| self := s; sock_bound := false |})
    with {| self := s; sock_bound := true |}.
  rewrite Hloop.
  destruct r as [[b|]|e]; cbn.
  - rewrite Hbound. cbn. now rewrite app_nil_r.
  - rewrite Hbound. cbn. now rewrite app_nil_r.
  - destruct (is_Exception e); cbn; rewrite Hbound; cbn;
      rewrite ?app_nil_r, <- ?app_assoc; reflexivity.
Qed.

End RawLoop.

Section RawCaptureFacts.
Import Sniffer Captured RawPass.

(** With its socket open and the sniffer running, the raw capture passes
    over every packet of another protocol or another port, returns [True]
    at the first packet to UDP port 2368 and counts that one packet; it
    has then called [recvfrom] once per packet passed over and once
    more. *)
Theorem raw_capture_returns_at_first_match
        (w : world) (s : EnhancedLidarSniffer)
        (skipped : list (bytes * address)) (packet : bytes) (addr : address)
        (rest : list (recv_event exn)) :
  raw_socket w = None ->
  running s = true ->
  raw_recvfrom w = received skipped ++ RecvData packet addr :: rest ->
  forallb (fun pa => passed_over (fst pa)) skipped = true ->
  udp_to_2368 packet = true ->
  fst (fst (call (method3_raw_socket w) s)) = Return true /\
  snd (fst (call (method3_raw_socket w) s))
  = {| packet_count := packet_count s + 1; running := running s |} /\
  raw_recvfrom_calls (snd (call (method3_raw_socket w) s))
  = List.length skipped + 1.
Proof.
  intros Hsock Hrun Hrecv Hskip Hmatch.
  assert (Hloop : raw_loop (raw_recvfrom w) {| self := s; sock_bound := true |}
                  = (Return (Some true),
                     incr_packet_count {| self := s; sock_bound := true |},
                     repeat (Recvfrom 3) (List.length skipped)
                       ++ [Recvfrom 3; Packet 3 (packet_count s + 1) (len packet)])).
  { rewrite Hrecv, raw_loop_passes_over by assumption.
    now rewrite raw_loop_match by assumption. }
  rewrite (method3_open w s _ _ _ Hsock Hloop eq_refl). cbn [fst snd].
  split; [reflexivity|]. split; [reflexivity|].
  rewrite !raw_recvfrom_calls_app, raw_recvfrom_calls_repeat. cbn. lia.
Qed.

Lemma raw_capture_returns_at_first_match_witness :
  fst (fst (call (method3_raw_socket Example.raw_traffic) init)) = Return true /\
  snd (fst (call (method3_raw_socket Example.raw_traffic) init))
  = {| packet_count := packet_count init + 1; running := running init |} /\
  raw_recvfrom_calls (snd (call (method3_raw_socket Example.raw_traffic) init))
  = List.length Example.dns_then_icmp + 1.
Proof.
  apply (raw_capture_returns_at_first_match
           Example.raw_traffic init Example.dns_then_icmp
           (Example.ip_udp_packet x11 x09 x40) ("192.168.123.20"%string, 0%Z) []);
    reflexivity.
Defined.

(** With its socket open and the sniffer running, the raw capture returns
    [False] and counts nothing when, after the packets it passes over,
    the wait times out, or when a packet comes that is too short to
    unpack: the [struct.error] ends the capture, and a packet to port 2368
    that follows is not looked at. *)
Theorem raw_capture_ends_without_match
        (w : world) (s : EnhancedLidarSniffer)
        (skipped : list (bytes * address)) (rest : list (recv_event exn)) :
  raw_socket w = None ->
  running s = true ->
  raw_recvfrom w = received skipped ++ rest ->
  forallb (fun pa => passed_over (fst pa)) skipped = true ->
  (hd (RecvRaise (OSError ETIMEDOUT)) rest = RecvRaise (OSError ETIMEDOUT) \/
   exists packet addr rest',
     rest = RecvData packet addr :: rest' /\
     udp_to_2368 packet = false /\ passed_over packet = false) ->
  fst (fst (call (method3_raw_socket w) s)) = Return false /\
  snd (fst (call (method3_raw_socket w) s)) = s /\
  raw_recvfrom_calls (snd (call (method3_raw_socket w) s))
  = List.length skipped + 1.
Proof.
  intros Hsock Hrun Hrecv Hskip [Htimeout|(packet & addr & rest' & -> & Hm & Hp)].
  - assert (Hloop : raw_loop (raw_recvfrom w) {| self := s; sock_bound := true |}
                    = (Return None, {| self := s; sock_bound := true |},
                       repeat (Recvfrom 3) (List.length skipped) ++ [Recvfrom 3])).
    { rewrite Hrecv, raw_loop_passes_over by assumption.
      now rewrite raw_loop_timeout by assumption. }
    rewrite (method3_open w s _ _ _ Hsock Hloop eq_refl). cbn [fst snd self].
    split; [reflexivity|]. split; [reflexivity|].
    rewrite !raw_recvfrom_calls_app, raw_recvfrom_calls_repeat. cbn. lia.
  - assert (Hloop : raw_loop (raw_recvfrom w) {| self := s; sock_bound := true |}
                    = (Raise StructError, {| self := s; sock_bound := true |},
                       repeat (Recvfrom 3) (List.length skipped) ++ [Recvfrom 3])).
    { rewrite Hrecv, raw_loop_passes_over by assumption.
      now rewrite raw_loop_runt by assumption. }
    rewrite (method3_open w s _ _ _ Hsock Hloop eq_refl). cbn [fst snd self].
    split; [reflexivity|]. split; [reflexivity|].
    rewrite !raw_recvfrom_calls_app, raw_recvfrom_calls_repeat. cbn. lia.
Qed.

Lemma raw_capture_ends_without_match_witness :
  fst (fst (call (method3_raw_socket Example.raw_traffic_with_runt) init))
  = Return false /\
  snd (fst (call (method3_raw_socket Example.raw_traffic_with_runt) init)) = init /\
  raw_recvfrom_calls (snd (call (method3_raw_socket Example.raw_traffic_with_runt) init))
  = List.length Example.dns_then_icmp + 1.
Proof.
  apply (raw_capture_ends_without_match
           Example.raw_traffic_with_runt init Example.dns_then_icmp
           [ RecvData (repeat x00 12) ("192.168.123.1"%string, 0%Z);
             RecvData (Example.ip_udp_packet x11 x09 x40)
                      ("192.168.123.20"%string, 0%Z) ]);
    try reflexivity.
  right. eexists _, _, _. repeat split.
Defined.

End RawCaptureFacts.

(** ** The text search of the tcpdump method *)

Section TextSearch.
Import Sniffer Captured.

Lemma solid_tail (a : ascii) (text : string) :
  solid (String a text) = true -> is_space a = false /\ solid text = true.
Proof.
  cbn. rewrite andb_true_iff, negb_true_iff. tauto.
Qed.

Lemma ascii_eqb_space (a c : ascii) :
  is_space a = false -> is_space c = true -> Ascii.eqb a c = false.
Proof.
  intros Ha Hc. destruct (Ascii.eqb a c) eqn:Hac; [|reflexivity].
  apply Ascii.eqb_eq in Hac. congruence.
Qed.

Lemma str_in_cons (needle : string) (c : ascii) (text : string) :
  str_in needle (String c text)
  = str_starts_with needle (String c text) || str_in needle text.
Proof. reflexivity. Qed.

Lemma str_starts_with_nil (needle : string) :
  needle <> EmptyString -> str_starts_with needle EmptyString = false.
Proof. intros Hne. destruct needle; [contradiction|reflexivity]. Qed.

Lemma str_in_nil (needle : string) :
  needle <> EmptyString -> str_in needle EmptyString = false.
Proof. intros Hne. cbn. now rewrite str_starts_with_nil. Qed.

(** No occurrence begins at a white space. *)
Lemma str_starts_with_space (needle : string) (c : ascii) (text : string) :
  solid needle = true -> needle <> EmptyString ->
  is_space c = true -> str_starts_with needle (String c text) = false.
Proof.
  intros Hs Hne Hc. destruct needle as [|a n]; [contradiction|].
  destruct (solid_tail _ _ Hs) as [Ha _].
  cbn. now rewrite (ascii_eqb_space a c Ha Hc).
Qed.

Lemma str_in_lstrip (needle text : string) :
  solid needle = true -> needle <> EmptyString ->
  str_in needle (lstrip text) = str_in needle text.
Proof.
  intros Hs Hne.
  induction text as [|c text IH]; [reflexivity|].
  cbn [lstrip]. destruct (is_space c) eqn:Hc; [|reflexivity].
  now rewrite IH, str_in_cons, str_starts_with_space.
Qed.

(** A prefix test does not see the white space that [rstrip] takes
    away. *)
Lemma str_starts_with_rstrip (text : string) :
  forall n : string,
    solid n = true -> n <> EmptyString ->
    str_starts_with n (rstrip text) = str_starts_with n text.
Proof.
  induction text as [|c text IH]; intros n Hn Hne; [reflexivity|].
  destruct n as [|a n]; [contradiction|].
  destruct (solid_tail _ _ Hn) as [Ha Hn'].
  cbn [rstrip]. destruct (rstrip text) as [|x r] eqn:Hr.
  - destruct (is_space c) eqn:Hc.
    + cbn. now rewrite (ascii_eqb_space a c Ha Hc).
    + cbn. f_equal. destruct n as [|b n]; [now destruct text|].
      rewrite <- (IH (String b n) Hn') by discriminate. reflexivity.
  - cbn. f_equal. destruct n as [|b n]; [now destruct text|].
    rewrite <- (IH (String b n) Hn') by discriminate. reflexivity.
Qed.

Lemma str_in_rstrip (needle text : string) :
  solid needle = true -> needle <> EmptyString ->
  str_in needle (rstrip text) = str_in needle text.
Proof.
  intros Hs Hne.
  induction text as [|c text IH]; [reflexivity|].
  rewrite (str_in_cons needle c text).
  rewrite <- IH, <- (str_starts_with_rstrip (String c text) needle Hs Hne).
  cbn [rstrip]. destruct (rstrip text) as [|x r] eqn:Hr.
  - destruct (is_space c).
    + now rewrite str_in_nil, str_starts_with_nil.
    + reflexivity.
  - reflexivity.
Qed.

Lemma str_in_strip (needle text : string) :
  solid needle = true -> needle <> EmptyString ->
  str_in needle (strip text) = str_in needle text.
Proof.
  intros Hs Hne. unfold strip. now rewrite str_in_rstrip, str_in_lstrip.
Qed.

Lemma newline_is_space : is_space "010"%char = true.
Proof. reflexivity. Qed.

Lemma split_newline_first (text : string) :
  exists line lines, split_newline text = line :: lines.
Proof.
  induction text as [|c text (line & lines & IH)]; [now exists EmptyString, []|].
  cbn. destruct (Ascii.eqb c "010"); [now eexists _, _|].
  rewrite IH. now eexists _, _.
Qed.

(** A prefix test reads the same on a text and on its first line. *)
Lemma str_starts_with_first_line (text : string) :
  forall (n line : string) (lines : list string),
    solid n = true ->
    split_newline text = line :: lines ->
    str_starts_with n line = str_starts_with n text.
Proof.
  induction text as [|c text IH]; intros n line lines Hn Hsplit.
  - cbn in Hsplit. now injection Hsplit as <- <-.
  - destruct n as [|a n]; [reflexivity|].
    destruct (solid_tail _ _ Hn) as [Ha Hn'].
    cbn in Hsplit. destruct (Ascii.eqb c "010") eqn:Hc.
    + injection Hsplit as <- <-. apply Ascii.eqb_eq in Hc. subst c.
      cbn. now rewrite (ascii_eqb_space a "010" Ha newline_is_space).
    + destruct (split_newline_first text) as (line' & lines' & Hsplit').
      rewrite Hsplit' in Hsplit. injection Hsplit as <- <-.
      cbn. f_equal. exact (IH n line' lines' Hn' Hsplit').
Qed.

(** Some line of a text holds the needle exactly when the text does. *)
Lemma str_in_some_line (needle text : string) :
  solid needle = true -> needle <> EmptyString ->
  existsb (str_in needle) (split_newline text) = str_in needle text.
Proof.
  intros Hs Hne.
  induction text as [|c text IH].
  - cbn [split_newline existsb]. now rewrite orb_false_r.
  - rewrite (str_in_cons needle c text).
    cbn [split_newline]. destruct (Ascii.eqb c "010") eqn:Hc.
    + apply Ascii.eqb_eq in Hc. subst c.
      cbn [existsb]. rewrite IH, str_in_nil by assumption.
      now rewrite (str_starts_with_space needle "010" text Hs Hne newline_is_space).
    + destruct (split_newline_first text) as (line & lines & Hsplit).
      rewrite Hsplit in IH |- *. cbn [existsb] in IH |- *.
      rewrite (str_in_cons needle c line), <- orb_assoc, IH. f_equal.
      destruct needle as [|a n]; [reflexivity|].
      destruct (solid_tail _ _ Hs) as [_ Hn'].
      cbn. f_equal. exact (str_starts_with_first_line text n line lines Hn' Hsplit).
Qed.

Lemma filter_some {A} (f : A -> bool) (l : list A) :
  filter f l = [] <-> existsb f l = false.
Proof.
  induction l as [|a l IH]; cbn; [tauto|].
  destruct (f a); cbn; [split; discriminate|exact IH].
Qed.

End TextSearch.

Section TcpdumpMethod.
Import Sniffer Captured.

Lemma for_enumerate_emits {A St} (g : nat -> A -> event) (xs : list A) :
  forall (i : nat) (s : St),
  exists out,
    for_enumerate (fun i x => emit (g i x)) i xs s = (Return tt, s, out).
Proof.
  induction xs as [|x xs IH]; intros i s; [now exists []|].
  destruct (IH (S i) s) as [out H].
  cbn [for_enumerate]. unfold bind, emit at 1. rewrite H.
  eexists. reflexivity.
Qed.

(** What the tcpdump method returns, and that it leaves the sniffer as it
    was. *)
Lemma method4_run (w : world) (s : EnhancedLidarSniffer) :
  (fst (fst (call (method4_tcpdump_analysis w) s)) = Return true
   <-> exists stdout, tcpdump w = Return stdout /\ str_in "2368" stdout = true) /\
  snd (fst (call (method4_tcpdump_analysis w) s)) = s.
Proof.
  unfold call, method4_tcpdump_analysis, run_tcpdump, try_except,
    try_except_clauses, or_return_False, bind, emit, ret.
  destruct (tcpdump w) as [stdout|e].
  - destruct stdout as [|c text].
    + cbn. split; [|reflexivity]. split; [discriminate|].
      intros (stdout & H & Hin). injection H as <-. discriminate.
    + cbv beta iota zeta.
      set (stdout := String c text).
      assert (Hfound : existsb (str_in "2368") (split_newline (strip stdout))
                       = str_in "2368" stdout).
      { rewrite str_in_some_line, str_in_strip by (reflexivity || discriminate).
        reflexivity. }
      destruct (filter (str_in "2368") (split_newline (strip stdout)))
        as [|line found] eqn:Hfilter.
      * apply filter_some in Hfilter. rewrite Hfound in Hfilter.
        cbn. split; [|reflexivity]. split; [discriminate|].
        intros (stdout' & H & Hin). injection H as <-. congruence.
      * assert (Hsome : str_in "2368" stdout = true).
        { rewrite <- Hfound. destruct (existsb _ _) eqn:Hex; [reflexivity|].
          apply filter_some in Hex. congruence. }
        destruct (for_enumerate_emits (St:=frame)
                    (fun i packet => FoundLine (i + 1) packet)
                    (firstn 3 (line :: found)) 0
                    {| self := s; sock_bound := false |}) as [out Hout].
        unfold emit in Hout. rewrite Hout. cbn.
        split; [|reflexivity]. split; [|reflexivity].
        intros _. now exists stdout.
  - destruct e; cbn; (split; [|reflexivity]);
      (split; [discriminate|intros (stdout & H & _); discriminate]).
Qed.

(** The tcpdump method returns [True] exactly when the text 2368 occurs
    somewhere in the standard output of the run, be it in a port, an
    address or a time stamp; it never touches the sniffer's packet count
    or its [running] flag. *)
Theorem tcpdump_success_iff_2368_in_output (w : world) (s : EnhancedLidarSniffer) :
  (fst (fst (call (method4_tcpdump_analysis w) s)) = Return true
   <-> exists stdout, tcpdump w = Return stdout /\ str_in "2368" stdout = true) /\
  snd (fst (call (method4_tcpdump_analysis w) s)) = s.
Proof. exact (method4_run w s). Qed.

End TcpdumpMethod.

(** ** The turns of the ladder *)

Section LadderTurns.
Import Sniffer Captured LadderTurn.

Lemma is_Exception_not_interrupt (e : exn) :
  is_KeyboardInterrupt e = false -> is_Exception e = true.
Proof. now destruct e. Qed.

(** One turn: the method is announced, runs, and is reported. *)
Lemma try_method_turn (name : string) (m : method) (s s1 : EnhancedLidarSniffer)
      (r : result bool) (out : list main_event) :
  call m s = (r, s1, out) ->
  try_method name m s
  = (Return (flow_after (outcome_of r)), s1,
     [Trying name] ++ out ++ report name r s1).
Proof.
  intros Hcall.
  unfold try_method, try_except_clauses, bind, emit. rewrite Hcall.
  destruct r as [[|]|e]; cbn; rewrite ?app_nil_r; try reflexivity.
  destruct (is_KeyboardInterrupt e) eqn:Hki; cbn; rewrite ?app_nil_r;
    try reflexivity.
  rewrite (is_Exception_not_interrupt e Hki). cbn. now rewrite ?app_nil_r.
Qed.

Lemma call_events (m : method) (s : EnhancedLidarSniffer) :
  exists out, snd (call m s) = map FromMethod out.
Proof.
  unfold call. destruct (m _) as [[r fr] out]. now exists out.
Qed.

Lemma all_failed_FromMethod (out : list event) :
  existsb is_all_failed (map FromMethod out) = false.
Proof. induction out; cbn; auto. Qed.

Lemma try_method_facts (name : string) (m : method) (s : EnhancedLidarSniffer) :
  exists o s1 out,
    try_method name m s = (Return (flow_after o), s1, out) /\
    attempts out = [(name, o)] /\
    existsb is_all_failed out = false.
Proof.
  destruct (call m s) as [[r s1] out] eqn:Hcall.
  destruct (call_events m s) as [out0 Hout]. rewrite Hcall in Hout. cbn in Hout.
  subst out.
  exists (outcome_of r), s1. eexists. split; [exact (try_method_turn name m s s1 r _ Hcall)|].
  rewrite !attempts_app, attempts_FromMethod, !existsb_app, all_failed_FromMethod.
  destruct r as [[|]|e]; cbn; [split; reflexivity|split; reflexivity|].
  destruct (is_KeyboardInterrupt e); split; reflexivity.
Qed.

(** The loop is left before its end only on a success or an interrupt,
    and runs to its end exactly when every method was tried and each one
    ended otherwise. *)
Lemma try_methods_exhausted (ms : list (string * method)) :
  forall s : EnhancedLidarSniffer,
  exists b s' out,
    try_methods ms s = (Return b, s', out) /\
    existsb is_all_failed out = false /\
    (b = true <-> List.length (attempts out) = List.length ms
                  /\ forallb goes_on (attempts out) = true) /\
    (b = false -> exists before last,
          attempts out = before ++ [last] /\
          forallb goes_on before = true /\ goes_on last = false).
Proof.
  induction ms as [|[name m] ms IH]; intros s.
  - exists true, s, []. repeat split. discriminate.
  - destruct (try_method_facts name m s) as (o & s1 & out1 & Hrun1 & Hatt1 & Hall1).
    destruct (IH s1) as (b2 & s2 & out2 & Hrun2 & Hall2 & Hiff2 & Hearly2).
    cbn [try_methods]. unfold bind at 1. rewrite Hrun1.
    assert (Hstop : goes_on (name, o) = false ->
              exists b s' out,
                (let '(r, s'', out') :=
                   match flow_after o with
                   | Continue => try_methods ms
                   | _ => ret false
                   end s1 in (r, s'', out1 ++ out')) = (Return b, s', out) /\
                existsb is_all_failed out = false /\
                (b = true <-> List.length (attempts out) = List.length ((name, m) :: ms)
                              /\ forallb goes_on (attempts out) = true) /\
                (b = false -> exists before last,
                      attempts out = before ++ [last] /\
                      forallb goes_on before = true /\ goes_on last = false)).
    { intros Hgo. exists false, s1, (out1 ++ []).
      split; [destruct o; try discriminate; reflexivity|].
      rewrite app_nil_r, Hatt1. split; [assumption|]. split.
      - split; [discriminate|]. cbn. rewrite Hgo. intros [_ H]. discriminate.
      - intros _. exists [], (name, o). repeat split. assumption. }
    destruct (goes_on (name, o)) eqn:Hgo; [|now apply Hstop].
    assert (Hflow : flow_after o = Continue) by (destruct o; try discriminate; reflexivity).
    rewrite Hflow, Hrun2. exists b2, s2, (out1 ++ out2).
    split; [reflexivity|].
    rewrite existsb_app, attempts_app, Hall1, Hall2, Hatt1.
    split; [reflexivity|]. cbn [app List.length forallb]. rewrite Hgo. split.
    + rewrite Hiff2. cbn [andb]. split; intros [H1 H2]; split; auto; lia.
    + intros Hb. destruct (Hearly2 Hb) as (before & last & Hb1 & Hb2 & Hb3).
      exists ((name, o) :: before), last. rewrite Hb1. cbn. rewrite Hgo.
      repeat split; assumption.
Qed.

End LadderTurns.

Section LadderFacts.
Import Sniffer Captured LadderTurn.

(** The ladder prints that all methods failed exactly when it tried every
    method of the list and none succeeded or was interrupted; when it
    tried fewer, the last attempt is a success or an interrupt; and the
    final packet count is always its last line. *)
Theorem ladder_reports_all_failed_iff_exhausted
        (ms : list (string * method)) (s : EnhancedLidarSniffer) :
  (existsb is_all_failed (ladder_events ms s) = true
   <-> List.length (attempts (ladder_events ms s)) = List.length ms
       /\ forallb goes_on (attempts (ladder_events ms s)) = true) /\
  (List.length (attempts (ladder_events ms s)) <> List.length ms ->
   exists before last,
     attempts (ladder_events ms s) = before ++ [last] /\
     forallb goes_on before = true /\ goes_on last = false) /\
  (exists before n, ladder_events ms s = before ++ [FinalPacketCount n]).
Proof.
  destruct (try_methods_exhausted ms s) as (b & s' & out & Hrun & Hall & Hiff & Hearly).
  assert (Hev : ladder_events ms s
                = out ++ (if b then [AllMethodsFailed] else [])
                    ++ [FinalPacketCount (packet_count s')]).
  { unfold ladder_events, ladder, bind. rewrite Hrun. destruct b; reflexivity. }
  rewrite Hev, !attempts_app, !existsb_app, Hall.
  assert (Hatt : attempts ((if b then [AllMethodsFailed] else [])
                             ++ [FinalPacketCount (packet_count s')]) = [])
    by now destruct b.
  rewrite <- attempts_app, Hatt, app_nil_r.
  split; [|split].
  - rewrite <- Hiff. destruct b; cbn; split; auto; discriminate.
  - intros Hlen. apply Hearly. destruct b; [|reflexivity].
    exfalso. apply Hlen. now apply Hiff.
  - exists (out ++ (if b then [AllMethodsFailed] else [])), (packet_count s').
    now rewrite <- app_assoc.
Qed.

End LadderFacts.

Section SnifferMethod.
Import Sniffer Captured LadderTurn.

(** The callback over the packets of a capture: it counts the packets to
    UDP port 2368 and clears [running] at the first of them. *)
Lemma packet_handlers_run (packets : list scapy_packet) :
  forall fr : frame,
  exists out,
    for_each packet_handler packets fr
    = (Return tt,
       {| self := {| packet_count := packet_count (self fr)
                                     + List.length (filter counted packets);
                     running := if existsb counted packets
                                then false else running (self fr) |};
          sock_bound := sock_bound fr |},
       out).
Proof.
  induction packets as [|packet packets IH]; intros fr.
  - exists []. cbn. rewrite Nat.add_0_r. now destruct fr as [[n r] b].
  - cbn [for_each filter existsb]. unfold bind at 1.
    unfold packet_handler at 1. fold (counted packet).
    destruct (counted packet).
    + unfold bind, modify, get, emit. cbn.
      destruct (IH (stop_running (incr_packet_count fr))) as [out ->].
      cbn. eexists. f_equal. f_equal. f_equal. f_equal; [lia|].
      now destruct (existsb counted packets).
    + unfold ret. destruct (IH fr) as [out ->]. eexists. reflexivity.
Qed.

(** The sniffing method leaves the packet count raised by the number of
    sniffed packets to UDP port 2368, and [running] cleared if there was
    one.  When [sniff] returns, its value is whether the count is then
    positive, so it is [True] without any packet when the count was
    positive before; when [sniff] raises an exception after packets were
    counted, its value is [False] and the count stays raised. *)
Theorem sniffer_counts_packets_to_2368 (w : world) (s : EnhancedLidarSniffer) :
  packet_count (snd (fst (call (method2_promiscuous_sniff w) s)))
  = packet_count s + counted_packets w /\
  running (snd (fst (call (method2_promiscuous_sniff w) s)))
  = (if existsb counted (sniffed w) then false else running s) /\
  (sniff_raise w = None ->
   fst (fst (call (method2_promiscuous_sniff w) s))
   = Return (0 <? packet_count s + counted_packets w)) /\
  (forall e, sniff_raise w = Some e -> is_Exception e = true ->
             fst (fst (call (method2_promiscuous_sniff w) s)) = Return false).
Proof.
  unfold counted_packets.
  destruct (packet_handlers_run (sniffed w) {| self := s; sock_bound := false |})
    as [out Hrun].
  unfold call, method2_promiscuous_sniff, sniff, try_except, try_except_clauses,
    or_return_False, bind, emit.
  rewrite Hrun.
  destruct (sniff_raise w) as [e|].
  - unfold raise. cbn. destruct (is_Exception e) eqn:He; cbn;
      repeat split; try discriminate; intros; try reflexivity; congruence.
  - cbn. repeat split; intros; try reflexivity; discriminate.
Qed.

End SnifferMethod.

Section TcpdumpInMain.
Import Sniffer Captured LadderTurn.

(** The direct listener leaves the sniffer as it was unless it returns
    [True]. *)
Lemma method1_keeps_sniffer (w : world) (s : EnhancedLidarSniffer) :
  fst (fst (call (method1_direct_udp w) s)) = Return true \/
  snd (fst (call (method1_direct_udp w) s)) = s.
Proof.
  unfold call, method1_direct_udp, try_finally, try_except, try_except_clauses,
    socket_create, sock_close, call_or_raise, recvfrom, or_return_False,
    bind, emit, get, modify, ret.
  destruct (udp_socket w) as [e1|]; [destruct e1; cbn; now right|].
  destruct (udp_bind w) as [e2|]; [destruct e2; cbn; now right|].
  cbn. destruct (running s); cbn; [|now right].
  destruct (udp_recvfrom w) as [data addr|e3]; cbn; [now left|].
  destruct e3 as [|[]| | | | |]; cbn; now right.
Qed.

(** The loop of [main] on a list that begins with the method [m]. *)
Lemma try_methods_cons (name : string) (m : method) (ms : list (string * method))
      (s s1 : EnhancedLidarSniffer) (r : result bool) (out : list main_event) :
  call m s = (r, s1, out) ->
  try_methods ((name, m) :: ms) s
  = (let '(r', s'', out') :=
       match flow_after (outcome_of r) with
       | Continue => try_methods ms
       | _ => ret false
       end s1 in
     (r', s'', ([Trying name] ++ out ++ report name r s1) ++ out')).
Proof.
  intros Hcall. cbn [try_methods]. unfold bind at 1.
  now rewrite (try_method_turn name m s s1 r out Hcall).
Qed.

Lemma recorded_FromMethod (name : string) (out : list event) (l : list main_event) :
  attempts (map FromMethod out ++ l) = attempts l.
Proof. now rewrite attempts_app, attempts_FromMethod. Qed.

Lemma attempts_report (name : string) (r : result bool) (s : EnhancedLidarSniffer) :
  attempts (report name r s) = [(name, outcome_of r)].
Proof.
  destruct r as [[|]|e]; try reflexivity.
  cbn. now destruct (is_KeyboardInterrupt e).
Qed.

(** The events of the ladder, from the run of its loop. *)
Lemma ladder_events_of (ms : list (string * method)) (s s' : EnhancedLidarSniffer)
      (b : bool) (out : list main_event) :
  try_methods ms s = (Return b, s', out) ->
  ladder_events ms s
  = out ++ (if b then [AllMethodsFailed] else [])
        ++ [FinalPacketCount (packet_count s')].
Proof.
  intros Hrun. unfold ladder_events, ladder, bind. rewrite Hrun.
  destruct b; reflexivity.
Qed.

Lemma attempts_MainBanner (out : list main_event) :
  attempts (MainBanner :: out) = attempts out.
Proof. reflexivity. Qed.

Lemma in_FromMethod_not (ev : main_event) (out : list event) :
  (forall e, ev <> FromMethod e) -> ~ In ev (map FromMethod out).
Proof.
  intros Hev Hin. apply in_map_iff in Hin. destruct Hin as (e & He & _).
  now apply (Hev e).
Qed.

(** When tcpdump is the method that succeeds in [main], the success is
    reported with a total of 0 packets and the final count is 0: the
    tcpdump method counts nothing, and the listener before it left the
    count at 0. *)
Theorem tcpdump_success_reports_zero_packets (w : world) :
  recorded "tcpdump Analysis" (attempts (main_events w)) = Some Succeeded ->
  In (TotalPackets 0) (main_events w) /\
  In (FinalPacketCount 0) (main_events w) /\
  ~ In AllMethodsFailed (main_events w).
Proof.
  rewrite main_events_ladder.
  destruct (call (method1_direct_udp w) init) as [[r1 s1] out1] eqn:H1.
  destruct (call_events (method1_direct_udp w) init) as [o1 Ho1].
  rewrite H1 in Ho1. cbn in Ho1. subst out1.
  pose proof (method1_keeps_sniffer w init) as Hkeep. rewrite H1 in Hkeep.
  cbn [fst snd] in Hkeep.
  destruct (call (method4_tcpdump_analysis w) init) as [[r4 s4] out4] eqn:H4.
  destruct (call_events (method4_tcpdump_analysis w) init) as [o4 Ho4].
  rewrite H4 in Ho4. cbn in Ho4. subst out4.
  pose proof (proj2 (method4_run w init)) as Hkeep4. rewrite H4 in Hkeep4.
  cbn [fst snd] in Hkeep4. subst s4.
  destruct (try_methods_exhausted
              [("Raw Socket Capture"%string, method3_raw_socket w);
               ("Promiscuous Sniffing"%string, method2_promiscuous_sniff w)] init)
    as (b & s' & out & Hrest & _).
  pose proof (try_methods_cons "Direct UDP Listener" (method1_direct_udp w)
                [("tcpdump Analysis"%string, method4_tcpdump_analysis w);
                 ("Raw Socket Capture"%string, method3_raw_socket w);
                 ("Promiscuous Sniffing"%string, method2_promiscuous_sniff w)]
                init s1 r1 _ H1) as Hturn1.
  fold (methods w) in Hturn1.
  destruct (flow_after (outcome_of r1)) eqn:Hflow1.
  - (* the listener did not end the loop *)
    assert (s1 = init) as ->.
    { destruct Hkeep as [-> | ->]; [discriminate|reflexivity]. }
    rewrite (try_methods_cons "tcpdump Analysis" (method4_tcpdump_analysis w)
               _ init init r4 _ H4) in Hturn1.
    destruct r4 as [[|]|e4].
    + (* tcpdump succeeds *)
      cbn [outcome_of flow_after ret report] in Hturn1.
      rewrite (ladder_events_of _ _ _ _ _ Hturn1).
      intros _. split; [|split].
      * right. apply in_or_app. left. apply in_or_app. right.
        apply in_or_app. left. apply in_or_app. right. apply in_or_app. right.
        cbn. auto.
      * right. apply in_or_app. right. cbn. auto.
      * intros [H|H]; [discriminate|].
        apply in_app_or in H. destruct H as [H|H];
          [|cbn in H; destruct H as [H|[]]; discriminate].
        rewrite app_nil_r in H.
        repeat (apply in_app_or in H; destruct H as [H|H]);
          try (apply in_FromMethod_not in H; [contradiction|discriminate]);
          try (destruct r1 as [[|]|e1]; cbn in H;
               try destruct (is_KeyboardInterrupt e1));
          cbn in H; repeat (destruct H as [H|H]; [discriminate|]);
          contradiction.
    + (* tcpdump sees nothing: its outcome is not a success *)
      cbn [outcome_of flow_after] in Hturn1. rewrite Hrest in Hturn1.
      rewrite (ladder_events_of _ _ _ _ _ Hturn1).
      intros H. exfalso. revert H. rewrite attempts_MainBanner.
      rewrite !attempts_app, !attempts_FromMethod, !attempts_report.
      cbn. discriminate.
    + (* tcpdump raises *)
      destruct (is_KeyboardInterrupt e4) eqn:Hki.
      * cbn [outcome_of flow_after] in Hturn1. rewrite Hki in Hturn1.
        cbn [flow_after ret] in Hturn1.
        rewrite (ladder_events_of _ _ _ _ _ Hturn1).
        intros H. exfalso. revert H. rewrite attempts_MainBanner.
        rewrite !attempts_app, !attempts_FromMethod, !attempts_report.
        cbn. rewrite Hki. discriminate.
      * cbn [outcome_of flow_after] in Hturn1. rewrite Hki in Hturn1.
        cbn [flow_after] in Hturn1. rewrite Hrest in Hturn1.
        rewrite (ladder_events_of _ _ _ _ _ Hturn1).
        intros H. exfalso. revert H. rewrite attempts_MainBanner.
        rewrite !attempts_app, !attempts_FromMethod, !attempts_report.
        cbn. rewrite Hki. discriminate.
  - (* the listener was interrupted: tcpdump is not tried *)
    cbn [ret] in Hturn1. rewrite (ladder_events_of _ _ _ _ _ Hturn1).
    intros H. exfalso. revert H. rewrite attempts_MainBanner.
    rewrite !attempts_app, !attempts_FromMethod, !attempts_report.
    cbn. discriminate.
  - (* the listener succeeded: tcpdump is not tried *)
    cbn [ret] in Hturn1. rewrite (ladder_events_of _ _ _ _ _ Hturn1).
    intros H. exfalso. revert H. rewrite attempts_MainBanner.
    rewrite !attempts_app, !attempts_FromMethod, !attempts_report.
    cbn. discriminate.
Qed.

End TcpdumpInMain.

Section TcpdumpInMainWitness.
Import Sniffer.

Lemma tcpdump_success_reports_zero_packets_witness :
  In (TotalPackets 0) (main_events Scenario.tcpdump_sees_packet) /\
  In (FinalPacketCount 0) (main_events Scenario.tcpdump_sees_packet) /\
  ~ In AllMethodsFailed (main_events Scenario.tcpdump_sees_packet).
Proof.
  apply (tcpdump_success_reports_zero_packets Scenario.tcpdump_sees_packet).
  vm_compute. reflexivity.
Defined.

End TcpdumpInMainWitness.

(** ** The network configuration helper *)

Section BroadcastRuns.
Import NetConfig NetConfigMain.

Variable w : NetConfig.world.

Lemma broadcasts_app (l1 l2 : list NetConfig.event) :
  broadcasts (l1 ++ l2) = broadcasts l1 ++ broadcasts l2.
Proof. apply flat_map_app. Qed.

(** The local scan returns [None]: no ping of it is ever taken for an
    answer. *)
Lemma scan_local_networks_none
      (re_findall_ipv4 : string -> list string)
      (IPv4Network_24 : string -> result (string * string)) (s : unit) :
  exists out,
    scan_local_networks re_findall_ipv4 IPv4Network_24 w s = (Return None, s, out).
Proof.
  unfold scan_local_networks, run_ipconfig, try_except, try_except_clauses, bind, emit.
  destruct (ipconfig w) as [interfaces|err].
  - destruct (scan_interfaces_run IPv4Network_24 w (re_findall_ipv4 interfaces) s)
      as [out ->].
    eexists. reflexivity.
  - eexists. reflexivity.
Qed.

(** One broadcast hands one datagram to [sendto]. *)
Lemma broadcast_to_sends (i : nat) (addr : string) (s : unit) :
  exists out,
    broadcast_to w i addr s
    = (Return (option_map (fun r => fst (snd r)) (reply w i)), s, out) /\
    broadcasts out = [(discovery_packet, (addr, 9347%Z))].
Proof.
  unfold broadcast_to, reply, sendto, NetConfig.recvfrom, try_except,
    try_except_clauses, bind, emit.
  destruct (bc_sendto w i) as [err|]; cbn.
  - eexists. split; reflexivity.
  - destruct (bc_recvfrom w i) as [data server|err]; cbn.
    + eexists. split; reflexivity.
    + destruct err; cbn; eexists; split; reflexivity.
Qed.

Lemma broadcast_loop_sends (addrs : list string) :
  forall (i : nat) (s : unit),
  exists out,
    broadcast_loop w i addrs s
    = (Return (first_reply w i (List.length addrs)), s, out) /\
    broadcasts out
    = map (fun addr => (discovery_packet, (addr, 9347%Z)))
          (firstn (rounds w i (List.length addrs)) addrs).
Proof.
  induction addrs as [|addr addrs IH]; intros i s; [now exists []|].
  destruct (broadcast_to_sends i addr s) as (out1 & H1 & Hs1).
  destruct (IH (S i) s) as (out2 & H2 & Hs2).
  cbn [broadcast_loop List.length first_reply rounds]. unfold bind. rewrite H1.
  destruct (reply w i) as [[data server]|]; cbn [option_map].
  - exists (out1 ++ []). split; [reflexivity|].
    now rewrite app_nil_r, Hs1.
  - rewrite H2. exists (out1 ++ out2). split; [reflexivity|].
    now rewrite broadcasts_app, Hs1, Hs2.
Qed.

End BroadcastRuns.

Section NetConfigFacts.
Import NetConfig NetConfigMain.

(** In the network configuration helper no ping is ever taken for an
    answer: [ping_ip] returns [False] whatever the ping process prints or
    raises, since its test of the output raises [TypeError] under a bare
    [except]; so the local scan returns [None] on every host, and steps 1
    and 2 of [main] always come down to the broadcast discovery. *)
Theorem local_scan_never_finds_a_device
        (re_findall_ipv4 : string -> list string)
        (IPv4Network_24 : string -> result (string * string))
        (w : NetConfig.world) :
  (forall ip, fst (fst (ping_ip w ip tt)) = Return false) /\
  fst (fst (scan_local_networks re_findall_ipv4 IPv4Network_24 w tt)) = Return None /\
  fst (fst (main_discovery re_findall_ipv4 IPv4Network_24 w tt))
  = fst (fst (try_hesai_broadcast_discovery w tt)).
Proof.
  destruct (scan_local_networks_none w re_findall_ipv4 IPv4Network_24 tt) as [out Hscan].
  split; [intros ip; now rewrite ping_ip_run|].
  split; [now rewrite Hscan|].
  apply main_discovery_fallback. now rewrite Hscan.
Qed.

(** The broadcast discovery sends the same 8-byte discovery datagram to
    port 9347 of the broadcast addresses in their order, and stops with
    the first broadcast that gets a reply: a failed or unanswered
    broadcast does not keep the next one from going out, and none goes
    out after a reply. *)
Theorem broadcast_goes_on_until_first_reply (w : NetConfig.world) :
  bc_socket w = None ->
  broadcasts (snd (try_hesai_broadcast_discovery w tt))
  = map (fun addr => (discovery_packet, (addr, 9347%Z)))
        (firstn (rounds w 0 (List.length broadcast_addresses)) broadcast_addresses) /\
  (forall i,
      i < List.length broadcast_addresses ->
      (forall j, j < i -> reply w j = None) ->
      reply w i <> None ->
      rounds w 0 (List.length broadcast_addresses) = S i) /\
  ((forall i, i < List.length broadcast_addresses -> reply w i = None) ->
   rounds w 0 (List.length broadcast_addresses) = List.length broadcast_addresses).
Proof.
  intros Hsock. split; [|split].
  - destruct (broadcast_loop_sends w broadcast_addresses 0 tt) as (out & Hrun & Hs).
    assert (Hout : exists final,
               snd (try_hesai_broadcast_discovery w tt)
               = [BroadcastBanner; NetConfig.SocketCreate] ++ out ++ final
               /\ broadcasts final = []).
    { unfold try_hesai_broadcast_discovery, socket_create, try_except,
        try_except_clauses, bind, emit.
      rewrite Hsock, Hrun.
      destruct (first_reply w 0 (List.length broadcast_addresses)); cbn.
      - exists []. now rewrite !app_nil_r.
      - exists [NetConfig.SocketClose]. split; reflexivity. }
    destruct Hout as (final & -> & Hfinal).
    rewrite !broadcasts_app, Hs, Hfinal. cbn. now rewrite app_nil_r.
  - assert (Hgen : forall n a i,
               a <= i < a + n ->
               (forall j, a <= j < i -> reply w j = None) ->
               reply w i <> None ->
               rounds w a n = S (i - a)).
    { induction n as [|n IH]; intros a i Hi Hbefore Hreply; [lia|].
      cbn [rounds]. destruct (Nat.eq_dec a i) as [->|Hne].
      - destruct (reply w i); [f_equal; lia|contradiction].
      - rewrite (Hbefore a) by lia.
        rewrite (IH (S a) i) by (try lia; try assumption;
                                 intros j Hj; apply Hbefore; lia).
        lia. }
    intros i Hi Hbefore Hreply.
    rewrite (Hgen _ 0 i) by (try lia; try assumption;
                             intros j Hj; apply Hbefore; lia).
    lia.
  - assert (Hgen : forall n a,
               (forall j, a <= j < a + n -> reply w j = None) ->
               rounds w a n = n).
    { induction n as [|n IH]; intros a Hnone; [reflexivity|].
      cbn [rounds]. rewrite (Hnone a) by lia. f_equal.
      apply IH. intros j Hj. apply Hnone. lia. }
    intros Hnone. apply Hgen. intros j Hj. apply Hnone. lia.
Qed.

Lemma broadcast_goes_on_until_first_reply_witness :
  broadcasts (snd (try_hesai_broadcast_discovery Scenario.sensor_answers_broadcast tt))
  = map (fun addr => (discovery_packet, (addr, 9347%Z)))
        (firstn (rounds Scenario.sensor_answers_broadcast 0
                        (List.length broadcast_addresses)) broadcast_addresses) /\
  (forall i,
      i < List.length broadcast_addresses ->
      (forall j, j < i -> reply Scenario.sensor_answers_broadcast j = None) ->
      reply Scenario.sensor_answers_broadcast i <> None ->
      rounds Scenario.sensor_answers_broadcast 0 (List.length broadcast_addresses) = S i) /\
  ((forall i, i < List.length broadcast_addresses ->
              reply Scenario.sensor_answers_broadcast i = None) ->
   rounds Scenario.sensor_answers_broadcast 0 (List.length broadcast_addresses)
   = List.length broadcast_addresses).
Proof.
  apply (broadcast_goes_on_until_first_reply Scenario.sensor_answers_broadcast).
  reflexivity.
Defined.

End NetConfigFacts.

Section Reconfiguration.
Import NetConfig NetConfigMain.

Variable re_findall_ipv4 : string -> list string.
Variable IPv4Network_24 : string -> result (string * string).
Variable inet_aton : string -> option bytes.
Variable w : NetConfigMain.world.

Lemma config_datagrams_app (l1 l2 : list NetConfigMain.event) :
  config_datagrams (l1 ++ l2) = config_datagrams l1 ++ config_datagrams l2.
Proof. apply flat_map_app. Qed.

Lemma config_datagrams_Scanner (l : list NetConfig.event) :
  config_datagrams (map Scanner l) = [].
Proof. induction l as [|ev l IH]; [reflexivity|exact IH]. Qed.

Lemma existsb_Scanner (p : NetConfigMain.event -> bool) (l : list NetConfig.event) :
  (forall ev, p (Scanner ev) = false) -> existsb p (map Scanner l) = false.
Proof.
  intros Hp. induction l as [|ev l IH]; [reflexivity|].
  cbn. now rewrite Hp, IH.
Qed.

(** A run of [configure_hesai_ip]: it returns [None], having announced
    itself, and hands [sendto] at most the one request. *)
Lemma configure_hesai_ip_run (current_ip new_ip : string) (s : unit) :
  exists out,
    configure_hesai_ip inet_aton w current_ip new_ip s = (Return None, s, out) /\
    config_datagrams out
    = match cfg_socket (config w), inet_aton new_ip with
      | None, Some packed => [(config_packet packed, (current_ip, 9347%Z))]
      | _, _ => []
      end /\
    existsb is_config_banner out = true /\
    existsb is_ready out = false /\
    (forall ip, ~ In (DeviceNowAt ip) out).
Proof.
  unfold configure_hesai_ip, call_or_raise, call_inet_aton, NetConfigMain.recvfrom,
    map_events, try_except, try_except_clauses, bind, emit, ret.
  rewrite ping_ip_run.
  destruct (cfg_socket (config w)) as [err|]; cbn.
  { eexists. repeat split; try reflexivity. intros ip [H|[H|[H|[]]]]; discriminate. }
  destruct (inet_aton new_ip) as [packed|]; cbn.
  2:{ eexists. repeat split; try reflexivity. intros ip [H|[H|[H|[]]]]; discriminate. }
  destruct (cfg_sendto (config w)) as [err|]; cbn.
  { eexists. repeat split; try reflexivity.
    intros ip H. repeat (destruct H as [H|H]; [discriminate|]). exact H. }
  destruct (cfg_recvfrom (config w)) as [data addr|err]; cbn.
  { eexists. repeat split; try reflexivity.
    intros ip H. repeat (destruct H as [H|H]; [discriminate|]). exact H. }
  destruct err; cbn; eexists; repeat split; try reflexivity;
    intros ip H; repeat (destruct H as [H|H]; [discriminate|]); exact H.
Qed.

(** Steps 1 and 2 of [main] end by returning the value of the broadcast
    discovery; they send no reconfiguration request and print no final
    report. *)
Lemma main_discovery_run (s : unit) :
  exists out,
    main_discovery re_findall_ipv4 IPv4Network_24 (scanner w) s
    = (fst (fst (try_hesai_broadcast_discovery (scanner w) s)), s, out).
Proof.
  destruct (scan_local_networks_none (scanner w) re_findall_ipv4 IPv4Network_24 s)
    as [out0 Hscan].
  destruct (try_hesai_broadcast_discovery_run (scanner w) s) as [out1 Hrun1].
  unfold main_discovery, bind. rewrite Hscan. cbn [truthy emit].
  rewrite Hrun1. cbn [fst].
  destruct (match bc_socket (scanner w) with
            | Some _ => None
            | None => first_reply (scanner w) 0 (List.length broadcast_addresses)
            end) as [[|c host]|]; cbn; eexists; reflexivity.
Qed.

End Reconfiguration.

Section ReconfigurationFacts.
Import NetConfig NetConfigMain.

(** [configure_hesai_ip] never reports the new address: whatever the
    device answers, the check of the new address is a [ping_ip], which is
    [False], so the function returns [None] on every path and never prints
    that the device is now at the new address.  What it hands to [sendto]
    is, once the socket exists and the new address packs, the one
    datagram [47 74 00 10], the packed address, and four zero bytes, for
    port 9347 of the current address. *)
Theorem reconfiguration_is_never_confirmed
        (inet_aton : string -> option bytes) (w : NetConfigMain.world)
        (current_ip new_ip : string) :
  fst (fst (configure_hesai_ip inet_aton w current_ip new_ip tt)) = Return None /\
  (forall ip, ~ In (DeviceNowAt ip)
                (snd (configure_hesai_ip inet_aton w current_ip new_ip tt))) /\
  config_datagrams (snd (configure_hesai_ip inet_aton w current_ip new_ip tt))
  = match cfg_socket (config w), inet_aton new_ip with
    | None, Some packed =>
        [([x47; x74; x00; x10] ++ packed ++ [x00; x00; x00; x00], (current_ip, 9347%Z))]
    | _, _ => []
    end.
Proof.
  destruct (configure_hesai_ip_run inet_aton w current_ip new_ip tt)
    as (out & -> & Hsent & _ & _ & Hnever).
  cbn [fst snd]. split; [reflexivity|]. split; [exact Hnever|exact Hsent].
Qed.

(** The address that [main] reports is the one the broadcast discovery
    returned, on every host: the final report says ready exactly when
    that is a non-empty address, and the reconfiguration request goes,
    once, to such an address outside 192.168.123, whose outcome changes
    nothing of the report. *)
Theorem main_reports_the_broadcast_reply
        (re_findall_ipv4 : string -> list string)
        (IPv4Network_24 : string -> result (string * string))
        (inet_aton : string -> option bytes) (w : NetConfigMain.world) :
  exists found out,
    fst (fst (try_hesai_broadcast_discovery (scanner w) tt)) = Return found /\
    NetConfigMain.main re_findall_ipv4 IPv4Network_24 inet_aton w tt
    = (Return found, tt, out) /\
    existsb is_ready out = truthy found /\
    In (match found with
        | Some (String _ _ as ip) => Ready ip
        | _ => NotFound
        end) out /\
    existsb is_config_banner out
    = match found with
      | Some (String _ _ as ip) => negb (str_starts_with "192.168.123" ip)
      | _ => false
      end /\
    config_datagrams out
    = match found with
      | Some (String _ _ as ip) =>
          if str_starts_with "192.168.123" ip then []
          else match cfg_socket (config w), inet_aton "192.168.123.201"%string with
               | None, Some packed => [(config_packet packed, (ip, 9347%Z))]
               | _, _ => []
               end
      | _ => []
      end.
Proof.
  destruct (main_discovery_run re_findall_ipv4 IPv4Network_24 w tt) as [out0 Hdisc].
  destruct (try_hesai_broadcast_discovery_run (scanner w) tt) as [out1 Hbc].
  rewrite Hbc in Hdisc |- *. cbn [fst] in Hdisc |- *.
  set (found := match bc_socket (scanner w) with
                | Some _ => None
                | None => first_reply (scanner w) 0 (List.length broadcast_addresses)
                end) in *.
  exists found.
  assert (Hscan0 : config_datagrams (map Scanner out0) = [])
    by apply config_datagrams_Scanner.
  assert (Hready0 : existsb is_ready (map Scanner out0) = false)
    by (apply existsb_Scanner; reflexivity).
  assert (Hbanner0 : existsb is_config_banner (map Scanner out0) = false)
    by (apply existsb_Scanner; reflexivity).
  unfold NetConfigMain.main, map_events, bind. cbn [emit]. rewrite Hdisc.
  destruct found as [[|c host]|]; cbn [main_configuration ret].
  - exists ([MainBanner] ++ map Scanner out0 ++ [NotFound]).
    split; [reflexivity|]. split; [reflexivity|].
    rewrite !existsb_app, !config_datagrams_app, Hscan0, Hready0, Hbanner0.
    repeat split; try reflexivity.
    cbn. right. apply in_or_app. right. cbn. auto.
  - unfold bind. cbn [emit].
    destruct (str_starts_with "192.168.123" (String c host)) eqn:Hrobot; cbn [negb ret].
    + exists ([MainBanner] ++ map Scanner out0
                ++ [DeviceFoundAt (String c host)] ++ [Ready (String c host)]).
      split; [reflexivity|]. split; [reflexivity|].
      rewrite !existsb_app, !config_datagrams_app, Hscan0, Hready0, Hbanner0.
      repeat split; try reflexivity.
      cbn. right. apply in_or_app. right. cbn. auto.
    + destruct (configure_hesai_ip_run inet_aton w (String c host) "192.168.123.201" tt)
        as (out2 & Hcfg & Hsent & Hbanner & Hready & _).
      rewrite Hcfg. cbn [truthy ret].
      exists ([MainBanner] ++ map Scanner out0
                ++ [DeviceFoundAt (String c host)] ++ [RecommendingChange]
                ++ out2 ++ [Ready (String c host)]).
      split; [reflexivity|]. split; [now rewrite <- !app_assoc|].
      rewrite !existsb_app, !config_datagrams_app, Hscan0, Hready0, Hbanner0,
        Hsent, Hbanner, Hready.
      split; [cbn; reflexivity|].
      split; [cbn; right; apply in_or_app; right; cbn; right; right;
              apply in_or_app; right; cbn; auto|].
      split; [reflexivity|]. cbn. now rewrite app_nil_r.
  - exists ([MainBanner] ++ map Scanner out0 ++ [NotFound]).
    split; [reflexivity|]. split; [reflexivity|].
    rewrite !existsb_app, !config_datagrams_app, Hscan0, Hready0, Hbanner0.
    repeat split; try reflexivity.
    cbn. right. apply in_or_app. right. cbn. auto.
Qed.

End ReconfigurationFacts.

(** ** The quick check *)

Section QuickVerdictRuns.
Import QuickCheck QuickVerdict.

Variable w : QuickCheck.world.

Lemma quick_devices_tested_app (l1 l2 : list QuickCheck.event) :
  devices_tested (l1 ++ l2) = devices_tested l1 ++ devices_tested l2.
Proof. apply flat_map_app. Qed.

Lemma start_commands_app (l1 l2 : list QuickCheck.event) :
  start_commands (l1 ++ l2) = start_commands l1 ++ start_commands l2.
Proof. apply flat_map_app. Qed.

(** One listening test: its value, and that it closes its socket only
    when a datagram arrived. *)
Lemma test_udp_data_value (lw : listen_world) (ip : string) (port : Z) (s : unit) :
  exists out,
    test_udp_data lw ip port s = (Return (delivers lw), s, out) /\
    devices_tested out = [] /\ start_commands out = [] /\
    existsb is_socket_close out = delivers lw.
Proof.
  unfold test_udp_data, delivers, call_or_raise, recvfrom, try_except_clauses,
    bind, emit.
  destruct (l_socket lw) as [e1|]; cbn.
  - destruct e1; eexists; repeat split; reflexivity.
  - destruct (l_bind lw) as [e2|]; cbn.
    + destruct e2; eexists; repeat split; reflexivity.
    + destruct (l_recvfrom lw) as [data addr|e3]; cbn.
      * eexists; repeat split; reflexivity.
      * destruct e3; eexists; repeat split; reflexivity.
Qed.

(** One activation: its value and the command it hands to [sendto]. *)
Lemma send_activation_command_value (cw : control_world) (ip : string) (s : unit) :
  exists out,
    send_activation_command cw ip s = (Return (activates cw), s, out) /\
    devices_tested out = [] /\
    start_commands out
    = match c_socket cw with
      | None => [(start_cmd, (ip, 9347%Z))]
      | Some _ => []
      end.
Proof.
  unfold send_activation_command, activates, call_or_raise, recvfrom, try_except,
    try_except_clauses, bind, emit.
  destruct (c_socket cw) as [e1|]; cbn.
  - eexists; repeat split; reflexivity.
  - destruct (c_sendto cw) as [e2|]; cbn.
    + eexists; repeat split; reflexivity.
    + destruct (c_recvfrom cw) as [data addr|e3]; cbn.
      * eexists; repeat split; reflexivity.
      * destruct e3; eexists; repeat split; reflexivity.
Qed.

Lemma test_device_value (ip : string) (success : bool) :
  exists out,
    test_device w ip success = (Return tt, success || working w ip, out) /\
    devices_tested out = [ip] /\
    start_commands out
    = if started w ip then [(start_cmd, (ip, 9347%Z))] else [].
Proof.
  unfold test_device, working, started, call_with.
  destruct (test_udp_data_value (udp w ip false) ip 2368%Z tt)
    as (out1 & H1 & Ht1 & Hc1 & _).
  destruct (send_activation_command_value (control w ip) ip tt)
    as (out2 & H2 & Ht2 & Hc2).
  destruct (test_udp_data_value (udp w ip true) ip 2368%Z tt)
    as (out3 & H3 & Ht3 & Hc3 & _).
  unfold bind, emit, modify. rewrite H1.
  destruct (delivers (udp w ip false)); cbn [orb andb negb].
  { exists ([TestingDevice ip] ++ out1 ++ [AlreadyActive ip]).
    rewrite orb_true_r. split; [reflexivity|].
    rewrite !quick_devices_tested_app, !start_commands_app, Ht1, Hc1.
    split; reflexivity. }
  rewrite H2. destruct (activates (control w ip)); cbn [orb andb].
  - rewrite H3.
    destruct (delivers (udp w ip true)).
    + exists ([TestingDevice ip] ++ out1 ++ out2 ++ [Sleep] ++ out3 ++ [Activated ip]).
      rewrite orb_true_r. split; [reflexivity|].
      rewrite !quick_devices_tested_app, !start_commands_app,
        Ht1, Hc1, Ht2, Hc2, Ht3, Hc3.
      split; [reflexivity|].
      destruct (c_socket (control w ip)); reflexivity.
    + exists ([TestingDevice ip] ++ out1 ++ out2 ++ [Sleep] ++ out3 ++ [ActivatedNoData]).
      rewrite orb_false_r. split; [reflexivity|].
      rewrite !quick_devices_tested_app, !start_commands_app,
        Ht1, Hc1, Ht2, Hc2, Ht3, Hc3.
      split; [reflexivity|].
      destruct (c_socket (control w ip)); reflexivity.
  - exists ([TestingDevice ip] ++ out1 ++ out2 ++ []).
    rewrite orb_false_r. split; [reflexivity|].
    rewrite !quick_devices_tested_app, !start_commands_app, Ht1, Hc1, Ht2, Hc2.
    split; [reflexivity|].
    destruct (c_socket (control w ip)); reflexivity.
Qed.

Lemma test_devices_value (ips : list string) :
  forall success : bool,
  exists out,
    for_each (test_device w) ips success
    = (Return tt, success || existsb (working w) ips, out) /\
    devices_tested out = ips /\
    start_commands out
    = map (fun ip => (start_cmd, (ip, 9347%Z))) (filter (started w) ips).
Proof.
  induction ips as [|ip ips IH]; intros success.
  - exists []. cbn. now rewrite orb_false_r.
  - destruct (test_device_value ip success) as (out1 & H1 & Ht1 & Hc1).
    destruct (IH (success || working w ip)) as (out2 & H2 & Ht2 & Hc2).
    cbn [for_each]. unfold bind. rewrite H1, H2.
    exists (out1 ++ out2).
    rewrite quick_devices_tested_app, start_commands_app, Ht1, Hc1, Ht2, Hc2.
    cbn [existsb filter]. rewrite orb_assoc.
    split; [reflexivity|]. split; [reflexivity|].
    destruct (started w ip); reflexivity.
Qed.

Lemma ping_probe_silent (ip : string) (found : list string) :
  devices_tested (snd (ping_probe w ip found)) = [] /\
  start_commands (snd (ping_probe w ip found)) = [].
Proof.
  unfold ping_probe, run_ping, try_except, try_except_clauses, bind, emit, modify.
  destruct (ping w ip) as [stdout|e]; cbn.
  - destruct (str_in "TTL=" stdout); split; reflexivity.
  - split; reflexivity.
Qed.

Lemma ping_loop_silent (ips : list string) :
  forall found : list string,
    devices_tested (snd (for_each (ping_probe w) ips found)) = [] /\
    start_commands (snd (for_each (ping_probe w) ips found)) = [].
Proof.
  induction ips as [|ip ips IH]; intros found; [split; reflexivity|].
  destruct (ping_probe_run w ip found) as (out1 & H1 & _).
  pose proof (ping_probe_silent ip found) as [Ht1 Hc1].
  rewrite H1 in Ht1, Hc1. cbn [snd] in Ht1, Hc1.
  cbn [for_each]. unfold bind. rewrite H1.
  specialize (IH (found ++ (if responds w ip then [ip] else []))).
  destruct (for_each (ping_probe w) ips _) as [[r s'] out2].
  cbn [snd] in IH |- *. destruct IH as [Ht2 Hc2].
  now rewrite quick_devices_tested_app, start_commands_app, Ht1, Hc1, Ht2, Hc2.
Qed.

(** [main] over a candidate list: the verdict, the devices tested and the
    start commands sent. *)
Lemma main_over_value (ips : list string) (s : bool) :
  exists e s' out,
    main_over w ips s = (Return e, s', out) /\
    e = match filter (responds w) ips with
        | [] => ReturnedNoDevices
        | _ :: _ =>
            if existsb (working w) (filter (responds w) ips)
            then FinishedWorking else FinishedNotFound
        end /\
    devices_tested out = filter (responds w) ips /\
    start_commands out
    = map (fun ip => (start_cmd, (ip, 9347%Z)))
          (filter (started w) (filter (responds w) ips)).
Proof.
  destruct (ping_loop_run w ips []) as (out0 & Hloop & _).
  pose proof (ping_loop_silent ips []) as [Ht0 Hc0].
  rewrite Hloop in Ht0, Hc0. cbn [snd] in Ht0, Hc0.
  assert (Hping : ping_addresses w ips []
                  = (Return (filter (responds w) ips), filter (responds w) ips,
                     [ScanBanner] ++ out0)).
  { unfold ping_addresses, bind. cbn [emit modify]. rewrite Hloop. cbn.
    now rewrite app_nil_r. }
  unfold main_over, call_with, bind. cbn [emit]. rewrite Hping.
  destruct (filter (responds w) ips) as [|ip found] eqn:Hfound.
  - exists ReturnedNoDevices, s, ([MainBanner; PowerCheckText; ScanBanner] ++ out0 ++ [NoHesaiFound]).
    split; [reflexivity|]. split; [reflexivity|].
    rewrite !quick_devices_tested_app, !start_commands_app, Ht0, Hc0.
    split; reflexivity.
  - destruct (test_devices_value (ip :: found) false) as (out1 & Htest & Ht1 & Hc1).
    cbn [modify]. rewrite Htest. cbn [orb get].
    destruct (existsb (working w) (ip :: found)).
    + exists FinishedWorking, true,
        ([MainBanner; PowerCheckText; ScanBanner] ++ out0 ++ out1 ++ [SummaryWorking]).
      split; [cbn; rewrite <- ?app_assoc; reflexivity|]. split; [reflexivity|].
      rewrite !quick_devices_tested_app, !start_commands_app, Ht0, Hc0, Ht1, Hc1.
      cbn. now rewrite !app_nil_r.
    + exists FinishedNotFound, false,
        ([MainBanner; PowerCheckText; ScanBanner] ++ out0 ++ out1 ++ [SummaryNotFound]).
      split; [cbn; rewrite <- ?app_assoc; reflexivity|]. split; [reflexivity|].
      rewrite !quick_devices_tested_app, !start_commands_app, Ht0, Hc0, Ht1, Hc1.
      cbn. now rewrite !app_nil_r.
Qed.

End QuickVerdictRuns.

Section QuickCheckFacts.
Import QuickCheck QuickVerdict.

(** The scan of the quick check returns exactly the candidates whose
    ping output has "TTL=" in it, in the order of the list, after one
    ping of each candidate: a ping that raises, whatever it raises, is
    printed as failed and the scan goes on with the next candidate. *)
Theorem quick_scan_returns_the_responders (w : QuickCheck.world) (found0 : list string) :
  exists s out,
    ping_hesai_addresses w found0 = (Return (filter (responds w) test_ips), s, out) /\
    network_operations out = map (fun ip => RunPing ip ping_timeout) test_ips /\
    (forall ip, In ip (filter (responds w) test_ips) <->
                In ip test_ips /\ exists stdout,
                    ping w ip = PingDone stdout /\ str_in "TTL=" stdout = true).
Proof.
  destruct (ping_addresses_run w test_ips found0) as (s & out & Hrun & Hops).
  exists s, out. split; [exact Hrun|]. split; [exact Hops|].
  intros ip. rewrite filter_In. unfold responds.
  split; intros [Hin H]; (split; [exact Hin|]).
  - destruct (ping w ip) as [stdout|e]; [|discriminate]. now exists stdout.
  - destruct H as (stdout & -> & H). exact H.
Qed.


(** [send_activation_command] answers [True] without any reply from the
    device: it is enough that the socket is created, that [sendto] takes
    the 8-byte start command for port 9347 of the address, and that the
    wait for the reply ends in a datagram or in the timeout.  Any other
    error of the wait makes it [False], though the command was sent. *)
Theorem activation_true_without_reply (cw : control_world) (ip : string) :
  exists out,
    send_activation_command cw ip tt = (Return (activates cw), tt, out) /\
    start_commands out
    = match c_socket cw with
      | None => [([x47; x74; x00; x01; x00; x00; x00; x00], (ip, 9347%Z))]
      | Some _ => []
      end /\
    (activates cw = true <->
     c_socket cw = None /\ c_sendto cw = None /\
     forall err, c_recvfrom cw = RecvRaise err -> err = ETIMEDOUT).
Proof.
  destruct (send_activation_command_value cw ip tt) as (out & Hrun & _ & Hsent).
  exists out. split; [exact Hrun|]. split; [exact Hsent|].
  unfold activates.
  destruct (c_socket cw) as [e1|].
  { split; [discriminate|]. intros (H & _). discriminate. }
  destruct (c_sendto cw) as [e2|].
  { split; [discriminate|]. intros (_ & H & _). discriminate. }
  destruct (c_recvfrom cw) as [payload sender|err].
  { split; [|reflexivity]. intros _. repeat split. discriminate. }
  destruct err; split; try discriminate; try reflexivity;
    try (intros (_ & _ & H); specialize (H _ eq_refl); discriminate).
  intros _. repeat split. now intros err [= <-].
Qed.


(** [main] of the quick check goes through every candidate that
    answered the ping, in their order, also after one of them was found
    working; and it sends the start command only to those of them that
    did not deliver data at once, one command each. *)
Theorem quick_check_tests_every_responder (w : QuickCheck.world) (success0 : bool) :
  devices_tested (snd (run (QuickCheck.main w) success0)) = filter (responds w) test_ips /\
  start_commands (snd (run (QuickCheck.main w) success0))
  = map (fun ip => (start_cmd, (ip, 9347%Z)))
        (filter (fun ip => negb (delivers (udp w ip false)) &&
                           match c_socket (control w ip) with
                           | None => true
                           | Some _ => false
                           end)
                (filter (responds w) test_ips)).
Proof.
  destruct (main_over_value w test_ips success0) as (e & s' & out & Hrun & _ & Ht & Hc).
  unfold run, QuickCheck.main. rewrite Hrun. cbn [snd].
  split; [exact Ht|exact Hc].
Qed.

End QuickCheckFacts.
